(** * Deadline reminder scheduler of the student bot (GitHub.py)

    A shallow embedding of the deadline stores, the sent-reminder ledgers
    and the two periodic checks ([GlobalDeadlineManager.check_deadlines],
    [UserDeadlineManager.check_personal_deadlines]), followed by the
    properties of the specification.

    Modelling conventions.
    - A Python [str] is a Rocq [string] holding its UTF-8 encoding;
      where the program looks at single characters (the date format) the
      bytes are decoded to code points first.
    - A Python [int] is a [Z]; a Python [float] is an IEEE-754 binary64
      value, computed with the executable operations of [SpecFloat].
    - A [dict] used only through membership and item assignment (the
      ledgers) is a [gmap]; the personal store, which is iterated in
      insertion order, is an association list.
    - The messaging transport is an arbitrary state machine [Bot] whose
      [send_message] either returns or raises; every theorem holds for all
      transports.
    - The managers are first taken as the objects in memory: writing the
      JSON files ([save_deadlines], [save_reminders]) changes no attribute,
      and returns as long as the data directory can be made. The files,
      the outcomes of the writes and the error of [mkdir] come with
      [Database] and the managers with files further down. *)

From Stdlib Require Import ZArith String Ascii List Bool Lia SpecFloat.
From stdpp Require Import base option list gmap strings pretty.
Import ListNotations.

Open Scope Z_scope.

(** ** The Python runtime used by the managers *)

Module Py.

(** *** float: IEEE-754 binary64 *)

Definition prec : Z := 53.
Definition emax : Z := 1024.

Definition float : Type := spec_float.

(** [float(z)]: the nearest binary64 value, ties to even. *)
Definition float_of_int (z : Z) : float := binary_normalize prec emax z 0 false.

(** [a / b] on two ints with [b > 0]: the correctly rounded quotient. *)
Definition int_true_div (a b : Z) : float :=
  match a, b with
  | Z0, Zpos _ => S754_zero false
  | Zpos p, Zpos q => SFdiv prec emax (S754_finite false p 0) (S754_finite false q 0)
  | Zneg p, Zpos q => SFdiv prec emax (S754_finite true p 0) (S754_finite false q 0)
  | _, _ => S754_nan
  end.

Definition float_div (x y : float) : float := SFdiv prec emax x y.
Definition float_sub (x y : float) : float := SFsub prec emax x y.
Definition float_le (x y : float) : bool := SFleb x y.
Definition float_lt (x y : float) : bool := SFltb x y.

(** *** str, int() and the regular expression of [%d.%m.%Y] *)

Definition code (c : ascii) : Z := Z.of_N (N_of_ascii c).

Definition between (lo hi : ascii) (c : ascii) : bool :=
  (code lo <=? code c) && (code c <=? code hi).

Definition digit : ascii -> bool := between "0" "9".
Definition is_char (a : ascii) (c : ascii) : bool := code a =? code c.

(** The code points of a [str]. *)
Definition str : Type := list Z.

(** The code points whose UTF-8 encoding a [string] holds: [need] bytes of
    the current code point are still to come, [acc] is what its bytes gave
    so far, and [lo] is the least code point that takes this many bytes.
    [None] on bytes that encode no [str] (a stray or missing continuation
    byte, an overlong form, a surrogate, a value above U+10FFFF). *)
Fixpoint decode_from (need : nat) (acc lo : Z) (s : string) : option str :=
  match s with
  | EmptyString => match need with O => Some [] | S _ => None end
  | String c r =>
      let b := code c in
      match need with
      | O =>
          if b <? 128 then cons b <$> decode_from 0 0 0 r
          else if (192 <=? b) && (b <? 224) then decode_from 1 (b - 192) 128 r
          else if (224 <=? b) && (b <? 240) then decode_from 2 (b - 224) 2048 r
          else if (240 <=? b) && (b <? 248) then decode_from 3 (b - 240) 65536 r
          else None
      | S n =>
          if (128 <=? b) && (b <? 192) then
            let cp := acc * 64 + (b - 128) in
            match n with
            | O =>
                if (lo <=? cp) && (cp <=? 1114111)
                   && negb ((55296 <=? cp) && (cp <=? 57343))
                then cons cp <$> decode_from 0 0 0 r
                else None
            | S _ => decode_from n cp lo r
            end
          else None
      end
  end.

Definition decode (s : string) : option str := decode_from 0 0 0 s.

(** The digits zero of the decimal digits (category Nd) of Unicode 14.0,
    the character database of CPython 3.11; each is followed by its digits
    one to nine. *)
Definition decimal_zeros : list Z :=
  [48; 1632; 1776; 1984; 2406; 2534; 2662; 2790; 2918; 3046; 3174; 3302; 3430;
   3558; 3664; 3792; 3872; 4160; 4240; 6112; 6160; 6470; 6608; 6784; 6800; 6992;
   7088; 7232; 7248; 42528; 43216; 43264; 43472; 43504; 43600; 44016; 65296;
   66720; 68912; 69734; 69872; 69942; 70096; 70384; 70736; 70864; 71248; 71360;
   71472; 71904; 72016; 72784; 73040; 73120; 92768; 92864; 93008; 120782; 120792;
   120802; 120812; 120822; 123200; 123632; 125264; 130032].

(** The value of a decimal digit of any script ([unicodedata.decimal]). *)
Definition decimal (cp : Z) : option Z :=
  (fun zero => cp - zero)
    <$> List.find (fun zero => (zero <=? cp) && (cp <=? zero + 9)) decimal_zeros.

(** [\d] in a [str] pattern: any decimal digit. *)
Definition isdecimal (cp : Z) : bool :=
  match decimal cp with Some _ => true | None => false end.

(** A class [[lo-hi]] and a literal character of the pattern. *)
Definition range (lo hi : ascii) (cp : Z) : bool := (code lo <=? cp) && (cp <=? code hi).
Definition char (a : ascii) (cp : Z) : bool := cp =? code a.

Fixpoint int_digits (acc : Z) (s : str) : option Z :=
  match s with
  | [] => Some acc
  | c :: s' =>
      match decimal c with
      | Some v => int_digits (10 * acc + v) s'
      | None => None
      end
  end.

Fixpoint lstrip (s : str) : str :=
  match s with
  | c :: s' => if char " " c then lstrip s' else s
  | [] => s
  end.

(** [int(s)] on the text of a matched group: optional blanks, then
    decimal digits of any script; [None] stands for [ValueError]. *)
Definition int (s : str) : option Z :=
  match lstrip s with
  | [] => None
  | t => int_digits 0 t
  end.

(** A pattern consumes a prefix of the text; its results are the
    candidate (group, rest) pairs in the order the backtracking matcher
    of [re] tries them. *)
Definition pattern : Type := str -> list (str * str).

Definition one (p : Z -> bool) : pattern := fun s =>
  match s with
  | a :: r => if p a then [([a], r)] else []
  | _ => []
  end.

Definition two (p1 p2 : Z -> bool) : pattern := fun s =>
  match s with
  | a :: b :: r => if p1 a && p2 b then [([a; b], r)] else []
  | _ => []
  end.

Definition alt (x y : pattern) : pattern := fun s => x s ++ y s.

Definition lit (a : ascii) (s : str) : list str :=
  match s with
  | c :: r => if char a c then [r] else []
  | _ => []
  end.

(** ['d': 3[0-1]|[1-2]\d|0[1-9]|[1-9]| [1-9]] *)
Definition re_d : pattern :=
  alt (two (char "3") (range "0" "1"))
 (alt (two (range "1" "2") isdecimal)
 (alt (two (char "0") (range "1" "9"))
 (alt (one (range "1" "9"))
      (two (char " ") (range "1" "9"))))).

(** ['m': 1[0-2]|0[1-9]|[1-9]] *)
Definition re_m : pattern :=
  alt (two (char "1") (range "0" "2"))
 (alt (two (char "0") (range "1" "9"))
      (one (range "1" "9"))).

(** ['Y': \d\d\d\d] *)
Definition re_Y : pattern := fun s =>
  match s with
  | a :: b :: c :: d :: r =>
      if isdecimal a && isdecimal b && isdecimal c && isdecimal d
      then [([a; b; c; d], r)]
      else []
  | _ => []
  end.

(** The compiled format [(?P<d>..)\.(?P<m>..)\.(?P<Y>..)]: all the ways
    to match a prefix of the text, first choice first. *)
Definition format_regex (s : str) : list (str * str * str * str) :=
  flat_map (fun '(d, r1) =>
  flat_map (fun r2 =>
  flat_map (fun '(m, r3) =>
  flat_map (fun r4 =>
  flat_map (fun '(Y, r5) => [(d, m, Y, r5)])
    (re_Y r4)) (lit "." r3)) (re_m r2)) (lit "." r1)) (re_d s).

(** *** date and datetime *)

Record datetime : Type := mk_datetime {
  year : Z; month : Z; day : Z;
  hour : Z; minute : Z; second : Z; microsecond : Z
}.

Definition is_leap (y : Z) : bool :=
  (y mod 4 =? 0) && (negb (y mod 100 =? 0) || (y mod 400 =? 0)).

Definition days_in_month (y m : Z) : Z :=
  if (m =? 2) && is_leap y then 29
  else nth (Z.to_nat m) [-1; 31; 28; 31; 30; 31; 30; 31; 31; 30; 31; 30; 31] 0.

Definition days_before_month (y m : Z) : Z :=
  nth (Z.to_nat m) [-1; 0; 31; 59; 90; 120; 151; 181; 212; 243; 273; 304; 334] 0
  + (if (2 <? m) && is_leap y then 1 else 0).

Definition days_before_year (y : Z) : Z :=
  let y1 := y - 1 in y1 * 365 + y1 / 4 - y1 / 100 + y1 / 400.

(** The range checks of the [date] constructor (MINYEAR = 1, MAXYEAR = 9999). *)
Definition check_date_fields (y m d : Z) : bool :=
  (1 <=? y) && (y <=? 9999) && (1 <=? m) && (m <=? 12)
  && (1 <=? d) && (d <=? days_in_month y m).

(** [datetime.strptime(s, "%d.%m.%Y")]; [None] stands for [ValueError]
    (no match, unconverted data remaining, or field out of range). *)
Definition strptime (s : string) : option datetime :=
  match format_regex <$> decode s with
  | Some ((d, m, Y, rest) :: _) =>
      match rest, int Y, int m, int d with
      | [], Some y, Some mo, Some dd =>
          if check_date_fields y mo dd
          then Some (mk_datetime y mo dd 0 0 0 0)
          else None
      | _, _, _, _ => None
      end
  | _ => None
  end.

Definition toordinal (t : datetime) : Z :=
  days_before_year (year t) + days_before_month (year t) (month t) + day t.

(** A [timedelta] is represented by its exact length in microseconds. *)
Definition timedelta : Type := Z.

(** [a - b] on two naive datetimes. *)
Definition datetime_sub (a b : datetime) : timedelta :=
  ((toordinal a - toordinal b) * 86400
   + ((second a + minute a * 60 + hour a * 3600)
      - (second b + minute b * 60 + hour b * 3600))) * 1000000
  + (microsecond a - microsecond b).

(** [td.total_seconds()]: microseconds / 10**6 as an int true division. *)
Definition total_seconds (td : timedelta) : float := int_true_div td 1000000.

Definition zfill (width : nat) (z : Z) : string :=
  let s := pretty z in
  String.concat EmptyString (replicate (width - String.length s) "0"%string) +:+ s.

(** [t.strftime("%Y-%m-%d %H:%M:%S")] (years of four digits). *)
Definition strftime (t : datetime) : string :=
  zfill 4 (year t) +:+ "-" +:+ zfill 2 (month t) +:+ "-" +:+ zfill 2 (day t)
  +:+ " " +:+ zfill 2 (hour t) +:+ ":" +:+ zfill 2 (minute t) +:+ ":"
  +:+ zfill 2 (second t).

(** *** dict with [str] keys, in insertion order *)

Definition dict (V : Type) : Type := list (string * V).

(** [d.get(k)] *)
Fixpoint dict_get {V : Type} (k : string) (d : dict V) : option V :=
  match d with
  | [] => None
  | (k', v) :: d' => if String.eqb k k' then Some v else dict_get k d'
  end.

(** [d[k] = v]: an existing key keeps its position, a new key goes last. *)
Fixpoint dict_set {V : Type} (k : string) (v : V) (d : dict V) : dict V :=
  match d with
  | [] => [(k, v)]
  | (k', v') :: d' =>
      if String.eqb k k' then (k, v) :: d' else (k', v') :: dict_set k v d'
  end.

Definition keys {V : Type} (d : dict V) : list string := map fst d.

End Py.

(** ** Configuration *)

Module Config.
Definition CHECK_INTERVAL : Z := 60.
Definition REMINDER_HOURS : list Z := [24; 72; 120].
End Config.

(** ** Data model *)

(** A stored deadline: the JSON object written by [add_deadline]. *)
Record Deadline : Type := mk_deadline {
  subject : string;
  task : string;
  deadline : string;
  created_at : string
}.

Abbreviation ledger := (gmap string string).

(** The two scopes; each has its own store and its own ledger. *)
Inductive scope : Type := Shared | Personal.

(** What a check does to the outside world, in program order. [Attempt]
    is one call of [send_message] ([delivered] is [false] when the call
    raised and the error was logged); its [key] names the reminder being
    dispatched. [Marked] is the assignment to [sent_reminders]. *)
Inductive event : Type :=
  | Attempt (sc : scope) (key chat_id text : string) (delivered : bool)
  | Marked (sc : scope) (key stamp : string).

(** The messaging transport: [send_message bot chat_id text] returns the
    next transport state and whether the call returned normally. *)
Class Transport (Bot : Type) : Type :=
  send_message : Bot -> string -> string -> Bot * bool.

(** A loop body: a state transformer that also emits events. *)
Definition action (S : Type) : Type := S -> S * list event.

(** [for x in xs: body(x)] *)
Fixpoint for_each {A S : Type} (xs : list A) (body : A -> action S) : action S :=
  fun s =>
    match xs with
    | [] => (s, [])
    | x :: xs' =>
        let '(s1, e1) := body x s in
        let '(s2, e2) := for_each xs' body s1 in
        (s2, e1 ++ e2)
    end.

(** ** Threshold evaluation, as written in both checks *)

(** [hours_left = (dt - now).total_seconds() / 3600] *)
Definition hours_left (dt now : Py.datetime) : Py.float :=
  Py.float_div (Py.total_seconds (Py.datetime_sub dt now)) (Py.float_of_int 3600).

(** [lb = h - (Config.CHECK_INTERVAL / 3600)] *)
Definition lb (h : Z) : Py.float :=
  Py.float_sub (Py.float_of_int h) (Py.int_true_div Config.CHECK_INTERVAL 3600).

(** [h >= hours_left > lb] *)
Definition in_window (h : Z) (hl : Py.float) : bool :=
  Py.float_le hl (Py.float_of_int h) && Py.float_lt (lb h) hl.

Definition nl : string := String (ascii_of_nat 10) EmptyString.

Definition note (h : Z) : string :=
  if h =? 24 then "Остался 1 день"
  else if h =? 72 then "Осталось 3 дня"
  else if h =? 120 then "Осталось 5 дней"
  else "Осталось " +:+ pretty h +:+ " часов".

Definition message (header : string) (dl : Deadline) (h : Z) : string :=
  "⚠️ (" +:+ header +:+ ")" +:+ nl +:+ nl
  +:+ "📚 Предмет: " +:+ subject dl +:+ nl
  +:+ "📝 Задание: " +:+ task dl +:+ nl
  +:+ "⏰ Дедлайн: " +:+ deadline dl +:+ nl
  +:+ "❗ " +:+ note h.

(** ** Shared deadlines *)

Module GlobalDeadlineManager.

Record t : Type := mk {
  deadlines : list Deadline;
  sent_reminders : ledger
}.

(** [now] is the clock read by [datetime.now()] for [created_at]. *)
Definition add_deadline (now : Py.datetime) (subject task date_str : string)
    (self : t) : t * bool :=
  match Py.strptime date_str with
  | Some _ =>
      let item := mk_deadline subject task date_str (Py.strftime now) in
      (mk (deadlines self ++ [item]) (sent_reminders self), true)
  | None => (self, false)
  end.

Definition get_deadlines (self : t) : list Deadline := deadlines self.

Definition remove_deadline (index : Z) (self : t) : t * bool :=
  if (0 <=? index) && (index <? Z.of_nat (length (deadlines self))) then
    (mk (delete (Z.to_nat index) (deadlines self)) (sent_reminders self), true)
  else (self, false).

Definition reminder_key (dl : Deadline) (h : Z) : string :=
  subject dl +:+ "_" +:+ deadline dl +:+ "_" +:+ pretty h.

Section Check.
Context {Bot : Type} `{!Transport Bot}.
Variable all_users : list string.
Variable now : Py.datetime.

(** The body of [for h in Config.REMINDER_HOURS]. *)
Definition remind (dl : Deadline) (hl : Py.float) (h : Z) : action (Bot * ledger) :=
  fun '(bot, sent) =>
    if in_window h hl then
      let key := reminder_key dl h in
      match sent !! key with
      | None =>
          let msg := message "Глобальный дедлайн" dl h in
          let '(bot', evs) :=
            for_each all_users (fun uid b =>
              let '(b', ok) := send_message b uid msg in
              (b', [Attempt Shared key uid msg ok])) bot in
          let stamp := Py.strftime now in
          ((bot', <[key := stamp]> sent), evs ++ [Marked Shared key stamp])
      | Some _ => ((bot, sent), [])
      end
    else ((bot, sent), []).

(** The body of [for dl in self.deadlines]; a [ValueError] from
    [strptime] leads to [continue]. *)
Definition check_deadline (dl : Deadline) : action (Bot * ledger) :=
  match Py.strptime (deadline dl) with
  | Some dt => for_each Config.REMINDER_HOURS (remind dl (hours_left dt now))
  | None => fun s => (s, [])
  end.
End Check.

(** [user_manager] is [context.bot_data.get('user_manager')]: [None], or
    the registered users in the iteration order of the set. *)
Definition check_deadlines {Bot : Type} `{!Transport Bot}
    (user_manager : option (list string)) (now : Py.datetime)
    (bot : Bot) (self : t) : Bot * t * list event :=
  match user_manager with
  | None => (bot, self, [])
  | Some all_users =>
      let '((bot', sent'), evs) :=
        for_each (deadlines self) (check_deadline all_users now)
                 (bot, sent_reminders self) in
      (bot', mk (deadlines self) sent', evs)
  end.

End GlobalDeadlineManager.

(** ** Personal deadlines *)

Module UserDeadlineManager.

Record t : Type := mk {
  deadlines : Py.dict (list Deadline);
  sent_reminders : ledger
}.

Definition add_deadline (now : Py.datetime) (user_id subject task date_str : string)
    (self : t) : t * bool :=
  match Py.strptime date_str with
  | Some _ =>
      let d1 :=
        match Py.dict_get user_id (deadlines self) with
        | None => Py.dict_set user_id [] (deadlines self)
        | Some _ => deadlines self
        end in
      let item := mk_deadline subject task date_str (Py.strftime now) in
      let arr := default [] (Py.dict_get user_id d1) in
      (mk (Py.dict_set user_id (arr ++ [item]) d1) (sent_reminders self), true)
  | None => (self, false)
  end.

(** [self.deadlines.get(user_id, [])] *)
Definition get_user_deadlines (user_id : string) (self : t) : list Deadline :=
  default [] (Py.dict_get user_id (deadlines self)).

Definition remove_deadline (user_id : string) (index : Z) (self : t) : t * bool :=
  let arr := default [] (Py.dict_get user_id (deadlines self)) in
  if (0 <=? index) && (index <? Z.of_nat (length arr)) then
    (mk (Py.dict_set user_id (delete (Z.to_nat index) arr) (deadlines self))
        (sent_reminders self), true)
  else (self, false).

Definition r_key (user_id : string) (dl : Deadline) (h : Z) : string :=
  user_id +:+ "_" +:+ subject dl +:+ "_" +:+ deadline dl +:+ "_" +:+ pretty h.

Section Check.
Context {Bot : Type} `{!Transport Bot}.
Variable now : Py.datetime.

(** The body of [for h in Config.REMINDER_HOURS]. *)
Definition remind (user_id : string) (dl : Deadline) (hl : Py.float) (h : Z)
    : action (Bot * ledger) :=
  fun '(bot, sent) =>
    if in_window h hl then
      let key := r_key user_id dl h in
      match sent !! key with
      | None =>
          let msg := message "Личный дедлайн" dl h in
          let '(bot', ok) := send_message bot user_id msg in
          let stamp := Py.strftime now in
          ((bot', <[key := stamp]> sent),
           [Attempt Personal key user_id msg ok; Marked Personal key stamp])
      | Some _ => ((bot, sent), [])
      end
    else ((bot, sent), []).

(** The body of [for dl in arr]. *)
Definition check_deadline (user_id : string) (dl : Deadline) : action (Bot * ledger) :=
  match Py.strptime (deadline dl) with
  | Some dt => for_each Config.REMINDER_HOURS (remind user_id dl (hours_left dt now))
  | None => fun s => (s, [])
  end.

(** The body of [for user_id, arr in self.deadlines.items()]. *)
Definition check_user (item : string * list Deadline) : action (Bot * ledger) :=
  for_each (snd item) (check_deadline (fst item)).
End Check.

Definition check_personal_deadlines {Bot : Type} `{!Transport Bot}
    (now : Py.datetime) (bot : Bot) (self : t) : Bot * t * list event :=
  let '((bot', sent'), evs) :=
    for_each (deadlines self) (check_user now) (bot, sent_reminders self) in
  (bot', mk (deadlines self) sent', evs).

End UserDeadlineManager.

(** ** The bot: both managers, the jobs of the job queue and the commands *)

Module StudentBot.

Record t : Type := mk {
  global_manager : GlobalDeadlineManager.t;
  user_manager_deadline : UserDeadlineManager.t
}.

(** One call into the managers. The clock value read by the call and,
    for the shared check, the user registry found in [bot_data] are part
    of the call. *)
Inductive call : Type :=
  | AddDeadline (now : Py.datetime) (subject task date_str : string)
  | AddPersonalDeadline (now : Py.datetime) (user_id subject task date_str : string)
  | RemoveDeadline (index : Z)
  | RemovePersonalDeadline (user_id : string) (index : Z)
  | CheckDeadlines (user_manager : option (list string)) (now : Py.datetime)
  | CheckPersonalDeadlines (now : Py.datetime).

Section Run.
Context {Bot : Type} `{!Transport Bot}.

Definition step (c : call) : action (Bot * t) :=
  fun '(bot, self) =>
    match c with
    | AddDeadline now subject task date_str =>
        let '(g, _) :=
          GlobalDeadlineManager.add_deadline now subject task date_str
            (global_manager self) in
        ((bot, mk g (user_manager_deadline self)), [])
    | AddPersonalDeadline now user_id subject task date_str =>
        let '(u, _) :=
          UserDeadlineManager.add_deadline now user_id subject task date_str
            (user_manager_deadline self) in
        ((bot, mk (global_manager self) u), [])
    | RemoveDeadline index =>
        let '(g, _) :=
          GlobalDeadlineManager.remove_deadline index (global_manager self) in
        ((bot, mk g (user_manager_deadline self)), [])
    | RemovePersonalDeadline user_id index =>
        let '(u, _) :=
          UserDeadlineManager.remove_deadline user_id index
            (user_manager_deadline self) in
        ((bot, mk (global_manager self) u), [])
    | CheckDeadlines user_manager now =>
        let '(bot', g, evs) :=
          GlobalDeadlineManager.check_deadlines user_manager now bot
            (global_manager self) in
        ((bot', mk g (user_manager_deadline self)), evs)
    | CheckPersonalDeadlines now =>
        let '(bot', u, evs) :=
          UserDeadlineManager.check_personal_deadlines now bot
            (user_manager_deadline self) in
        ((bot', mk (global_manager self) u), evs)
    end.

(** Any history of the process: calls executed one after the other. *)
Definition run (calls : list call) : action (Bot * t) := for_each calls step.

(** One tick of the timer: the shared check, then the personal check. *)
Definition run_tick (user_manager : option (list string)) (now : Py.datetime)
    : action (Bot * t) :=
  run [CheckDeadlines user_manager now; CheckPersonalDeadlines now].
End Run.

Definition sent_reminders (sc : scope) (self : t) : ledger :=
  match sc with
  | Shared => GlobalDeadlineManager.sent_reminders (global_manager self)
  | Personal => UserDeadlineManager.sent_reminders (user_manager_deadline self)
  end.

End StudentBot.

(** ** Reading the event log *)

Definition event_scope (e : event) : scope :=
  match e with Attempt sc _ _ _ _ | Marked sc _ _ => sc end.

Definition event_key (e : event) : string :=
  match e with Attempt _ k _ _ _ | Marked _ k _ => k end.

#[global] Instance scope_eq_dec : EqDecision scope.
Proof. solve_decision. Defined.

(** The event belongs to the reminder [k] of scope [sc]. *)
Definition about (sc : scope) (k : string) (e : event) : Prop :=
  event_scope e = sc /\ event_key e = k.

#[global] Instance about_dec sc k e : Decision (about sc k e).
Proof. unfold about. apply _. Defined.

(** The event is the ledger write for [k] in scope [sc]. *)
Definition is_mark (sc : scope) (k : string) (e : event) : Prop :=
  match e with
  | Marked sc' k' _ => sc' = sc /\ k' = k
  | Attempt _ _ _ _ _ => False
  end.

#[global] Instance is_mark_dec sc k e : Decision (is_mark sc k e).
Proof. destruct e; simpl; apply _. Defined.

(** The outcome recorded in an event. *)
Definition outcome_is (P : bool -> Prop) (e : event) : Prop :=
  match e with
  | Attempt _ _ _ _ ok => P ok
  | Marked _ _ _ => True
  end.

(** One send attempt per recipient of [us], in order and with one text. *)
Definition attempts (sc : scope) (k text : string) (us : list string)
    (oks : list bool) : list event :=
  zip_with (fun u ok => Attempt sc k u text ok) us oks.

(** A complete reminder: every recipient is tried, then the ledger is
    written. *)
Definition dispatched (sc : scope) (k : string) (us : list string) (stamp : string)
    (evs : list event) : Prop :=
  exists text oks, length oks = length us
    /\ evs = attempts sc k text us oks ++ [Marked sc k stamp].

(** The sends recorded in a log, made once more, in the order of the log,
    from the transport [bot]: the transport they leave and the outcome of
    each. *)
Fixpoint replay {Bot : Type} `{!Transport Bot} (evs : list event) (bot : Bot)
    : Bot * list bool :=
  match evs with
  | [] => (bot, [])
  | Attempt _ _ chat_id text _ :: evs' =>
      let '(b1, ok) := send_message bot chat_id text in
      let '(b2, oks) := replay evs' b1 in
      (b2, ok :: oks)
  | Marked _ _ _ :: evs' => replay evs' bot
  end.

(** The outcomes recorded in a log. *)
Definition outcomes (evs : list event) : list bool :=
  omap (fun e => match e with
                 | Attempt _ _ _ _ ok => Some ok
                 | Marked _ _ _ => None
                 end) evs.

(** What a piece of the program may do about the key [k]: if [k] is in the
    ledger, nothing; otherwise either nothing (and then [idle] holds), or
    one complete reminder to an audience [us] with [fire us stamp], after
    which [k] is in the ledger. *)
Definition tracks (sc : scope) (k : string) (idle : Prop)
    (fire : list string -> string -> Prop)
    (sent : ledger) (evs : list event) (sent' : ledger) : Prop :=
  match sent !! k with
  | Some v => sent' !! k = Some v /\ filter (about sc k) evs = []
  | None =>
      (idle /\ sent' !! k = None /\ filter (about sc k) evs = [])
      \/ (exists us stamp, fire us stamp /\ sent' !! k = Some stamp
            /\ dispatched sc k us stamp (filter (about sc k) evs))
  end.

(** When a threshold of a stored deadline passes the window test at [now]. *)
Definition due (now : Py.datetime) (dl : Deadline) (h : Z) : bool :=
  match Py.strptime (deadline dl) with
  | Some dt => bool_decide (h ∈ Config.REMINDER_HOURS) && in_window h (hours_left dt now)
  | None => false
  end.

(** The trigger of a shared reminder with key [k]: some stored deadline
    has a threshold that is due and yields this key. *)
Definition shared_trigger (now : Py.datetime) (l : list Deadline) (k : string) : Prop :=
  exists dl h, dl ∈ l /\ due now dl h = true
    /\ GlobalDeadlineManager.reminder_key dl h = k.

(** The trigger of a personal reminder with key [k] for the user [uid]. *)
Definition personal_trigger (now : Py.datetime) (d : Py.dict (list Deadline))
    (k uid : string) : Prop :=
  exists arr dl h, (uid, arr) ∈ d /\ dl ∈ arr /\ due now dl h = true
    /\ UserDeadlineManager.r_key uid dl h = k.

(** The string has no underscore. *)
Fixpoint no_underscore (s : string) : bool :=
  match s with
  | EmptyString => true
  | String c s' => negb (Ascii.eqb c "_") && no_underscore s'
  end.

(** ** The date format of the specification *)

Module Spec.
Definition num2 (a b : ascii) : Z := 10 * (Py.code a - 48) + (Py.code b - 48).

Definition num4 (a b c d : ascii) : Z :=
  1000 * (Py.code a - 48) + 100 * (Py.code b - 48)
  + 10 * (Py.code c - 48) + (Py.code d - 48).

(** Strict [DD.MM.YYYY]: two digits, a dot, two digits, a dot, four
    digits, and nothing else, naming a day of the calendar. *)
Definition valid_DD_MM_YYYY (s : string) : bool :=
  match s with
  | String d1 (String d2 (String p1 (String m1 (String m2 (String p2
      (String y1 (String y2 (String y3 (String y4 EmptyString))))))))) =>
      Py.digit d1 && Py.digit d2 && Py.is_char "." p1
      && Py.digit m1 && Py.digit m2 && Py.is_char "." p2
      && Py.digit y1 && Py.digit y2 && Py.digit y3 && Py.digit y4
      && Py.check_date_fields (num4 y1 y2 y3 y4) (num2 m1 m2) (num2 d1 d2)
  | _ => false
  end.

(** The texts that the format [%d.%m.%Y] accepts, as code points. A day
    is [01]..[09], [30], [31], or [1] or [2] followed by a decimal digit of
    any script, or one digit [1]..[9], alone or after one blank; a month is
    [01]..[12] or one digit [1]..[9]; a year is four decimal digits of any
    script. *)
Definition day_text (d : Py.str) : bool :=
  match d with
  | [a] => Py.range "1" "9" a
  | [a; b] =>
      (Py.char " " a && Py.range "1" "9" b)
      || (Py.char "0" a && Py.range "1" "9" b)
      || (Py.range "1" "2" a && Py.isdecimal b)
      || (Py.char "3" a && Py.range "0" "1" b)
  | _ => false
  end.

Definition month_text (m : Py.str) : bool :=
  match m with
  | [a] => Py.range "1" "9" a
  | [a; b] =>
      (Py.char "0" a && Py.range "1" "9" b) || (Py.char "1" a && Py.range "0" "2" b)
  | _ => false
  end.

Definition year_text (Y : Py.str) : bool :=
  match Y with
  | [a; b; c; d] => Py.isdecimal a && Py.isdecimal b && Py.isdecimal c && Py.isdecimal d
  | _ => false
  end.

(** [D.M.YYYY] in this loose sense, naming a day of the calendar. *)
Definition loose_D_M_YYYY (s : string) : Prop :=
  exists d m Y y mo dd,
    Py.decode s = Some (d ++ [Py.code "."] ++ m ++ [Py.code "."] ++ Y)
    /\ day_text d = true /\ month_text m = true /\ year_text Y = true
    /\ Py.int Y = Some y /\ Py.int m = Some mo /\ Py.int d = Some dd
    /\ Py.check_date_fields y mo dd = true.
End Spec.

(** ** Scenario data used by the examples *)

Module Demo.
(** A transport that counts the calls and fails every second one. *)
Definition flaky : Transport nat := fun n _ _ => (S n, Nat.even n).

(** A transport on which every send raises. *)
Definition down : Transport nat := fun n _ _ => (S n, false).

Definition math : Deadline :=
  mk_deadline "Math" "HW1" "01.01.2030" "2029-12-01 10:00:00".
Definition legacy : Deadline :=
  mk_deadline "Old" "HW0" "2030-01-01" "2029-12-01 10:00:00".
Definition phys : Deadline :=
  mk_deadline "Phys" "Lab" "03.01.2030" "2029-12-01 10:00:00".

(** 24 hours before the due date of [math], to the microsecond. *)
Definition eve : Py.datetime := Py.mk_datetime 2029 12 31 0 0 0 0.
(** Ten seconds later: the window of the 24h threshold is still open. *)
Definition eve_10s : Py.datetime := Py.mk_datetime 2029 12 31 0 0 10 0.
Definition eve_minus_1s : Py.datetime := Py.mk_datetime 2029 12 30 23 59 59 0.

Definition users : list string := ["7"; "42"; "99"].

Definition shared0 : GlobalDeadlineManager.t :=
  GlobalDeadlineManager.mk [math; legacy; phys] ∅.
Definition personal0 : UserDeadlineManager.t :=
  UserDeadlineManager.mk [("42", [math]); ("7", [legacy; math])] ∅.
Definition bot0 : StudentBot.t := StudentBot.mk shared0 personal0.

(** Two ticks whose windows both cover the 24h crossing of [math]. *)
Definition two_ticks : list StudentBot.call :=
  [StudentBot.CheckDeadlines (Some users) eve;
   StudentBot.CheckPersonalDeadlines eve;
   StudentBot.CheckDeadlines (Some users) eve_10s;
   StudentBot.CheckPersonalDeadlines eve_10s].
End Demo.

(** * The JSON files *)

(** The managers above are the objects held in memory. What follows adds
    the files behind them: [Database], the constructors that read the
    files, and the [save_...] calls that follow every change. *)

Module Database.

(** What [load_json] can find at a path. A document is identified with
    the value [json.load] returns for it, and that value is taken to have
    the shape the program stores there. *)
Inductive file (V : Type) : Type :=
  | Missing                (* [file_path.exists()] is false *)
  | Unreadable             (* [open] or [json.load] raises *)
  | Document (v : V).
Arguments Missing {V}.
Arguments Unreadable {V}.
Arguments Document {V} v.

(** How a call of [save_json] ends. [mkdir] of the parent directory
    raises: the call stands before the [try], so the error leaves
    [save_json] and nothing is written. Or the [try] block is entered: the
    document is written; [open] raises and the file stays as it was; or
    [json.dump] raises after [open(..., 'w')] has truncated the file, which
    leaves a strict prefix of a document. These two errors are logged and
    swallowed. *)
Inductive write_outcome : Type := MkdirFailed | Written | NotOpened | Interrupted.

Definition load_json {V : Type} (file_path : file V) (default : V) : V :=
  match file_path with
  | Missing => default
  | Unreadable => default
  | Document v => v
  end.

(** The file after the call; [None] stands for the error of [mkdir]. *)
Definition save_json {V : Type} (o : write_outcome) (file_path : file V) (data : V)
    : option (file V) :=
  match o with
  | MkdirFailed => None
  | Written => Some (Document data)
  | NotOpened => Some file_path
  | Interrupted => Some Unreadable
  end.

End Database.

(** A loop body that an exception can leave: the state it leaves, its
    events, and whether it returned. *)
Definition raising (S : Type) : Type := S -> S * list event * bool.

(** [for x in xs: body(x)], left by the first exception of the body. *)
Fixpoint for_each_raising {A S : Type} (xs : list A) (body : A -> raising S)
    : raising S :=
  fun s =>
    match xs with
    | [] => (s, [], true)
    | x :: xs' =>
        let '(s1, e1, returned) := body x s in
        if returned then
          let '(s2, e2, returned') := for_each_raising xs' body s1 in
          (s2, e1 ++ e2, returned')
        else (s1, e1, false)
    end.

(** The body [body'], which can raise, does what [body] does to the part
    [π] of its state: the same when it returns, and the same up to the
    point where it raises. *)
Definition follows {S S' : Type} (π : S' -> S) (body : action S) (body' : raising S')
    : Prop :=
  forall s,
    let r := body' s in
    let p := body (π s) in
    (r.2 = true -> π r.1.1 = p.1 /\ r.1.2 = p.2)
    /\ exists rest, p.2 = r.1.2 ++ rest.


(** ** [GlobalDeadlineManager] with its two files *)

Module GlobalDeadlineManagerIO.
Import Database.

(** The attributes of the object; a path attribute stands for the
    content of the file at that path. *)
Record t : Type := mk {
  deadlines_file : file (list Deadline);
  reminders_file : file ledger;
  deadlines : list Deadline;
  sent_reminders : ledger
}.

(** [__init__] *)
Definition init (deadlines_file : file (list Deadline)) (reminders_file : file ledger)
    : t :=
  mk deadlines_file reminders_file
     (load_json deadlines_file []) (load_json reminders_file ∅).

(** [None] stands for the error of [mkdir], here and below. *)
Definition save_deadlines (o : write_outcome) (self : t) : option t :=
  (fun f => mk f (reminders_file self) (deadlines self) (sent_reminders self))
    <$> save_json o (deadlines_file self) (deadlines self).

Definition save_reminders (o : write_outcome) (self : t) : option t :=
  (fun f => mk (deadlines_file self) f (deadlines self) (sent_reminders self))
    <$> save_json o (reminders_file self) (sent_reminders self).

(** [o] is the outcome of the write, should the call reach it. The
    record is appended before the write: an error of [mkdir], which is no
    [ValueError], leaves the call with the record in the list. *)
Definition add_deadline (o : write_outcome) (now : Py.datetime)
    (subject task date_str : string) (self : t) : t * option bool :=
  match Py.strptime date_str with
  | Some _ =>
      let item := mk_deadline subject task date_str (Py.strftime now) in
      let self1 := mk (deadlines_file self) (reminders_file self)
                      (deadlines self ++ [item]) (sent_reminders self) in
      match save_deadlines o self1 with
      | Some self2 => (self2, Some true)
      | None => (self1, None)
      end
  | None => (self, Some false)
  end.

Definition remove_deadline (o : write_outcome) (index : Z) (self : t)
    : t * option bool :=
  if (0 <=? index) && (index <? Z.of_nat (length (deadlines self))) then
    let self1 := mk (deadlines_file self) (reminders_file self)
                    (delete (Z.to_nat index) (deadlines self)) (sent_reminders self) in
    match save_deadlines o self1 with
    | Some self2 => (self2, Some true)
    | None => (self1, None)
    end
  else (self, Some false).

Section Check.
Context {Bot : Type} `{!Transport Bot}.
(** [faults n] is the outcome of the [n]-th write of the check. *)
Variable faults : nat -> write_outcome.
Variable all_users : list string.
Variable now : Py.datetime.

(** The loops change [sent_reminders] and, through [save_reminders], the
    reminders file: the state is the transport, the ledger, the file and
    the number of writes. The error of [mkdir] is no [ValueError] and
    leaves all three loops. *)
Definition remind (dl : Deadline) (hl : Py.float) (h : Z)
    : raising (Bot * ledger * file ledger * nat) :=
  fun '(bot, sent, reminders_file, n) =>
    if in_window h hl then
      let key := GlobalDeadlineManager.reminder_key dl h in
      match sent !! key with
      | None =>
          let msg := message "Глобальный дедлайн" dl h in
          let '(bot', evs) :=
            for_each all_users (fun uid b =>
              let '(b', ok) := send_message b uid msg in
              (b', [Attempt Shared key uid msg ok])) bot in
          let stamp := Py.strftime now in
          let sent' := <[key := stamp]> sent in
          match save_json (faults n) reminders_file sent' with
          | Some reminders_file' =>
              ((bot', sent', reminders_file', S n), evs ++ [Marked Shared key stamp], true)
          | None =>
              ((bot', sent', reminders_file, S n), evs ++ [Marked Shared key stamp], false)
          end
      | Some _ => ((bot, sent, reminders_file, n), [], true)
      end
    else ((bot, sent, reminders_file, n), [], true).

Definition check_deadline (dl : Deadline) : raising (Bot * ledger * file ledger * nat) :=
  match Py.strptime (deadline dl) with
  | Some dt => for_each_raising Config.REMINDER_HOURS (remind dl (hours_left dt now))
  | None => fun s => (s, [], true)
  end.
End Check.

(** The last component tells whether the job returned. *)
Definition check_deadlines {Bot : Type} `{!Transport Bot}
    (faults : nat -> write_outcome) (user_manager : option (list string))
    (now : Py.datetime) (bot : Bot) (self : t) : Bot * t * list event * bool :=
  match user_manager with
  | None => (bot, self, [], true)
  | Some all_users =>
      let '((bot', sent', reminders_file', _), evs, returned) :=
        for_each_raising (deadlines self) (check_deadline faults all_users now)
                         (bot, sent_reminders self, reminders_file self, 0%nat) in
      (bot', mk (deadlines_file self) reminders_file' (deadlines self) sent', evs,
       returned)
  end.

(** The object without its files. *)
Definition memory (self : t) : GlobalDeadlineManager.t :=
  GlobalDeadlineManager.mk (deadlines self) (sent_reminders self).

End GlobalDeadlineManagerIO.

(** ** [UserDeadlineManager] with its two files *)

Module UserDeadlineManagerIO.
Import Database.

Record t : Type := mk {
  deadlines_file : file (Py.dict (list Deadline));
  reminders_file : file ledger;
  deadlines : Py.dict (list Deadline);
  sent_reminders : ledger
}.

(** [__init__] *)
Definition init (user_file : file (Py.dict (list Deadline)))
    (reminder_file : file ledger) : t :=
  mk user_file reminder_file (load_json user_file []) (load_json reminder_file ∅).

Definition save_deadlines (o : write_outcome) (self : t) : option t :=
  (fun f => mk f (reminders_file self) (deadlines self) (sent_reminders self))
    <$> save_json o (deadlines_file self) (deadlines self).

Definition save_reminders (o : write_outcome) (self : t) : option t :=
  (fun f => mk (deadlines_file self) f (deadlines self) (sent_reminders self))
    <$> save_json o (reminders_file self) (sent_reminders self).

Definition add_deadline (o : write_outcome) (now : Py.datetime)
    (user_id subject task date_str : string) (self : t) : t * option bool :=
  match Py.strptime date_str with
  | Some _ =>
      let d1 :=
        match Py.dict_get user_id (deadlines self) with
        | None => Py.dict_set user_id [] (deadlines self)
        | Some _ => deadlines self
        end in
      let item := mk_deadline subject task date_str (Py.strftime now) in
      let arr := default [] (Py.dict_get user_id d1) in
      let self1 := mk (deadlines_file self) (reminders_file self)
                      (Py.dict_set user_id (arr ++ [item]) d1) (sent_reminders self) in
      match save_deadlines o self1 with
      | Some self2 => (self2, Some true)
      | None => (self1, None)
      end
  | None => (self, Some false)
  end.

Definition remove_deadline (o : write_outcome) (user_id : string) (index : Z)
    (self : t) : t * option bool :=
  let arr := default [] (Py.dict_get user_id (deadlines self)) in
  if (0 <=? index) && (index <? Z.of_nat (length arr)) then
    let self1 := mk (deadlines_file self) (reminders_file self)
                    (Py.dict_set user_id (delete (Z.to_nat index) arr) (deadlines self))
                    (sent_reminders self) in
    match save_deadlines o self1 with
    | Some self2 => (self2, Some true)
    | None => (self1, None)
    end
  else (self, Some false).

Section Check.
Context {Bot : Type} `{!Transport Bot}.
Variable faults : nat -> write_outcome.
Variable now : Py.datetime.

Definition remind (user_id : string) (dl : Deadline) (hl : Py.float) (h : Z)
    : raising (Bot * ledger * file ledger * nat) :=
  fun '(bot, sent, reminders_file, n) =>
    if in_window h hl then
      let key := UserDeadlineManager.r_key user_id dl h in
      match sent !! key with
      | None =>
          let msg := message "Личный дедлайн" dl h in
          let '(bot', ok) := send_message bot user_id msg in
          let stamp := Py.strftime now in
          let sent' := <[key := stamp]> sent in
          let evs := [Attempt Personal key user_id msg ok; Marked Personal key stamp] in
          match save_json (faults n) reminders_file sent' with
          | Some reminders_file' => ((bot', sent', reminders_file', S n), evs, true)
          | None => ((bot', sent', reminders_file, S n), evs, false)
          end
      | Some _ => ((bot, sent, reminders_file, n), [], true)
      end
    else ((bot, sent, reminders_file, n), [], true).

Definition check_deadline (user_id : string) (dl : Deadline)
    : raising (Bot * ledger * file ledger * nat) :=
  match Py.strptime (deadline dl) with
  | Some dt =>
      for_each_raising Config.REMINDER_HOURS (remind user_id dl (hours_left dt now))
  | None => fun s => (s, [], true)
  end.

Definition check_user (item : string * list Deadline)
    : raising (Bot * ledger * file ledger * nat) :=
  for_each_raising (snd item) (check_deadline (fst item)).
End Check.

Definition check_personal_deadlines {Bot : Type} `{!Transport Bot}
    (faults : nat -> write_outcome) (now : Py.datetime) (bot : Bot) (self : t)
    : Bot * t * list event * bool :=
  let '((bot', sent', reminders_file', _), evs, returned) :=
    for_each_raising (deadlines self) (check_user faults now)
                     (bot, sent_reminders self, reminders_file self, 0%nat) in
  (bot', mk (deadlines_file self) reminders_file' (deadlines self) sent', evs, returned).

Definition memory (self : t) : UserDeadlineManager.t :=
  UserDeadlineManager.mk (deadlines self) (sent_reminders self).

End UserDeadlineManagerIO.

(** ** The process and its restarts *)

Module StudentBotIO.
Import Database.

Record t : Type := mk {
  global_manager : GlobalDeadlineManagerIO.t;
  user_manager_deadline : UserDeadlineManagerIO.t
}.

(** The four files of the deadline managers. *)
Record files : Type := mk_files {
  GLOBAL_DEADLINES_FILE : file (list Deadline);
  GLOBAL_REMINDERS_FILE : file ledger;
  USER_DEADLINES_FILE : file (Py.dict (list Deadline));
  USER_REMINDERS_FILE : file ledger
}.

(** [StudentBot.__init__]: both managers read their files. *)
Definition init (fs : files) : t :=
  mk (GlobalDeadlineManagerIO.init (GLOBAL_DEADLINES_FILE fs) (GLOBAL_REMINDERS_FILE fs))
     (UserDeadlineManagerIO.init (USER_DEADLINES_FILE fs) (USER_REMINDERS_FILE fs)).

(** The files as the process leaves them. *)
Definition on_disk (self : t) : files :=
  mk_files (GlobalDeadlineManagerIO.deadlines_file (global_manager self))
           (GlobalDeadlineManagerIO.reminders_file (global_manager self))
           (UserDeadlineManagerIO.deadlines_file (user_manager_deadline self))
           (UserDeadlineManagerIO.reminders_file (user_manager_deadline self)).

(** The process ends and a new one starts from the files. *)
Definition restart (self : t) : t := init (on_disk self).

Definition memory (self : t) : StudentBot.t :=
  StudentBot.mk (GlobalDeadlineManagerIO.memory (global_manager self))
                (UserDeadlineManagerIO.memory (user_manager_deadline self)).

(** A call into the managers together with the outcomes of its writes,
    or a restart of the process. *)
Inductive call : Type :=
  | Call (c : StudentBot.call) (faults : nat -> write_outcome)
  | Restart.

Section Run.
Context {Bot : Type} `{!Transport Bot}.

(** A call that raises is over; the process goes on with the objects as
    the call left them. *)
Definition step (c : call) : action (Bot * t) :=
  fun '(bot, self) =>
    match c with
    | Call (StudentBot.AddDeadline now subject task date_str) faults =>
        let '(g, _) :=
          GlobalDeadlineManagerIO.add_deadline (faults 0%nat) now subject task date_str
            (global_manager self) in
        ((bot, mk g (user_manager_deadline self)), [])
    | Call (StudentBot.AddPersonalDeadline now user_id subject task date_str) faults =>
        let '(u, _) :=
          UserDeadlineManagerIO.add_deadline (faults 0%nat) now user_id subject task
            date_str (user_manager_deadline self) in
        ((bot, mk (global_manager self) u), [])
    | Call (StudentBot.RemoveDeadline index) faults =>
        let '(g, _) :=
          GlobalDeadlineManagerIO.remove_deadline (faults 0%nat) index
            (global_manager self) in
        ((bot, mk g (user_manager_deadline self)), [])
    | Call (StudentBot.RemovePersonalDeadline user_id index) faults =>
        let '(u, _) :=
          UserDeadlineManagerIO.remove_deadline (faults 0%nat) user_id index
            (user_manager_deadline self) in
        ((bot, mk (global_manager self) u), [])
    | Call (StudentBot.CheckDeadlines user_manager now) faults =>
        let '(bot', g, evs, _) :=
          GlobalDeadlineManagerIO.check_deadlines faults user_manager now bot
            (global_manager self) in
        ((bot', mk g (user_manager_deadline self)), evs)
    | Call (StudentBot.CheckPersonalDeadlines now) faults =>
        let '(bot', u, evs, _) :=
          UserDeadlineManagerIO.check_personal_deadlines faults now bot
            (user_manager_deadline self) in
        ((bot', mk (global_manager self) u), evs)
    | Restart => ((bot, restart self), [])
    end.

Definition run (calls : list call) : action (Bot * t) := for_each calls step.
End Run.

(** The calls of a history, its restarts left out. *)
Definition calls_of (calls : list call) : list StudentBot.call :=
  omap (fun c => match c with Call c _ => Some c | Restart => None end) calls.

(** Every write of the history has the outcome [o]. *)
Definition all_writes (o : write_outcome) (calls : list call) : Prop :=
  Forall (fun c => match c with Call _ faults => forall n, faults n = o | Restart => True end)
         calls.

(** No write of the history meets a failing [mkdir]. *)
Definition mkdir_succeeds (calls : list call) : Prop :=
  Forall (fun c => match c with
                   | Call _ faults => forall n, faults n <> MkdirFailed
                   | Restart => True
                   end) calls.
End StudentBotIO.

(** * The users, the weekly actions and the command handlers *)

(** [t.isoformat()] of a naive datetime: the microseconds are printed
    only when they are not zero. *)
Definition isoformat (t : Py.datetime) : string :=
  Py.zfill 4 (Py.year t) +:+ "-" +:+ Py.zfill 2 (Py.month t) +:+ "-"
  +:+ Py.zfill 2 (Py.day t) +:+ "T" +:+ Py.zfill 2 (Py.hour t) +:+ ":"
  +:+ Py.zfill 2 (Py.minute t) +:+ ":" +:+ Py.zfill 2 (Py.second t)
  +:+ (if Py.microsecond t =? 0 then "" else "." +:+ Py.zfill 6 (Py.microsecond t)).

(** ** [UserManager] *)

Module UserManager.
Import Database.

(** The document of the users file is read into a set at once; it is
    identified with that set. *)
Record t : Type := mk {
  users_file : file (gset string);
  users : gset string
}.

(** [__init__] *)
Definition init (users_file : file (gset string)) : t :=
  mk users_file (load_json users_file ∅).

(** The last component tells whether the call returned: the error of
    [mkdir] leaves it, with the user in the set. *)
Definition add_user (o : write_outcome) (user_id : string) (self : t) : t * bool :=
  let users' := users self ∪ {[user_id]} in
  match save_json o (users_file self) users' with
  | Some users_file' => (mk users_file' users', true)
  | None => (mk (users_file self) users', false)
  end.

Definition get_users (self : t) : gset string := users self.

(** [us] is an iteration of the set: the list every loop over
    [get_users()] runs through. *)
Definition iterates (us : list string) (self : t) : Prop :=
  NoDup us /\ forall uid, uid ∈ us <-> uid ∈ get_users self.

End UserManager.

(** ** [ActionManager] *)

Module ActionManager.
Import Database.

Record t : Type := mk {
  actions_file : file (gmap string (gmap string string));
  user_actions : gmap string (gmap string string)
}.

(** [__init__] *)
Definition init (actions_file : file (gmap string (gmap string string))) : t :=
  mk actions_file (load_json actions_file ∅).

(** [timedelta(days=7)] *)
Definition week : Py.timedelta := 7 * 86400 * 1000000.

(** [fromisoformat] stands for [datetime.fromisoformat]: [None] when it
    raises [ValueError], which [can_perform_action] does not catch. [now]
    is the clock read at the start of the call. *)
Definition can_perform_action (fromisoformat : string -> option Py.datetime)
    (now : Py.datetime) (user_id action_type : string) (self : t) : option bool :=
  let last_str := default ∅ (user_actions self !! user_id) !! action_type in
  match last_str with
  | Some s =>
      if String.eqb s "" then Some true
      else
        match fromisoformat s with
        | Some last_dt =>
            if Py.datetime_sub now last_dt <? week then Some false else Some true
        | None => None
        end
  | None => Some true
  end.

(** The last component tells whether the call returned. *)
Definition update_action_time (o : write_outcome) (now : Py.datetime)
    (user_id action_type : string) (self : t) : t * bool :=
  let now_str := isoformat now in
  let ua1 :=
    match user_actions self !! user_id with
    | None => <[user_id := ∅]> (user_actions self)
    | Some _ => user_actions self
    end in
  let ua2 := <[user_id := <[action_type := now_str]> (default ∅ (ua1 !! user_id))]> ua1 in
  match save_json o (actions_file self) ua2 with
  | Some actions_file' => (mk actions_file' ua2, true)
  | None => (mk (actions_file self) ua2, false)
  end.

End ActionManager.

(** ** [CommandHandlers] *)

(** An incoming update, as far as the handlers read it. *)
Module Update.
Record t : Type := mk {
  effective_user_id : string;   (* [str(update.effective_user.id)] *)
  first_name : string;          (* [update.effective_user.first_name] *)
  chat_id : string;             (* the chat [update.message.reply_text] writes to *)
  text : string                 (* [update.message.text] *)
}.
End Update.

(** One call of the transport by a handler. *)
Inductive sent : Type := Sent (chat_id text : string) (delivered : bool).

Module CommandHandlers.
Section Handlers.
Context {Bot : Type} `{!Transport Bot}.

(** [await update.message.reply_text(text)]. No handler catches what it
    raises: the last component tells whether the call returned. The
    keyboards passed as [reply_markup] are left out. *)
Definition reply_text (update : Update.t) (text : string) (bot : Bot)
    : Bot * list sent * bool :=
  let '(bot', ok) := send_message bot (Update.chat_id update) text in
  (bot', [Sent (Update.chat_id update) text ok], ok).

(** A handler gives the transport, its manager, the calls it made and
    whether it returned normally. *)
Definition start (o : Database.write_outcome) (update : Update.t) (bot : Bot)
    (user_manager : UserManager.t) : Bot * UserManager.t * list sent * bool :=
  let user_id := Update.effective_user_id update in
  let '(user_manager', saved) := UserManager.add_user o user_id user_manager in
  if saved then
    let txt := "👋 Привет! Это бот (общие дедлайны + личные дедлайны)!" +:+ nl
               +:+ "Пользуйтесь меню." in
    let '(bot', out, returned) := reply_text update txt bot in
    (bot', user_manager', out, returned)
  else (bot, user_manager', [], false).

(** [now] is the clock read by [add_deadline]; [args] is [context.args]. *)
Definition add_deadline_cmd (now : Py.datetime) (args : list string) (update : Update.t)
    (bot : Bot) (gdm : GlobalDeadlineManager.t)
    : Bot * GlobalDeadlineManager.t * list sent * bool :=
  if (length args <? 3)%nat then
    let '(bot', out, returned) :=
      reply_text update "Формат: /add_deadline subj task date" bot in
    (bot', gdm, out, returned)
  else
    let subj := nth 0 args "" in
    let tsk := nth 1 args "" in
    let dt := nth 2 args "" in
    let '(gdm', ok) := GlobalDeadlineManager.add_deadline now subj tsk dt gdm in
    let '(bot', out, returned) :=
      reply_text update
        (if ok then "Глобальный дедлайн: " +:+ subj +:+ "/" +:+ tsk +:+ "/" +:+ dt
         else "Ошибка даты") bot in
    (bot', gdm', out, returned).

Definition add_personal_deadline_cmd (now : Py.datetime) (args : list string)
    (update : Update.t) (bot : Bot) (udm : UserDeadlineManager.t)
    : Bot * UserDeadlineManager.t * list sent * bool :=
  let user_id := Update.effective_user_id update in
  if (length args <? 3)%nat then
    let '(bot', out, returned) :=
      reply_text update "Формат: /add_personal_deadline subj task date" bot in
    (bot', udm, out, returned)
  else
    let subj := nth 0 args "" in
    let tsk := nth 1 args "" in
    let dt := nth 2 args "" in
    let '(udm', ok) := UserDeadlineManager.add_deadline now user_id subj tsk dt udm in
    let '(bot', out, returned) :=
      reply_text update
        (if ok then "Личный дедлайн: " +:+ subj +:+ "/" +:+ tsk +:+ "/" +:+ dt
         else "Ошибка даты?") bot in
    (bot', udm', out, returned).

(** [mapping_desc.get(action_type, "что-то сделать")] *)
Definition mapping_desc (action_type : string) : string :=
  if String.eqb action_type "beer" then "пойти пить пиво"
  else if String.eqb action_type "board_games" then "поиграть в настолки"
  else if String.eqb action_type "cinema" then "сходить в кино"
  else if String.eqb action_type "walk" then "пойти гулять"
  else "что-то сделать".

(** [for uid in user_ids: if uid != user_id: try: send_message] *)
Fixpoint broadcast (user_id text : string) (user_ids : list string) (bot : Bot)
    : Bot * list sent :=
  match user_ids with
  | [] => (bot, [])
  | uid :: rest =>
      if String.eqb uid user_id then broadcast user_id text rest bot
      else
        let '(bot1, ok) := send_message bot uid text in
        let '(bot2, out) := broadcast user_id text rest bot1 in
        (bot2, Sent uid text ok :: out)
  end.

(** [now] is the clock read by [can_perform_action], [stamp] the one
    read by [update_action_time]; [user_ids] is the iteration of
    [self.user_manager.get_users()]. *)
Definition _call_action (fromisoformat : string -> option Py.datetime)
    (o : Database.write_outcome) (now stamp : Py.datetime) (update : Update.t)
    (action_type : string) (user_ids : list string) (bot : Bot)
    (action_manager : ActionManager.t) : Bot * ActionManager.t * list sent * bool :=
  let user_id := Update.effective_user_id update in
  match ActionManager.can_perform_action fromisoformat now user_id action_type
          action_manager with
  | None => (bot, action_manager, [], false)
  | Some false =>
      let '(bot', out, returned) :=
        reply_text update "❗ Нельзя так часто, подождите неделю." bot in
      (bot', action_manager, out, returned)
  | Some true =>
      let desc := mapping_desc action_type in
      let text := Update.first_name update +:+ " предлагает " +:+ desc
                  +:+ "! Кто присоединится?" in
      let '(bot1, out1) := broadcast user_id text user_ids bot in
      let '(action_manager', saved) :=
        ActionManager.update_action_time o stamp user_id action_type action_manager in
      if saved then
        let '(bot2, out2, returned) :=
          reply_text update "✅ Сообщение отправлено всем!" bot1 in
        (bot2, action_manager', out1 ++ out2, returned)
      else (bot1, action_manager', out1, false)
  end.
End Handlers.
End CommandHandlers.

(** The part of the state of a check with files that the check of the
    manager in memory has. *)
Definition in_memory {Bot : Type} (s : Bot * ledger * Database.file ledger * nat)
    : Bot * ledger := s.1.1.

(** ** Predicates used by the further properties *)

(** The event is a send to the chat [uid]. *)
Definition written_to (uid : string) (e : event) : Prop :=
  match e with
  | Attempt _ _ chat_id _ _ => chat_id = uid
  | Marked _ _ _ => False
  end.

#[global] Instance written_to_dec uid e : Decision (written_to uid e).
Proof. destruct e; simpl; apply _. Defined.

(** A float that is neither positive and finite nor plus infinity. *)
Definition not_positive (x : Py.float) : Prop :=
  match x with
  | S754_finite false _ _ | S754_infinity false => False
  | _ => True
  end.


(** A second assignment of the subject and date of [Demo.math]. *)
Definition math_essay : Deadline :=
  mk_deadline "Math" "Essay" "01.01.2030" "2029-12-02 09:00:00".

(** A data directory and a history with a restart in it. *)
Definition files0 : StudentBotIO.files :=
  StudentBotIO.mk_files (Database.Document [Demo.math; Demo.legacy; Demo.phys])
    Database.Missing Database.Unreadable (Database.Document ∅).

Definition written : nat -> Database.write_outcome := fun _ => Database.Written.
Definition not_opened : nat -> Database.write_outcome := fun _ => Database.NotOpened.
(** Every write is cut short after the file was truncated. *)
Definition torn : nat -> Database.write_outcome := fun _ => Database.Interrupted.

Definition history (faults : nat -> Database.write_outcome) : list StudentBotIO.call :=
  [StudentBotIO.Call
     (StudentBot.AddPersonalDeadline Demo.eve_minus_1s "42" "Math" "HW1" "01.01.2030")
     faults;
   StudentBotIO.Call (StudentBot.CheckDeadlines (Some Demo.users) Demo.eve) faults;
   StudentBotIO.Call (StudentBot.CheckPersonalDeadlines Demo.eve) faults;
   StudentBotIO.Restart;
   StudentBotIO.Call (StudentBot.CheckDeadlines (Some Demo.users) Demo.eve_10s) faults;
   StudentBotIO.Call (StudentBot.CheckPersonalDeadlines Demo.eve_10s) faults].

(** A reader of the stamps written at the given times, for the examples. *)
Definition reads (ts : list Py.datetime) (s : string) : option Py.datetime :=
  List.find (fun t => String.eqb (isoformat t) s) ts.

Definition ann : Update.t := Update.mk "42" "Ann" "42" "🍺 Позвать пить пиво".
Definition actions0 : ActionManager.t := ActionManager.init Database.Unreadable.

(** ** Histories of the "call" buttons *)

(** One press of a "call" button: who pressed which button, the two
    clock values the handler reads, the users it iterates over and the
    outcome of its write. *)
Record press : Type := mk_press {
  press_update : Update.t;
  press_action : string;
  press_now : Py.datetime;
  press_stamp : Py.datetime;
  press_users : list string;
  press_outcome : Database.write_outcome
}.

Section Presses.
Context {Bot : Type} `{!Transport Bot}.
Variable fromisoformat : string -> option Py.datetime.

Definition handle_press (p : press) (bot : Bot) (am : ActionManager.t)
    : Bot * ActionManager.t * list sent * bool :=
  CommandHandlers._call_action fromisoformat (press_outcome p) (press_now p)
    (press_stamp p) (press_update p) (press_action p) (press_users p) bot am.

(** The presses are handled one after the other; a handler that raises
    does not stop the bot. *)
Fixpoint presses (ps : list press) (bot : Bot) (am : ActionManager.t)
    : Bot * ActionManager.t * list sent :=
  match ps with
  | [] => (bot, am, [])
  | p :: ps' =>
      let '(bot1, am1, out1, _) := handle_press p bot am in
      let '(bot2, am2, out2) := presses ps' bot1 am1 in
      (bot2, am2, out1 ++ out2)
  end.

(** The press is allowed: it passes [can_perform_action] in the state
    the presses before it have left. *)
Definition allowed (before : list press) (p : press) (bot : Bot) (am : ActionManager.t)
    : Prop :=
  ActionManager.can_perform_action fromisoformat (press_now p)
    (Update.effective_user_id (press_update p)) (press_action p)
    (presses before bot am).1.2 = Some true.
End Presses.

(** The time recorded for [u] and [a] is one that [fromisoformat] reads
    back, and it is not before [t0]. *)
Definition recorded_since (fromisoformat : string -> option Py.datetime)
    (u a : string) (t0 : Py.datetime) (am : ActionManager.t) : Prop :=
  exists t, default ∅ (ActionManager.user_actions am !! u) !! a = Some (isoformat t)
    /\ fromisoformat (isoformat t) = Some t /\ 0 <= Py.datetime_sub t t0.

Definition zed : Update.t := Update.mk "7" "Zed" "7" "🍺 Позвать пить пиво".

(** Ann calls for a beer, Zed does, Ann tries again six days later and
    once more after seven days. *)
Definition beers : list press :=
  [mk_press ann "beer" Demo.eve Demo.eve_10s Demo.users Database.Written;
   mk_press zed "beer" Demo.eve_10s Demo.eve_10s Demo.users Database.NotOpened;
   mk_press ann "beer" (Py.mk_datetime 2030 1 6 0 0 0 0) (Py.mk_datetime 2030 1 6 0 0 0 5)
     Demo.users Database.Written;
   mk_press ann "walk" (Py.mk_datetime 2030 1 6 0 0 1 0) (Py.mk_datetime 2030 1 6 0 0 1 5)
     Demo.users Database.Written].

Definition beer_again : press :=
  mk_press ann "beer" (Py.mk_datetime 2030 1 7 0 0 10 0) (Py.mk_datetime 2030 1 7 0 0 11 0)
    Demo.users Database.Written.

Definition stamps : list Py.datetime :=
  map press_stamp (beers ++ [beer_again]).

(** ** The timer *)

(** The two repeating jobs call the two checks, each with the clock value
    it reads. A history of the timer is any sequence of such calls. *)
Definition is_check (c : StudentBot.call) : Prop :=
  match c with
  | StudentBot.CheckDeadlines _ _ | StudentBot.CheckPersonalDeadlines _ => True
  | _ => False
  end.

(** The clock values of the shared checks that find the user registry,
    and those of the personal checks, in the order of the calls. *)
Definition shared_ticks (calls : list StudentBot.call) : list Py.datetime :=
  omap (fun c => match c with
                 | StudentBot.CheckDeadlines (Some _) now => Some now
                 | _ => None
                 end) calls.

Definition personal_ticks (calls : list StudentBot.call) : list Py.datetime :=
  omap (fun c => match c with
                 | StudentBot.CheckPersonalDeadlines now => Some now
                 | _ => None
                 end) calls.

(** Consecutive ticks are at most [CHECK_INTERVAL] seconds apart. *)
Fixpoint spaced (ticks : list Py.datetime) : Prop :=
  match ticks with
  | a :: rest =>
      match rest with
      | b :: _ => Py.datetime_sub b a <= Config.CHECK_INTERVAL * 1000000 /\ spaced rest
      | [] => True
      end
  | [] => True
  end.

(** Both jobs every 60 seconds around the 24h threshold of [Demo.math]:
    the shared check half a second before the full minute, the personal
    check a quarter of a second after the shared one. *)
Definition minute_calls : list StudentBot.call :=
  flat_map (fun m =>
    [StudentBot.CheckDeadlines (Some Demo.users) (Py.mk_datetime 2029 12 (fst m) (snd m).1
                                                    (snd m).2 59 500000);
     StudentBot.CheckPersonalDeadlines (Py.mk_datetime 2029 12 (fst m) (snd m).1
                                          (snd m).2 59 750000)])
    [(30, (23, 58)); (30, (23, 59)); (31, (0, 0)); (31, (0, 1))].

(** Every tick of [ticks] is outside the sixty seconds of the threshold
    [h] of the deadline: at or after their end, or before their beginning
    (and less than [2^72] microseconds before, which is more than any two
    datetimes of Python are apart). *)
Definition misses (ticks : list Py.datetime) (dl : Deadline) (h : Z) : Prop :=
  forall dt t, Py.strptime (deadline dl) = Some dt -> t ∈ ticks ->
    Py.datetime_sub dt t <= (h * 3600 - 60) * 1000000
    \/ h * 3600 * 1000000 < Py.datetime_sub dt t < 2 ^ 72.

(** Two ticks of both checks, 60.000001 seconds apart: one microsecond
    before the 24h threshold of [Demo.math] is reached, and sixty seconds
    after it was reached. *)
Definition late_calls : list StudentBot.call :=
  [StudentBot.CheckDeadlines (Some Demo.users) (Py.mk_datetime 2029 12 30 23 59 59 999999);
   StudentBot.CheckPersonalDeadlines (Py.mk_datetime 2029 12 30 23 59 59 999999);
   StudentBot.CheckDeadlines (Some Demo.users) (Py.mk_datetime 2029 12 31 0 1 0 0);
   StudentBot.CheckPersonalDeadlines (Py.mk_datetime 2029 12 31 0 1 0 0)].

(** * Properties *)

(** ** Parsing strict dates *)

Lemma code_constants :
  Py.code " " = 32 /\ Py.code "." = 46 /\ Py.code "0" = 48 /\ Py.code "1" = 49
  /\ Py.code "2" = 50 /\ Py.code "3" = 51 /\ Py.code "9" = 57.
Proof. repeat split. Qed.

Lemma digit_range (c : ascii) : Py.digit c = true <-> 48 <= Py.code c <= 57.
Proof.
  unfold Py.digit, Py.between. destruct code_constants as (_ & _ & -> & _ & _ & _ & ->).
  rewrite andb_true_iff, !Z.leb_le. tauto.
Qed.

Lemma is_char_code (a c : ascii) : Py.is_char a c = true <-> Py.code c = Py.code a.
Proof. unfold Py.is_char. rewrite Z.eqb_eq. split; congruence. Qed.

Lemma range_spec (lo hi : ascii) (c : Z) :
  Py.range lo hi c = true <-> Py.code lo <= c <= Py.code hi.
Proof. unfold Py.range. rewrite andb_true_iff, !Z.leb_le. tauto. Qed.

Lemma range_out (lo hi : ascii) (c : Z) :
  Py.range lo hi c = false <-> c < Py.code lo \/ Py.code hi < c.
Proof. unfold Py.range. rewrite andb_false_iff, !Z.leb_gt. tauto. Qed.

Lemma char_spec (a : ascii) (c : Z) : Py.char a c = true <-> c = Py.code a.
Proof. unfold Py.char. apply Z.eqb_eq. Qed.

Lemma char_ne (a : ascii) (c : Z) : Py.char a c = false <-> c <> Py.code a.
Proof. unfold Py.char. apply Z.eqb_neq. Qed.

(** The digits [0] to [9] are decimal digits, with their usual values. *)
Lemma decimal_ascii (c : Z) : 48 <= c <= 57 -> Py.decimal c = Some (c - 48).
Proof.
  intros Hc. unfold Py.decimal, Py.decimal_zeros. cbn [List.find].
  replace ((48 <=? c) && (c <=? 48 + 9)) with true; [done|].
  symmetry. apply andb_true_iff. rewrite !Z.leb_le. lia.
Qed.

Lemma isdecimal_ascii (c : Z) : 48 <= c <= 57 -> Py.isdecimal c = true.
Proof. intros Hc. unfold Py.isdecimal. now rewrite decimal_ascii. Qed.

(** A decimal digit is no dot and no blank, and has a value from 0 to 9. *)
Lemma decimal_bounds (c v : Z) : Py.decimal c = Some v -> 48 <= c /\ 0 <= v <= 9.
Proof.
  unfold Py.decimal. destruct (List.find _ _) as [zero|] eqn:E; [|done].
  intros [= <-]. apply find_some in E as [Hin [H1 H2]%andb_true_iff].
  apply Z.leb_le in H1, H2. split; [|lia].
  assert (Hall : List.Forall (fun z => 48 <= z) Py.decimal_zeros).
  { unfold Py.decimal_zeros. repeat (apply List.Forall_cons; [lia|]).
    apply List.Forall_nil. }
  pose proof (proj1 (List.Forall_forall _ _) Hall zero Hin) as Hz. cbv beta in Hz. lia.
Qed.

Lemma isdecimal_ge (c : Z) : Py.isdecimal c = true -> 48 <= c.
Proof.
  unfold Py.isdecimal. destruct (Py.decimal c) eqn:E; [|done].
  intros _. now apply decimal_bounds in E.
Qed.

Ltac char_facts :=
  repeat match goal with
  | H : (_ && _) = true |- _ => apply andb_true_iff in H; destruct H
  | H : (_ && _) = false |- _ => apply andb_false_iff in H; destruct H
  | H : (_ || _) = true |- _ => apply orb_true_iff in H; destruct H
  | H : (_ || _) = false |- _ => apply orb_false_iff in H; destruct H
  | H : (_ <=? _) = true |- _ => apply Z.leb_le in H
  | H : Py.is_char _ _ = true |- _ => apply is_char_code in H
  | H : Py.digit _ = true |- _ => apply digit_range in H
  | H : Py.char _ _ = true |- _ => apply char_spec in H
  | H : Py.char _ _ = false |- _ => apply char_ne in H
  | H : Py.range _ _ _ = true |- _ => apply range_spec in H
  | H : Py.range _ _ _ = false |- _ => apply range_out in H
  | H : Py.isdecimal _ = true |- _ => apply isdecimal_ge in H
  end.

Ltac char_lia :=
  char_facts; unfold Spec.num2, Spec.num4 in *;
  destruct code_constants as (? & ? & ? & ? & ? & ? & ?); lia.

Lemma days_in_month_le (y m : Z) : Py.days_in_month y m <= 31.
Proof.
  unfold Py.days_in_month. destruct (_ && _); [lia|].
  generalize (Z.to_nat m). intros n.
  do 13 (destruct n as [|n]; [simpl; lia|]).
  destruct n; simpl; lia.
Qed.

Lemma is_char_eq (a c : ascii) : Py.is_char a c = true -> c = a.
Proof.
  intros H%is_char_code. unfold Py.code in H. apply N2Z.inj in H.
  apply (f_equal ascii_of_N) in H. now rewrite !ascii_N_embedding in H.
Qed.

(** *** Decoding and [int] on the digits [0] to [9] *)

Lemma decode_ascii (c : ascii) (r : string) :
  Py.code c < 128 -> Py.decode (String c r) = cons (Py.code c) <$> Py.decode r.
Proof.
  intros Hc. unfold Py.decode. cbn [Py.decode_from].
  now apply Z.ltb_lt in Hc as ->.
Qed.

Lemma int_two_digits (a b : ascii) :
  Py.digit a = true -> Py.digit b = true ->
  Py.int [Py.code a; Py.code b] = Some (Spec.num2 a b).
Proof.
  intros Ha%digit_range Hb%digit_range. unfold Py.int. cbn [Py.lstrip].
  replace (Py.char " " (Py.code a)) with false
    by (symmetry; apply char_ne; destruct code_constants as (-> & _); lia).
  cbn [Py.int_digits]. rewrite !decimal_ascii by done. cbn [Py.int_digits].
  apply f_equal. unfold Spec.num2. lia.
Qed.

Lemma int_four_digits (a b c d : ascii) :
  Py.digit a = true -> Py.digit b = true -> Py.digit c = true -> Py.digit d = true ->
  Py.int [Py.code a; Py.code b; Py.code c; Py.code d] = Some (Spec.num4 a b c d).
Proof.
  intros Ha%digit_range Hb%digit_range Hc%digit_range Hd%digit_range.
  unfold Py.int. cbn [Py.lstrip].
  replace (Py.char " " (Py.code a)) with false
    by (symmetry; apply char_ne; destruct code_constants as (-> & _); lia).
  cbn [Py.int_digits]. rewrite !decimal_ascii by done. cbn [Py.int_digits].
  apply f_equal. unfold Spec.num4. lia.
Qed.

(** ** The texts accepted by [strptime] *)

Lemma elem_of_two (p1 p2 : Z -> bool) (s d r : Py.str) :
  (d, r) ∈ Py.two p1 p2 s ->
  exists a b, s = a :: b :: r /\ d = [a; b] /\ p1 a = true /\ p2 b = true.
Proof.
  destruct s as [|a [|b s]]; simpl; try (intros H; now apply elem_of_nil in H).
  destruct (p1 a) eqn:E1, (p2 b) eqn:E2; simpl;
    try (intros H; now apply elem_of_nil in H).
  intros H%list_elem_of_singleton. injection H as -> ->. now exists a, b.
Qed.

Lemma elem_of_one (p : Z -> bool) (s d r : Py.str) :
  (d, r) ∈ Py.one p s -> exists a, s = a :: r /\ d = [a] /\ p a = true.
Proof.
  destruct s as [|a s]; simpl; [intros H; now apply elem_of_nil in H|].
  destruct (p a) eqn:E; [|intros H; now apply elem_of_nil in H].
  intros H%list_elem_of_singleton. injection H as -> ->. now exists a.
Qed.

Lemma elem_of_lit (a : ascii) (s r : Py.str) : r ∈ Py.lit a s -> s = Py.code a :: r.
Proof.
  destruct s as [|c s]; simpl; [intros H; now apply elem_of_nil in H|].
  destruct (Py.char a c) eqn:E; [|intros H; now apply elem_of_nil in H].
  intros ->%list_elem_of_singleton. now apply char_spec in E as ->.
Qed.

Lemma lit_match (a : ascii) (r : Py.str) : Py.lit a (Py.code a :: r) = [r].
Proof. unfold Py.lit, Py.char. now rewrite Z.eqb_refl. Qed.

Lemma elem_of_re_d (s d r : Py.str) :
  (d, r) ∈ Py.re_d s -> s = d ++ r /\ Spec.day_text d = true.
Proof.
  unfold Py.re_d, Py.alt. rewrite !elem_of_app.
  intros [H|[H|[H|[H|H]]]];
    first [ apply elem_of_two in H as (a & b & -> & -> & Ha & Hb)
          | apply elem_of_one in H as (a & -> & -> & Ha) ];
    (split; [reflexivity|]); cbn [Spec.day_text]; rewrite ?Ha, ?Hb; cbn [andb orb];
    now rewrite ?orb_true_r.
Qed.

Lemma elem_of_re_m (s m r : Py.str) :
  (m, r) ∈ Py.re_m s -> s = m ++ r /\ Spec.month_text m = true.
Proof.
  unfold Py.re_m, Py.alt. rewrite !elem_of_app.
  intros [H|[H|H]];
    first [ apply elem_of_two in H as (a & b & -> & -> & Ha & Hb)
          | apply elem_of_one in H as (a & -> & -> & Ha) ];
    (split; [reflexivity|]); cbn [Spec.month_text]; rewrite ?Ha, ?Hb; cbn [andb orb];
    now rewrite ?orb_true_r.
Qed.

Lemma elem_of_re_Y (s Y r : Py.str) :
  (Y, r) ∈ Py.re_Y s -> s = Y ++ r /\ Spec.year_text Y = true.
Proof.
  unfold Py.re_Y.
  destruct s as [|a [|b [|c [|d s]]]]; try (intros H; now apply elem_of_nil in H).
  destruct (Py.isdecimal a && Py.isdecimal b && Py.isdecimal c && Py.isdecimal d) eqn:E;
    [|intros H; now apply elem_of_nil in H].
  intros H%list_elem_of_singleton. injection H as -> ->. done.
Qed.

(** Every candidate match of the compiled format splits the text as
    [d.m.Y] followed by the unconverted rest. *)
Lemma elem_of_format_regex (s d m Y r : Py.str) :
  (d, m, Y, r) ∈ Py.format_regex s ->
  s = d ++ [Py.code "."] ++ m ++ [Py.code "."] ++ Y ++ r
  /\ Spec.day_text d = true /\ Spec.month_text m = true /\ Spec.year_text Y = true.
Proof.
  unfold Py.format_regex.
  intros ([d' r1] & Hd & H)%list_elem_of_In%in_flat_map.
  apply in_flat_map in H as (r2 & Hp1 & H).
  apply in_flat_map in H as ([m' r3] & Hm & H).
  apply in_flat_map in H as (r4 & Hp2 & H).
  apply in_flat_map in H as ([Y' r5] & HY & H).
  apply list_elem_of_In, list_elem_of_singleton in H. injection H as -> -> -> ->.
  apply list_elem_of_In in Hd, Hp1, Hm, Hp2, HY.
  apply elem_of_re_d in Hd as [-> Hd]. apply elem_of_lit in Hp1 as ->.
  apply elem_of_re_m in Hm as [-> Hm]. apply elem_of_lit in Hp2 as ->.
  apply elem_of_re_Y in HY as [-> HY]. done.
Qed.

Lemma re_d_two (a b : Z) (r : Py.str) :
  Spec.day_text [a; b] = true ->
  Py.re_d (a :: b :: r)
  = ([a; b], r) :: (if Py.range "1" "9" a then [([a], b :: r)] else []).
Proof.
  cbn [Spec.day_text]. intros Hd. unfold Py.re_d, Py.alt, Py.two, Py.one.
  destruct (Py.char "3" a && Py.range "0" "1" b) eqn:C1;
    destruct (Py.range "1" "2" a && Py.isdecimal b) eqn:C2;
    destruct (Py.char "0" a && Py.range "1" "9" b) eqn:C3;
    destruct (Py.char " " a && Py.range "1" "9" b) eqn:C5;
    destruct (Py.range "1" "9" a) eqn:C4;
    simpl; try reflexivity; exfalso; try discriminate Hd; char_lia.
Qed.

Lemma re_d_one (a : Z) (r : Py.str) :
  Py.range "1" "9" a = true ->
  Py.re_d (a :: Py.code "." :: r) = [([a], Py.code "." :: r)].
Proof.
  intros Ha. unfold Py.re_d, Py.alt, Py.two, Py.one. rewrite Ha.
  change (Py.range "0" "1" (Py.code ".")) with false.
  change (Py.isdecimal (Py.code ".")) with false.
  change (Py.range "1" "9" (Py.code ".")) with false.
  now rewrite !andb_false_r.
Qed.

Lemma re_m_two (a b : Z) (r : Py.str) :
  Spec.month_text [a; b] = true ->
  Py.re_m (a :: b :: r)
  = ([a; b], r) :: (if Py.range "1" "9" a then [([a], b :: r)] else []).
Proof.
  cbn [Spec.month_text]. intros Hm. unfold Py.re_m, Py.alt, Py.two, Py.one.
  destruct (Py.char "1" a && Py.range "0" "2" b) eqn:C1;
    destruct (Py.char "0" a && Py.range "1" "9" b) eqn:C2;
    destruct (Py.range "1" "9" a) eqn:C4;
    simpl; try reflexivity; exfalso; try discriminate Hm; char_lia.
Qed.

Lemma re_m_one (a : Z) (r : Py.str) :
  Py.range "1" "9" a = true ->
  Py.re_m (a :: Py.code "." :: r) = [([a], Py.code "." :: r)].
Proof.
  intros Ha. unfold Py.re_m, Py.alt, Py.two, Py.one. rewrite Ha.
  change (Py.range "0" "2" (Py.code ".")) with false.
  change (Py.range "1" "9" (Py.code ".")) with false.
  now rewrite !andb_false_r.
Qed.

Lemma string_app_cons (c : ascii) (s t : string) :
  String c s +:+ t = String c (s +:+ t).
Proof. reflexivity. Qed.

Lemma string_app_nil_l (t : string) : EmptyString +:+ t = t.
Proof. reflexivity. Qed.

Lemma string_app_nil_r (s : string) : s +:+ EmptyString = s.
Proof.
  induction s as [|c s IH]; [done|]. now rewrite string_app_cons, IH.
Qed.

(** The first candidate of the compiled format on a text [d.m.Y] of the
    loose format is the split at the two dots, with nothing left over. *)
Lemma format_regex_loose (d m Y : Py.str) :
  Spec.day_text d = true -> Spec.month_text m = true -> Spec.year_text Y = true ->
  exists tl,
    Py.format_regex (d ++ [Py.code "."] ++ m ++ [Py.code "."] ++ Y) = (d, m, Y, []) :: tl.
Proof.
  intros Hd Hm HY.
  assert (HreY : Py.re_Y Y = [(Y, [])]).
  { destruct Y as [|a [|b [|c [|e [|? ?]]]]]; try discriminate HY.
    unfold Py.re_Y. cbn [Spec.year_text] in HY. now rewrite HY. }
  assert (Hmonth : forall (X : Type) (K : Py.str -> Py.str -> list X),
    exists tl,
      flat_map (fun '(m', r3) => flat_map (K m') (Py.lit "." r3))
        (Py.re_m (m ++ Py.code "." :: Y))
      = K m Y ++ tl).
  { intros X K. destruct m as [|a [|b [|? ?]]]; try discriminate Hm.
    - cbn [Spec.month_text] in Hm. cbn [app]. rewrite re_m_one by done.
      cbn [flat_map]. rewrite lit_match. cbn [flat_map].
      exists []. now rewrite !app_nil_r.
    - cbn [app]. rewrite re_m_two by done.
      cbn [flat_map]. rewrite lit_match. cbn [flat_map].
      rewrite app_nil_r. eauto. }
  unfold Py.format_regex.
  destruct d as [|a [|b [|? ?]]]; try discriminate Hd.
  - cbn [Spec.day_text] in Hd. cbn [app]. rewrite re_d_one by done.
    cbn [flat_map]. rewrite lit_match. cbn [flat_map].
    rewrite !app_nil_r.
    destruct (Hmonth _ (fun m' r4 =>
      flat_map (fun '(Y', r5) => [([a], m', Y', r5)]) (Py.re_Y r4)))
      as [tl Htl].
    rewrite HreY in Htl. simpl in Htl. eexists. exact Htl.
  - cbn [app]. rewrite re_d_two by done.
    cbn [flat_map]. rewrite lit_match. cbn [flat_map].
    rewrite app_nil_r.
    destruct (Hmonth _ (fun m' r4 =>
      flat_map (fun '(Y', r5) => [([a; b], m', Y', r5)])
        (Py.re_Y r4))) as [tl Htl].
    rewrite HreY in Htl. simpl in Htl. eexists.
    refine (eq_trans (f_equal (fun l => l ++ _) Htl) _). reflexivity.
Qed.

(** [strptime] with [%d.%m.%Y] accepts exactly the texts of the loose
    format that name a day of the calendar. *)
Lemma strptime_accepts_iff (s : string) :
  is_Some (Py.strptime s) <-> Spec.loose_D_M_YYYY s.
Proof.
  split.
  - unfold Py.strptime.
    destruct (Py.decode s) as [cps|] eqn:Ed; [|now intros [? ?]]. cbn [fmap option_fmap option_map].
    destruct (Py.format_regex cps) as [|[[[d m] Y] rest] tl] eqn:E; [now intros [? ?]|].
    destruct rest; [|now intros [? ?]].
    destruct (Py.int Y) as [y|] eqn:EY; [|now intros [? ?]].
    destruct (Py.int m) as [mo|] eqn:Em; [|now intros [? ?]].
    destruct (Py.int d) as [dd|] eqn:Edd; [|now intros [? ?]].
    destruct (Py.check_date_fields _ _ _) eqn:C; [|now intros [? ?]].
    intros _.
    assert (Hin : (d, m, Y, []) ∈ Py.format_regex cps) by (rewrite E; left).
    apply elem_of_format_regex in Hin as (Hs & Hd & Hm & HY).
    rewrite app_nil_r in Hs. subst cps. now exists d, m, Y, y, mo, dd.
  - intros (d & m & Y & y & mo & dd & Hs & Hd & Hm & HY & EY & Em & Edd & C).
    destruct (format_regex_loose d m Y Hd Hm HY) as [tl E].
    unfold Py.strptime. rewrite Hs. cbn [fmap option_fmap option_map].
    rewrite E, EY, Em, Edd, C. eauto.
Qed.

(** A strict date text is in particular a text of the loose format. *)
Lemma strict_is_loose (s : string) :
  Spec.valid_DD_MM_YYYY s = true -> Spec.loose_D_M_YYYY s.
Proof.
  destruct s as [|d1 [|d2 [|p1 [|m1 [|m2 [|p2 [|y1 [|y2 [|y3 [|y4 [|? ?]]]]]]]]]]];
    unfold Spec.valid_DD_MM_YYYY; try discriminate.
  intros H.
  apply andb_true_iff in H as [H Hchk]. apply andb_true_iff in H as [H Hy4].
  apply andb_true_iff in H as [H Hy3]. apply andb_true_iff in H as [H Hy2].
  apply andb_true_iff in H as [H Hy1]. apply andb_true_iff in H as [H Hp2].
  apply andb_true_iff in H as [H Hm2]. apply andb_true_iff in H as [H Hm1].
  apply andb_true_iff in H as [H Hp1]. apply andb_true_iff in H as [Hd1 Hd2].
  apply is_char_eq in Hp1 as ->. apply is_char_eq in Hp2 as ->.
  assert (Hf := Hchk). unfold Py.check_date_fields in Hf.
  repeat (apply andb_true_iff in Hf; destruct Hf as [Hf ?]).
  pose proof (days_in_month_le (Spec.num4 y1 y2 y3 y4) (Spec.num2 m1 m2)).
  exists [Py.code d1; Py.code d2], [Py.code m1; Py.code m2],
    [Py.code y1; Py.code y2; Py.code y3; Py.code y4],
    (Spec.num4 y1 y2 y3 y4), (Spec.num2 m1 m2), (Spec.num2 d1 d2).
  assert (R1 := proj1 (digit_range d1) Hd1). assert (R2 := proj1 (digit_range d2) Hd2).
  assert (R3 := proj1 (digit_range m1) Hm1). assert (R4 := proj1 (digit_range m2) Hm2).
  assert (R5 := proj1 (digit_range y1) Hy1). assert (R6 := proj1 (digit_range y2) Hy2).
  assert (R7 := proj1 (digit_range y3) Hy3). assert (R8 := proj1 (digit_range y4) Hy4).
  split; [|split; [|split; [|split; [|split; [|split; [|split]]]]]].
  - rewrite !decode_ascii by first [lia|reflexivity]. reflexivity.
  - cbn [Spec.day_text]. rewrite (isdecimal_ascii _ R2).
    apply orb_true_iff.
    destruct (Py.char "3" (Py.code d1) && Py.range "0" "1" (Py.code d2)) eqn:C3;
      [now right|left].
    destruct (Py.char " " (Py.code d1) && Py.range "1" "9" (Py.code d2)) eqn:C0;
      [done|].
    destruct (Py.char "0" (Py.code d1) && Py.range "1" "9" (Py.code d2)) eqn:C1;
      [done|].
    destruct (Py.range "1" "2" (Py.code d1)) eqn:C2; [done|]. exfalso. char_lia.
  - cbn [Spec.month_text].
    destruct (Py.char "0" (Py.code m1) && Py.range "1" "9" (Py.code m2)) eqn:C0;
      [done|].
    destruct (Py.char "1" (Py.code m1) && Py.range "0" "2" (Py.code m2)) eqn:C1;
      [done|]. exfalso. char_lia.
  - cbn [Spec.year_text]. now rewrite !isdecimal_ascii.
  - now apply int_four_digits.
  - now apply int_two_digits.
  - now apply int_two_digits.
  - done.
Qed.

(** ** Keys and underscores *)












(** ** Loops *)

Section ForEach.
Context {A S : Type}.
Implicit Types (xs : list A) (body : A -> action S) (s : S).

Lemma for_each_cons x xs body s :
  for_each (x :: xs) body s =
    ((for_each xs body (body x s).1).1,
     (body x s).2 ++ (for_each xs body (body x s).1).2).
Proof.
  simpl. destruct (body x s) as [s1 e1]; simpl.
  now destruct (for_each xs body s1).
Qed.

Lemma for_each_app xs ys body s :
  for_each (xs ++ ys) body s =
    ((for_each ys body (for_each xs body s).1).1,
     (for_each xs body s).2 ++ (for_each ys body (for_each xs body s).1).2).
Proof.
  revert s. induction xs as [|x xs IH]; intros s.
  - simpl. now destruct (for_each ys body s).
  - rewrite <- app_comm_cons, !for_each_cons, IH. simpl.
    now rewrite app_assoc.
Qed.

(** A property of every event of every iteration holds of the loop. *)
Lemma for_each_events (P : event -> Prop) xs body :
  (forall x s, x ∈ xs -> Forall P (body x s).2) ->
  forall s, Forall P (for_each xs body s).2.
Proof.
  induction xs as [|x xs IH]; intros Hb s; [constructor|].
  rewrite for_each_cons. simpl. apply Forall_app. split.
  - apply Hb. left.
  - apply IH. intros y t Hy. apply Hb. now right.
Qed.
End ForEach.

(** ** The ledger discipline *)

Section Tracks.
Variables (sc : scope) (k : string).

Lemma tracks_frame (idle : Prop) fire (sent sent' : ledger) evs :
  filter (about sc k) evs = [] -> sent' !! k = sent !! k ->
  (sent !! k = None -> idle) ->
  tracks sc k idle fire sent evs sent'.
Proof.
  intros Hev Hk Hidle. unfold tracks.
  destruct (sent !! k) as [v|] eqn:E; [done|]. left. auto.
Qed.

Lemma tracks_mono (i i' : Prop) (f f' : list string -> string -> Prop)
    (sent sent' : ledger) evs :
  (i -> i') -> (forall us st, f us st -> f' us st) ->
  tracks sc k i f sent evs sent' -> tracks sc k i' f' sent evs sent'.
Proof.
  unfold tracks. intros Hi Hf. destruct (sent !! k); [done|].
  intros [(? & ? & ?)|(us & st & ? & ? & ?)]; [left; auto|].
  right. exists us, st. auto.
Qed.

Lemma tracks_seq (i1 i2 : Prop) (f1 f2 : list string -> string -> Prop)
    (s1 s2 s3 : ledger) e1 e2 :
  tracks sc k i1 f1 s1 e1 s2 -> tracks sc k i2 f2 s2 e2 s3 ->
  tracks sc k (i1 /\ i2) (fun us st => f1 us st \/ f2 us st) s1 (e1 ++ e2) s3.
Proof.
  unfold tracks. rewrite filter_app.
  destruct (s1 !! k) as [v|].
  - intros [-> ->] [-> ->]. done.
  - intros [(Hi1 & -> & ->)|(us & st & Hf & -> & Hd)].
    + intros [(Hi2 & ? & ->)|(us & st & Hf & ? & Hd)]; [left; auto|].
      right. exists us, st. auto.
    + intros [? ->]. rewrite app_nil_r. right. exists us, st. auto.
Qed.

Lemma for_each_tracks {A S : Type} (π : S -> ledger) (idle : A -> Prop)
    (fire : A -> list string -> string -> Prop) (xs : list A) (body : A -> action S) :
  (forall x s, x ∈ xs ->
     tracks sc k (idle x) (fire x) (π s) (body x s).2 (π (body x s).1)) ->
  forall s,
    tracks sc k (forall x, x ∈ xs -> idle x)
      (fun us st => exists x, x ∈ xs /\ fire x us st)
      (π s) (for_each xs body s).2 (π (for_each xs body s).1).
Proof.
  induction xs as [|x xs IH]; intros Hb s.
  - simpl. apply tracks_frame; [done..|]. intros _ x Hx. inversion Hx.
  - rewrite for_each_cons. simpl.
    eapply tracks_mono; [| |eapply tracks_seq; [apply (Hb x s); left|apply IH]].
    + intros [Hx Hxs] y Hy. apply elem_of_cons in Hy as [->|Hy]; auto.
    + intros us st [Hf|(y & Hy & Hf)]; [exists x|exists y]; split; auto.
      * left.
      * now right.
    + intros y t Hy. apply Hb. now right.
Qed.
End Tracks.

(** ** Events of one reminder *)

Lemma filter_about_same sc k (evs : list event) :
  Forall (about sc k) evs -> filter (about sc k) evs = evs.
Proof.
  induction 1 as [|e evs He _ IH]; [done|].
  rewrite filter_cons_True by done. now rewrite IH.
Qed.

Lemma filter_about_other sc k sc' k' (evs : list event) :
  Forall (about sc k) evs -> (sc, k) <> (sc', k') -> filter (about sc' k') evs = [].
Proof.
  intros Hall Hne. induction Hall as [|e evs [He1 He2] _ IH]; [done|].
  rewrite filter_cons_False; [done|].
  intros [H1 H2]. apply Hne. congruence.
Qed.

Lemma attempts_about sc k text us oks : Forall (about sc k) (attempts sc k text us oks).
Proof.
  unfold attempts. revert oks. induction us as [|u us IH]; intros [|ok oks]; simpl;
    constructor; done.
Qed.

Lemma reminder_about sc k text us oks stamp :
  Forall (about sc k) (attempts sc k text us oks ++ [Marked sc k stamp]).
Proof.
  apply Forall_app. split; [apply attempts_about|]. now repeat constructor.
Qed.

(** The loop [for uid in all_users] with its [try]/[except]: every user is
    tried, whatever the outcome of the earlier sends. *)
Lemma send_loop_events {Bot : Type} `{!Transport Bot} sc key msg (us : list string) (bot : Bot) :
  exists oks, length oks = length us
    /\ (for_each us (fun uid b =>
          let '(b', ok) := send_message b uid msg in
          (b', [Attempt sc key uid msg ok])) bot).2 = attempts sc key msg us oks.
Proof.
  revert bot. induction us as [|u us IH]; intros bot.
  - now exists [].
  - rewrite for_each_cons. destruct (send_message bot u msg) as [b1 ok] eqn:E. simpl.
    destruct (IH b1) as (oks & Hlen & ->).
    exists (ok :: oks). simpl. now rewrite Hlen.
Qed.

(** ** The shared check *)

Section SharedCheck.
Context {Bot : Type} `{!Transport Bot}.
Variables (all_users : list string) (now : Py.datetime).

Import GlobalDeadlineManager.

Lemma shared_remind_tracks k dl hl h (s : Bot * ledger) :
  tracks Shared k
    (~ (in_window h hl = true /\ reminder_key dl h = k))
    (fun us st => us = all_users /\ st = Py.strftime now
                  /\ in_window h hl = true /\ reminder_key dl h = k)
    s.2 (remind all_users now dl hl h s).2 (remind all_users now dl hl h s).1.2.
Proof.
  destruct s as [bot sent]. unfold remind. simpl.
  destruct (in_window h hl) eqn:W.
  2:{ apply tracks_frame; [done..|]. intros _ [? _]. done. }
  destruct (sent !! reminder_key dl h) as [v|] eqn:L.
  { apply tracks_frame; [done..|]. intros Hk [_ <-]. congruence. }
  destruct (send_loop_events Shared (reminder_key dl h)
              (message "Глобальный дедлайн" dl h) all_users bot) as (oks & Hlen & Hev).
  destruct (for_each all_users _ bot) as [bot' evs]. simpl in *. subst evs.
  destruct (decide (reminder_key dl h = k)) as [<-|Hne].
  - unfold tracks. rewrite L. right.
    exists all_users, (Py.strftime now). split; [done|].
    split; [apply lookup_insert_eq|].
    rewrite filter_about_same by apply reminder_about.
    now exists (message "Глобальный дедлайн" dl h), oks.
  - apply tracks_frame.
    + eapply filter_about_other; [apply reminder_about|]. congruence.
    + now apply lookup_insert_ne.
    + intros _ [_ ?]. done.
Qed.

Lemma shared_check_deadline_tracks k dl (s : Bot * ledger) :
  tracks Shared k
    (forall h, due now dl h = true -> reminder_key dl h <> k)
    (fun us st => us = all_users /\ st = Py.strftime now
                  /\ exists h, due now dl h = true /\ reminder_key dl h = k)
    s.2 (check_deadline all_users now dl s).2 (check_deadline all_users now dl s).1.2.
Proof.
  unfold check_deadline, due. destruct (Py.strptime (deadline dl)) as [dt|].
  2:{ apply tracks_frame; [done..|]. intros _ h. done. }
  eapply tracks_mono; [| |apply (for_each_tracks Shared k snd); intros h s' _;
                            apply shared_remind_tracks].
  - intros Hidle h [Hh W]%andb_true_iff Hk. apply bool_decide_eq_true in Hh.
    now apply (Hidle h Hh).
  - intros us st (h & Hh & -> & -> & W & Hk). do 2 (split; [done|]).
    exists h. split; [|done]. apply andb_true_iff. split; [|done].
    now apply bool_decide_eq_true.
Qed.

Lemma shared_loop_tracks k (l : list Deadline) (s : Bot * ledger) :
  tracks Shared k (~ shared_trigger now l k)
    (fun us st => us = all_users /\ st = Py.strftime now /\ shared_trigger now l k)
    s.2 (for_each l (check_deadline all_users now) s).2
    (for_each l (check_deadline all_users now) s).1.2.
Proof.
  eapply tracks_mono; [| |apply (for_each_tracks Shared k snd); intros dl s' _;
                            apply shared_check_deadline_tracks].
  - intros Hidle (dl & h & Hdl & Hdue & Hk). exact (Hidle dl Hdl h Hdue Hk).
  - intros us st (dl & Hdl & -> & -> & h & Hdue & Hk). do 2 (split; [done|]).
    now exists dl, h.
Qed.
End SharedCheck.

(** ** The personal check *)

Section PersonalCheck.
Context {Bot : Type} `{!Transport Bot}.
Variable now : Py.datetime.

Import UserDeadlineManager.

Lemma personal_remind_tracks k uid dl hl h (s : Bot * ledger) :
  tracks Personal k
    (~ (in_window h hl = true /\ r_key uid dl h = k))
    (fun us st => us = [uid] /\ st = Py.strftime now
                  /\ in_window h hl = true /\ r_key uid dl h = k)
    s.2 (remind now uid dl hl h s).2 (remind now uid dl hl h s).1.2.
Proof.
  destruct s as [bot sent]. unfold remind. simpl.
  destruct (in_window h hl) eqn:W.
  2:{ apply tracks_frame; [done..|]. intros _ [? _]. done. }
  destruct (sent !! r_key uid dl h) as [v|] eqn:L.
  { apply tracks_frame; [done..|]. intros Hk [_ <-]. congruence. }
  destruct (send_message bot uid (message "Личный дедлайн" dl h)) as [bot' ok].
  simpl.
  pose proof (reminder_about Personal (r_key uid dl h)
                (message "Личный дедлайн" dl h) [uid] [ok] (Py.strftime now)) as Hab.
  simpl in Hab.
  destruct (decide (r_key uid dl h = k)) as [<-|Hne].
  - unfold tracks. rewrite L. right.
    exists [uid], (Py.strftime now). split; [done|].
    split; [apply lookup_insert_eq|].
    rewrite filter_about_same by done.
    now exists (message "Личный дедлайн" dl h), [ok].
  - apply tracks_frame.
    + eapply filter_about_other; [exact Hab|]. congruence.
    + now apply lookup_insert_ne.
    + intros _ [_ ?]. done.
Qed.

Lemma personal_check_deadline_tracks k uid dl (s : Bot * ledger) :
  tracks Personal k
    (forall h, due now dl h = true -> r_key uid dl h <> k)
    (fun us st => us = [uid] /\ st = Py.strftime now
                  /\ exists h, due now dl h = true /\ r_key uid dl h = k)
    s.2 (check_deadline now uid dl s).2 (check_deadline now uid dl s).1.2.
Proof.
  unfold check_deadline, due. destruct (Py.strptime (deadline dl)) as [dt|].
  2:{ apply tracks_frame; [done..|]. intros _ h. done. }
  eapply tracks_mono; [| |apply (for_each_tracks Personal k snd); intros h s' _;
                            apply personal_remind_tracks].
  - intros Hidle h [Hh W]%andb_true_iff Hk. apply bool_decide_eq_true in Hh.
    now apply (Hidle h Hh).
  - intros us st (h & Hh & -> & -> & W & Hk). do 2 (split; [done|]).
    exists h. split; [|done]. apply andb_true_iff. split; [|done].
    now apply bool_decide_eq_true.
Qed.

Lemma personal_check_user_tracks k (item : string * list Deadline) (s : Bot * ledger) :
  tracks Personal k
    (forall dl h, dl ∈ item.2 -> due now dl h = true -> r_key item.1 dl h <> k)
    (fun us st => us = [item.1] /\ st = Py.strftime now
                  /\ exists dl h, dl ∈ item.2 /\ due now dl h = true
                                  /\ r_key item.1 dl h = k)
    s.2 (check_user now item s).2 (check_user now item s).1.2.
Proof.
  unfold check_user.
  eapply tracks_mono; [| |apply (for_each_tracks Personal k snd); intros dl s' _;
                            apply personal_check_deadline_tracks].
  - intros Hidle dl h Hdl. now apply Hidle.
  - intros us st (dl & Hdl & -> & -> & h & Hdue & Hk). do 2 (split; [done|]).
    now exists dl, h.
Qed.

Lemma personal_loop_tracks k (d : Py.dict (list Deadline)) (s : Bot * ledger) :
  tracks Personal k (forall uid, ~ personal_trigger now d k uid)
    (fun us st => st = Py.strftime now
                  /\ exists uid, us = [uid] /\ personal_trigger now d k uid)
    s.2 (for_each d (check_user now) s).2 (for_each d (check_user now) s).1.2.
Proof.
  eapply tracks_mono; [| |apply (for_each_tracks Personal k snd); intros item s' _;
                            apply personal_check_user_tracks].
  - intros Hidle uid (arr & dl & h & Hin & Hdl & Hdue & Hk).
    exact (Hidle (uid, arr) Hin dl h Hdl Hdue Hk).
  - intros us st ([uid arr] & Hin & -> & -> & dl & h & Hdl & Hdue & Hk).
    split; [done|]. exists uid. split; [done|]. now exists arr, dl, h.
Qed.
End PersonalCheck.

(** ** The two checks as a whole *)

Section Checks.
Context {Bot : Type} `{!Transport Bot}.

Lemma check_deadlines_unfold (us : list string) now (bot : Bot) self :
  GlobalDeadlineManager.check_deadlines (Some us) now bot self =
    let r := for_each (GlobalDeadlineManager.deadlines self)
               (GlobalDeadlineManager.check_deadline us now)
               (bot, GlobalDeadlineManager.sent_reminders self) in
    (r.1.1, GlobalDeadlineManager.mk (GlobalDeadlineManager.deadlines self) r.1.2, r.2).
Proof.
  unfold GlobalDeadlineManager.check_deadlines.
  now destruct (for_each _ _ _) as [[b s] e].
Qed.

Lemma check_personal_unfold now (bot : Bot) self :
  UserDeadlineManager.check_personal_deadlines now bot self =
    let r := for_each (UserDeadlineManager.deadlines self)
               (UserDeadlineManager.check_user now)
               (bot, UserDeadlineManager.sent_reminders self) in
    (r.1.1, UserDeadlineManager.mk (UserDeadlineManager.deadlines self) r.1.2, r.2).
Proof.
  unfold UserDeadlineManager.check_personal_deadlines.
  now destruct (for_each _ _ _) as [[b s] e].
Qed.

Lemma check_deadlines_tracks k um now (bot : Bot) self :
  tracks Shared k
    (um = None \/ ~ shared_trigger now (GlobalDeadlineManager.deadlines self) k)
    (fun us st => um = Some us /\ st = Py.strftime now
                  /\ shared_trigger now (GlobalDeadlineManager.deadlines self) k)
    (GlobalDeadlineManager.sent_reminders self)
    (GlobalDeadlineManager.check_deadlines um now bot self).2
    (GlobalDeadlineManager.sent_reminders
       (GlobalDeadlineManager.check_deadlines um now bot self).1.2).
Proof.
  destruct um as [us|].
  - rewrite check_deadlines_unfold. simpl.
    eapply tracks_mono; [| |apply (shared_loop_tracks us now k _ (bot, _))].
    + auto.
    + intros ? ? (-> & -> & ?). auto.
  - simpl. apply tracks_frame; auto.
Qed.

Lemma check_personal_tracks k now (bot : Bot) self :
  tracks Personal k
    (forall uid, ~ personal_trigger now (UserDeadlineManager.deadlines self) k uid)
    (fun us st => st = Py.strftime now /\ exists uid, us = [uid]
       /\ personal_trigger now (UserDeadlineManager.deadlines self) k uid)
    (UserDeadlineManager.sent_reminders self)
    (UserDeadlineManager.check_personal_deadlines now bot self).2
    (UserDeadlineManager.sent_reminders
       (UserDeadlineManager.check_personal_deadlines now bot self).1.2).
Proof.
  rewrite check_personal_unfold. simpl.
  apply (personal_loop_tracks now k _ (bot, _)).
Qed.

(** Every event of the shared check belongs to a reminder of a stored
    deadline and a configured threshold, under the shared key. *)
Lemma check_deadlines_events um now (bot : Bot) self :
  Forall (fun e => exists dl h,
            dl ∈ GlobalDeadlineManager.deadlines self /\ h ∈ Config.REMINDER_HOURS
            /\ about Shared (GlobalDeadlineManager.reminder_key dl h) e)
    (GlobalDeadlineManager.check_deadlines um now bot self).2.
Proof.
  destruct um as [us|]; [|constructor].
  rewrite check_deadlines_unfold. simpl.
  apply for_each_events. intros dl [b sent] Hdl.
  unfold GlobalDeadlineManager.check_deadline.
  destruct (Py.strptime (deadline dl)); [|constructor].
  apply for_each_events. intros h [b' sent'] Hh.
  unfold GlobalDeadlineManager.remind.
  destruct (in_window h _); [|constructor].
  destruct (sent' !! _); [constructor|].
  destruct (send_loop_events Shared (GlobalDeadlineManager.reminder_key dl h)
              (message "Глобальный дедлайн" dl h) us b') as (oks & _ & Hev).
  destruct (for_each us _ b') as [b'' evs]. simpl in *. subst evs.
  eapply Forall_impl; [apply reminder_about|].
  intros e He. now exists dl, h.
Qed.

(** The same for the personal check, under the personal key. *)
Lemma check_personal_events now (bot : Bot) self :
  Forall (fun e => exists uid arr dl h,
            (uid, arr) ∈ UserDeadlineManager.deadlines self /\ dl ∈ arr
            /\ h ∈ Config.REMINDER_HOURS
            /\ about Personal (UserDeadlineManager.r_key uid dl h) e)
    (UserDeadlineManager.check_personal_deadlines now bot self).2.
Proof.
  rewrite check_personal_unfold. simpl.
  apply for_each_events. intros [uid arr] [b sent] Hin.
  unfold UserDeadlineManager.check_user. simpl.
  apply for_each_events. intros dl [b1 sent1] Hdl.
  unfold UserDeadlineManager.check_deadline.
  destruct (Py.strptime (deadline dl)); [|constructor].
  apply for_each_events. intros h [b' sent'] Hh.
  unfold UserDeadlineManager.remind.
  destruct (in_window h _); [|constructor].
  destruct (sent' !! _); [constructor|].
  destruct (send_message b' uid _) as [b'' ok]. simpl.
  pose proof (reminder_about Personal (UserDeadlineManager.r_key uid dl h)
                (message "Личный дедлайн" dl h) [uid] [ok] (Py.strftime now)) as Hab.
  eapply Forall_impl; [exact Hab|].
  intros e He. now exists uid, arr, dl, h.
Qed.

Lemma check_deadlines_store um now (bot : Bot) self :
  GlobalDeadlineManager.deadlines
    (GlobalDeadlineManager.check_deadlines um now bot self).1.2
  = GlobalDeadlineManager.deadlines self.
Proof. destruct um; [now rewrite check_deadlines_unfold|done]. Qed.

Lemma check_personal_store now (bot : Bot) self :
  UserDeadlineManager.deadlines
    (UserDeadlineManager.check_personal_deadlines now bot self).1.2
  = UserDeadlineManager.deadlines self.
Proof. now rewrite check_personal_unfold. Qed.
End Checks.

(** ** Histories of the whole bot *)

Lemma mark_not_attempt sc k st sc' k' text us oks :
  Marked sc k st ∉ attempts sc' k' text us oks.
Proof.
  unfold attempts. revert oks.
  induction us as [|u us IH]; intros [|ok oks]; simpl; try apply not_elem_of_nil.
  intros [?|?]%elem_of_cons; [done|]. now apply (IH oks).
Qed.

Lemma last_of_block {A : Type} (l1 l2 l3 : list A) (x y : A) :
  x ∉ l3 -> l1 ++ x :: l2 = l3 ++ [y] -> l1 = l3 /\ x = y /\ l2 = [].
Proof.
  revert l1. induction l3 as [|a l3 IH]; intros l1 Hx Heq.
  - destruct l1 as [|b l1]; simpl in Heq.
    + now inversion Heq.
    + inversion Heq as [[Hb Hrest]]. now destruct l1.
  - destruct l1 as [|b l1]; simpl in Heq; inversion Heq as [[Hb Hrest]].
    + subst. exfalso. apply Hx. left.
    + subst. destruct (IH l1) as (-> & -> & ->); [|done..].
      intros Hin. apply Hx. now right.
Qed.

Lemma tracks_after_mark sc k (idle : Prop) fire (sent sent' : ledger) pre stamp post :
  tracks sc k idle fire sent (pre ++ Marked sc k stamp :: post) sent' ->
  sent !! k = None /\ sent' !! k = Some stamp
  /\ filter (about sc k) post = []
  /\ exists us, fire us stamp
       /\ dispatched sc k us stamp (filter (about sc k) pre ++ [Marked sc k stamp]).
Proof.
  unfold tracks. rewrite filter_app, filter_cons_True by done.
  destruct (sent !! k) as [v|].
  { intros [_ H]. symmetry in H. now apply app_cons_not_nil in H. }
  intros [(_ & _ & H)|(us & st & Hf & Hs & text & oks & Hlen & Heq)].
  { symmetry in H. now apply app_cons_not_nil in H. }
  apply last_of_block in Heq as (Hpre & Hst & Hpost); [|apply mark_not_attempt].
  inversion Hst; subst st. split; [done|]. split; [done|]. split; [done|].
  exists us. split; [done|]. exists text, oks. now rewrite Hpre.
Qed.

Lemma filter_mark_about sc k (evs : list event) :
  filter (is_mark sc k) evs = filter (is_mark sc k) (filter (about sc k) evs).
Proof.
  induction evs as [|e evs IH]; [done|].
  destruct (decide (about sc k e)) as [Ha|Hn].
  - rewrite (filter_cons_True (about sc k)) by done.
    destruct (decide (is_mark sc k e)).
    + rewrite !(filter_cons_True (is_mark sc k)) by done. now rewrite IH.
    + rewrite !(filter_cons_False (is_mark sc k)) by done. exact IH.
  - rewrite (filter_cons_False (about sc k)) by done.
    rewrite filter_cons_False; [exact IH|].
    intros Hm. apply Hn. destruct e; simpl in Hm; [done|]. now destruct Hm.
Qed.

Lemma filter_mark_attempts sc k sc' k' text us oks :
  filter (is_mark sc k) (attempts sc' k' text us oks) = [].
Proof.
  unfold attempts. revert oks.
  induction us as [|u us IH]; intros [|ok oks]; simpl; try done.
  rewrite filter_cons_False by (simpl; tauto). apply IH.
Qed.

Lemma tracks_marks_once sc k (idle : Prop) fire (sent sent' : ledger) evs :
  tracks sc k idle fire sent evs sent' ->
  (length (filter (is_mark sc k) evs) <= 1)%nat.
Proof.
  unfold tracks. rewrite filter_mark_about.
  destruct (sent !! k).
  - intros [_ ->]. simpl. lia.
  - intros [(_ & _ & ->)|(us & st & _ & _ & text & oks & _ & ->)]; [simpl; lia|].
    rewrite filter_app, filter_mark_attempts. simpl.
    rewrite filter_cons_True by done. simpl. lia.
Qed.

Section History.
Context {Bot : Type} `{!Transport Bot}.

Lemma scope_filter_nil sc sc' k (P : event -> Prop) (evs : list event) :
  sc <> sc' ->
  Forall (fun e => exists k', P e /\ about sc' k' e) evs ->
  filter (about sc k) evs = [].
Proof.
  intros Hne. induction 1 as [|e evs (k' & _ & He & _) _ IH]; [done|].
  rewrite filter_cons_False; [done|]. intros [? _]. congruence.
Qed.

Lemma step_tracks sc k (c : StudentBot.call) (s : Bot * StudentBot.t) :
  tracks sc k True (fun _ _ => True)
    (StudentBot.sent_reminders sc s.2) (StudentBot.step c s).2
    (StudentBot.sent_reminders sc (StudentBot.step c s).1.2).
Proof.
  destruct s as [bot [g u]].
  destruct c as [now sj tk ds|now uid sj tk ds|i|uid i|um now|now]; simpl.
  - unfold GlobalDeadlineManager.add_deadline.
    destruct (Py.strptime ds); destruct sc; now apply tracks_frame.
  - unfold UserDeadlineManager.add_deadline.
    destruct (Py.strptime ds); destruct sc; now apply tracks_frame.
  - unfold GlobalDeadlineManager.remove_deadline.
    destruct (_ && _); destruct sc; now apply tracks_frame.
  - unfold UserDeadlineManager.remove_deadline.
    destruct (_ && _); destruct sc; now apply tracks_frame.
  - pose proof (check_deadlines_tracks k um now bot g) as Ht.
    pose proof (check_deadlines_events um now bot g) as He.
    destruct (GlobalDeadlineManager.check_deadlines um now bot g) as [[b' g'] evs].
    simpl in *. destruct sc.
    + eapply tracks_mono; [| |exact Ht]; auto.
    + apply tracks_frame; [|done..].
      apply (scope_filter_nil Personal Shared k (fun _ => True)); [done|].
      eapply Forall_impl; [exact He|]. intros e (dl & h & _ & _ & Ha). eauto.
  - pose proof (check_personal_tracks k now bot u) as Ht.
    pose proof (check_personal_events now bot u) as He.
    destruct (UserDeadlineManager.check_personal_deadlines now bot u) as [[b' u'] evs].
    simpl in *. destruct sc.
    + apply tracks_frame; [|done..].
      apply (scope_filter_nil Shared Personal k (fun _ => True)); [done|].
      eapply Forall_impl; [exact He|]. intros e (uid & arr & dl & h & _ & _ & _ & Ha).
      eauto.
    + eapply tracks_mono; [| |exact Ht]; auto.
Qed.

Lemma run_tracks sc k (calls : list StudentBot.call) (s : Bot * StudentBot.t) :
  tracks sc k True (fun _ _ => True)
    (StudentBot.sent_reminders sc s.2) (StudentBot.run calls s).2
    (StudentBot.sent_reminders sc (StudentBot.run calls s).1.2).
Proof.
  unfold StudentBot.run.
  eapply tracks_mono;
    [| |apply (for_each_tracks sc k (fun s => StudentBot.sent_reminders sc s.2)
                (fun _ => True) (fun _ _ _ => True)); intros c s' _; apply step_tracks];
    auto.
Qed.
End History.

(** ** No duplicate reminders *)

(** C1. Over any history of calls (ticks of both checks interleaved with
    additions and removals, from any state) and for every key [k] of either
    scope: at most one ledger entry is ever created for [k]; if [k] is in
    the ledger at the start, the history holds no dispatch and no ledger
    write for [k] and its entry stays as it is; and after the ledger write
    for [k] no further event for [k] occurs, the entry written being the
    one found in the final ledger. *)
Theorem no_duplicate_reminders {Bot : Type} (T : Transport Bot)
    (calls : list StudentBot.call) (bot : Bot) (self : StudentBot.t)
    (sc : scope) (k : string) :
  let r := StudentBot.run calls (bot, self) in
  (length (filter (is_mark sc k) r.2) <= 1)%nat
  /\ (is_Some (StudentBot.sent_reminders sc self !! k) ->
        filter (about sc k) r.2 = []
        /\ StudentBot.sent_reminders sc r.1.2 !! k
           = StudentBot.sent_reminders sc self !! k)
  /\ (forall pre stamp post, r.2 = pre ++ Marked sc k stamp :: post ->
        StudentBot.sent_reminders sc self !! k = None
        /\ filter (about sc k) post = []
        /\ StudentBot.sent_reminders sc r.1.2 !! k = Some stamp).
Proof.
  intros r. pose proof (run_tracks sc k calls (bot, self)) as Ht.
  fold r in Ht. simpl in Ht. split; [|split].
  - eapply tracks_marks_once, Ht.
  - intros [v Hv]. unfold tracks in Ht. rewrite Hv in Ht.
    destruct Ht as [-> ->]. done.
  - intros pre stamp post Heq. rewrite Heq in Ht.
    apply tracks_after_mark in Ht as (? & ? & ? & _). done.
Qed.

Lemma no_duplicate_reminders_witness :
  let r := @StudentBot.run nat Demo.flaky Demo.two_ticks (0%nat, Demo.bot0) in
  let r' := @StudentBot.run nat Demo.flaky Demo.two_ticks r.1 in
  length (filter (is_mark Shared "Math_01.01.2030_24") r.2) = 1%nat
  /\ length (filter (is_mark Personal "42_Math_01.01.2030_24") r.2) = 1%nat
  /\ is_Some (StudentBot.sent_reminders Shared r.1.2 !! "Math_01.01.2030_24")
  /\ filter (about Shared "Math_01.01.2030_24") r'.2 = [].
Proof.
  intros r r'.
  assert (Hin : is_Some (StudentBot.sent_reminders Shared r.1.2 !! "Math_01.01.2030_24")).
  { vm_compute. eauto. }
  split; [vm_compute; reflexivity|]. split; [vm_compute; reflexivity|].
  split; [exact Hin|].
  pose proof (no_duplicate_reminders Demo.flaky Demo.two_ticks r.1.1 r.1.2
                Shared "Math_01.01.2030_24") as (_ & H & _).
  destruct (H Hin) as [Hnil _]. unfold r'. now destruct r.1.
Defined.

(** ** The window test *)

(** A value inside the window of [h] is a positive finite float that lies,
    in the order of (exponent, mantissa), above [lb h] and not above [h]. *)
Lemma in_window_inv (h : Z) (mh ml : positive) (eh el : Z) (hl : Py.float) :
  Py.float_of_int h = S754_finite false mh eh ->
  lb h = S754_finite false ml el ->
  in_window h hl = true ->
  exists m e, hl = S754_finite false m e
    /\ (e < eh \/ (e = eh /\ Z.pos m <= Z.pos mh))
    /\ (el < e \/ (el = e /\ Z.pos ml < Z.pos m)).
Proof.
  unfold in_window, Py.float_le, Py.float_lt, SFleb, SFltb. intros -> ->.
  destruct hl as [s|s| |s m e]; simpl; try (destruct s; simpl; discriminate);
    try discriminate.
  destruct s; simpl; [discriminate|].
  change (Pos.compare_cont Eq m mh) with (m ?= mh)%positive.
  change (Pos.compare_cont Eq ml m) with (ml ?= m)%positive.
  intros H. exists m, e. split; [done|].
  destruct (Z.compare_spec e eh), (Z.compare_spec el e);
    destruct (Pos.compare_spec m mh), (Pos.compare_spec ml m);
    simpl in H; try discriminate; lia.
Qed.

Lemma window_constants :
  Py.float_of_int 24 = S754_finite false 6755399441055744 (-48)
  /\ lb 24 = S754_finite false 6750708191443900 (-48)
  /\ Py.float_of_int 72 = S754_finite false 5066549580791808 (-46)
  /\ lb 72 = S754_finite false 5065376768388847 (-46)
  /\ Py.float_of_int 120 = S754_finite false 8444249301319680 (-46)
  /\ lb 120 = S754_finite false 8443076488916719 (-46).
Proof. vm_compute. repeat split. Qed.

Lemma reminder_hours_cases (h : Z) :
  h ∈ Config.REMINDER_HOURS -> h = 24 \/ h = 72 \/ h = 120.
Proof.
  unfold Config.REMINDER_HOURS. rewrite !elem_of_cons, elem_of_nil. tauto.
Qed.

(** On the grid of whole seconds around each threshold, and one
    microsecond off each edge, the binary64 window is the exact one: a
    tick at [D - h hours + k seconds] passes the test for [0 <= k < 60]
    only. [delta] is [dt - now] in microseconds. *)
Lemma window_whole_seconds :
  let hl delta := Py.float_div (Py.total_seconds delta) (Py.float_of_int 3600) in
  forallb (fun h =>
    forallb (fun k =>
      Bool.eqb (in_window h (hl ((h * 3600 - k) * 1000000)))
               ((0 <=? k) && (k <? 60)))
      (seqZ (-90) 181)
    && negb (in_window h (hl (h * 3600 * 1000000 + 1)))
    && in_window h (hl ((h * 3600 - 60) * 1000000 + 1))
    && negb (in_window h (hl ((h * 3600 - 60) * 1000000))))
    Config.REMINDER_HOURS = true.
Proof. vm_compute. reflexivity. Qed.

(** The three windows, as bounds on exponent and mantissa. *)
Lemma window_bounds (h : Z) (hl : Py.float) :
  h ∈ Config.REMINDER_HOURS -> in_window h hl = true ->
  exists m e, hl = S754_finite false m e /\
    ((h = 24 /\ e = -48 /\ 6750708191443900 < Z.pos m <= 6755399441055744)
     \/ (h = 72 /\ e = -46 /\ 5065376768388847 < Z.pos m <= 5066549580791808)
     \/ (h = 120 /\ e = -46 /\ 8443076488916719 < Z.pos m <= 8444249301319680)).
Proof.
  destruct window_constants as (F24 & L24 & F72 & L72 & F120 & L120).
  intros Hh%reminder_hours_cases W.
  destruct Hh as [-> | [-> | ->]].
  - destruct (in_window_inv 24 _ _ _ _ hl F24 L24 W) as (m & e & -> & ? & ?).
    exists m, e. split; [done|]. left. lia.
  - destruct (in_window_inv 72 _ _ _ _ hl F72 L72 W) as (m & e & -> & ? & ?).
    exists m, e. split; [done|]. right; left. lia.
  - destruct (in_window_inv 120 _ _ _ _ hl F120 L120 W) as (m & e & -> & ? & ?).
    exists m, e. split; [done|]. right; right. lia.
Qed.

Lemma windows_apart (hl : Py.float) (h1 h2 : Z) :
  h1 ∈ Config.REMINDER_HOURS -> h2 ∈ Config.REMINDER_HOURS ->
  in_window h1 hl = true -> in_window h2 hl = true -> h1 = h2.
Proof.
  intros H1 H2 W1 W2.
  destruct (window_bounds h1 hl H1 W1) as (m & e & -> & B1).
  destruct (window_bounds h2 _ H2 W2) as (m' & e' & Heq & B2).
  injection Heq as <- <-. lia.
Qed.

(** ** One deadline in one tick *)

Section OneDeadline.
Context {Bot : Type} `{!Transport Bot}.
Variable now : Py.datetime.

Lemma shared_remind_cases us dl hl h (s : Bot * ledger) :
  (GlobalDeadlineManager.remind us now dl hl h s).2 = []
  \/ (in_window h hl = true /\ exists text oks, length oks = length us
        /\ (GlobalDeadlineManager.remind us now dl hl h s).2
           = attempts Shared (GlobalDeadlineManager.reminder_key dl h) text us oks
             ++ [Marked Shared (GlobalDeadlineManager.reminder_key dl h)
                   (Py.strftime now)]).
Proof.
  destruct s as [bot sent]. unfold GlobalDeadlineManager.remind.
  destruct (in_window h hl); [|now left].
  destruct (sent !! _); [now left|]. right. split; [done|].
  destruct (send_loop_events Shared (GlobalDeadlineManager.reminder_key dl h)
              (message "Глобальный дедлайн" dl h) us bot) as (oks & Hlen & Hev).
  destruct (for_each us _ bot) as [bot' evs]. simpl in *. subst evs.
  now exists (message "Глобальный дедлайн" dl h), oks.
Qed.

Lemma personal_remind_cases uid dl hl h (s : Bot * ledger) :
  (UserDeadlineManager.remind now uid dl hl h s).2 = []
  \/ (in_window h hl = true /\ exists text ok,
        (UserDeadlineManager.remind now uid dl hl h s).2
        = [Attempt Personal (UserDeadlineManager.r_key uid dl h) uid text ok;
           Marked Personal (UserDeadlineManager.r_key uid dl h) (Py.strftime now)]).
Proof.
  destruct s as [bot sent]. unfold UserDeadlineManager.remind.
  destruct (in_window h hl); [|now left].
  destruct (sent !! _); [now left|]. right. split; [done|].
  destruct (send_message bot uid _) as [bot' ok] eqn:E. simpl.
  now exists (message "Личный дедлайн" dl h), ok.
Qed.

(** Three loop bodies of which at most one emits anything emit, together,
    what that one emits. *)
Lemma hours_loop_cases {S : Type} (body : Z -> action S) (win : Z -> bool)
    (P : Z -> list event -> Prop) (s : S) :
  (forall h1 h2, h1 ∈ Config.REMINDER_HOURS -> h2 ∈ Config.REMINDER_HOURS ->
     win h1 = true -> win h2 = true -> h1 = h2) ->
  (forall h t, (body h t).2 = [] \/ (win h = true /\ P h (body h t).2)) ->
  (for_each Config.REMINDER_HOURS body s).2 = []
  \/ exists h, h ∈ Config.REMINDER_HOURS /\ win h = true
       /\ P h (for_each Config.REMINDER_HOURS body s).2.
Proof.
  intros Hapart Hbody. unfold Config.REMINDER_HOURS.
  rewrite !for_each_cons. simpl.
  set (s1 := (body 24 s).1). set (s2 := (body 72 s1).1).
  assert (H24 : 24 ∈ Config.REMINDER_HOURS) by (repeat constructor).
  assert (H72 : 72 ∈ Config.REMINDER_HOURS) by (repeat constructor).
  assert (H120 : 120 ∈ Config.REMINDER_HOURS) by (repeat constructor).
  destruct (Hbody 24 s) as [E1|[W1 P1]], (Hbody 72 s1) as [E2|[W2 P2]],
    (Hbody 120 s2) as [E3|[W3 P3]];
    try (pose proof (Hapart _ _ H24 H72 W1 W2); discriminate);
    try (pose proof (Hapart _ _ H24 H120 W1 W3); discriminate);
    try (pose proof (Hapart _ _ H72 H120 W2 W3); discriminate).
  - left. now rewrite E1, E2, E3.
  - right. exists 120. rewrite E1, E2. simpl. rewrite app_nil_r. auto.
  - right. exists 72. rewrite E1, E3. simpl. rewrite app_nil_r. auto.
  - right. exists 24. rewrite E2, E3. simpl. rewrite app_nil_r. auto.
Qed.

Lemma shared_check_deadline_cases us dl (s : Bot * ledger) :
  (GlobalDeadlineManager.check_deadline us now dl s).2 = []
  \/ exists h text oks, due now dl h = true /\ length oks = length us
       /\ (GlobalDeadlineManager.check_deadline us now dl s).2
          = attempts Shared (GlobalDeadlineManager.reminder_key dl h) text us oks
            ++ [Marked Shared (GlobalDeadlineManager.reminder_key dl h)
                  (Py.strftime now)].
Proof.
  unfold GlobalDeadlineManager.check_deadline, due.
  destruct (Py.strptime (deadline dl)) as [dt|]; [|now left].
  destruct (hours_loop_cases
              (GlobalDeadlineManager.remind us now dl (hours_left dt now))
              (fun h => in_window h (hours_left dt now))
              (fun h evs => exists text oks, length oks = length us
                 /\ evs = attempts Shared (GlobalDeadlineManager.reminder_key dl h)
                            text us oks
                          ++ [Marked Shared (GlobalDeadlineManager.reminder_key dl h)
                                (Py.strftime now)]) s)
    as [E|(h & Hh & W & text & oks & Hlen & E)].
  - intros h1 h2. apply windows_apart.
  - intros h t. apply shared_remind_cases.
  - now left.
  - right. exists h, text, oks. rewrite W, bool_decide_eq_true_2 by done. auto.
Qed.

Lemma personal_check_deadline_cases uid dl (s : Bot * ledger) :
  (UserDeadlineManager.check_deadline now uid dl s).2 = []
  \/ exists h text ok, due now dl h = true
       /\ (UserDeadlineManager.check_deadline now uid dl s).2
          = [Attempt Personal (UserDeadlineManager.r_key uid dl h) uid text ok;
             Marked Personal (UserDeadlineManager.r_key uid dl h) (Py.strftime now)].
Proof.
  unfold UserDeadlineManager.check_deadline, due.
  destruct (Py.strptime (deadline dl)) as [dt|]; [|now left].
  destruct (hours_loop_cases
              (UserDeadlineManager.remind now uid dl (hours_left dt now))
              (fun h => in_window h (hours_left dt now))
              (fun h evs => exists text ok,
                 evs = [Attempt Personal (UserDeadlineManager.r_key uid dl h) uid text ok;
                        Marked Personal (UserDeadlineManager.r_key uid dl h)
                          (Py.strftime now)]) s)
    as [E|(h & Hh & W & text & ok & E)].
  - intros h1 h2. apply windows_apart.
  - intros h t. apply personal_remind_cases.
  - now left.
  - right. exists h, text, ok. rewrite W, bool_decide_eq_true_2 by done. auto.
Qed.
End OneDeadline.

(** C9. For every value of [hours_left], at most one threshold of
    [24, 72, 120] passes the window test [h >= hours_left > h - 60/3600];
    hence one deadline causes at most one reminder in one tick: the events
    of its loop iteration are either none, or the dispatch of exactly one
    message followed by one ledger write (shared and personal). *)
Theorem windows_disjoint {Bot : Type} (T : Transport Bot) :
  (forall (hl : Py.float) (h1 h2 : Z),
     h1 ∈ Config.REMINDER_HOURS -> h2 ∈ Config.REMINDER_HOURS ->
     in_window h1 hl = true -> in_window h2 hl = true -> h1 = h2)
  /\ (forall us now dl (s : Bot * ledger),
        let evs := (GlobalDeadlineManager.check_deadline us now dl s).2 in
        evs = [] \/ exists h text oks, length oks = length us
          /\ evs = attempts Shared (GlobalDeadlineManager.reminder_key dl h) text us oks
                   ++ [Marked Shared (GlobalDeadlineManager.reminder_key dl h)
                         (Py.strftime now)])
  /\ (forall now uid dl (s : Bot * ledger),
        let evs := (UserDeadlineManager.check_deadline now uid dl s).2 in
        evs = [] \/ exists h text ok,
          evs = [Attempt Personal (UserDeadlineManager.r_key uid dl h) uid text ok;
                 Marked Personal (UserDeadlineManager.r_key uid dl h) (Py.strftime now)]).
Proof.
  split; [exact windows_apart|]. split.
  - intros us now dl s evs.
    destruct (shared_check_deadline_cases now us dl s)
      as [E|(h & text & oks & _ & Hlen & E)]; [now left|].
    right. now exists h, text, oks.
  - intros now uid dl s evs.
    destruct (personal_check_deadline_cases now uid dl s)
      as [E|(h & text & ok & _ & E)]; [now left|].
    right. now exists h, text, ok.
Qed.

Lemma windows_disjoint_witness :
  let hl := hours_left (Py.mk_datetime 2030 1 1 0 0 0 0) Demo.eve in
  in_window 24 hl = true /\ in_window 72 hl = false /\ in_window 120 hl = false.
Proof.
  intros hl.
  destruct (windows_disjoint Demo.flaky) as [Hapart _].
  assert (W24 : in_window 24 hl = true) by reflexivity.
  assert (H24 : 24 ∈ Config.REMINDER_HOURS) by (repeat constructor).
  assert (H72 : 72 ∈ Config.REMINDER_HOURS) by (repeat constructor).
  assert (H120 : 120 ∈ Config.REMINDER_HOURS) by (repeat constructor).
  split; [exact W24|]. split.
  - destruct (in_window 72 hl) eqn:W; [|reflexivity].
    discriminate (Hapart hl 24 72 H24 H72 W24 W).
  - destruct (in_window 120 hl) eqn:W; [|reflexivity].
    discriminate (Hapart hl 24 120 H24 H120 W24 W).
Defined.

(** ** When a reminder fires *)

Lemma reminder_key_inj dl h h' :
  GlobalDeadlineManager.reminder_key dl h = GlobalDeadlineManager.reminder_key dl h' ->
  h = h'.
Proof.
  unfold GlobalDeadlineManager.reminder_key. intros H.
  repeat apply String.app_inj in H. now apply pretty_Z_inj in H.
Qed.

Lemma r_key_inj uid dl h h' :
  UserDeadlineManager.r_key uid dl h = UserDeadlineManager.r_key uid dl h' -> h = h'.
Proof.
  unfold UserDeadlineManager.r_key. intros H.
  repeat apply String.app_inj in H. now apply pretty_Z_inj in H.
Qed.

Lemma mark_in_filter sc k st (evs : list event) :
  Marked sc k st ∈ evs <-> Marked sc k st ∈ filter (about sc k) evs.
Proof. rewrite list_elem_of_filter. unfold about. simpl. tauto. Qed.

(** For a key that is not in the ledger, the ledger write happens exactly
    when the trigger holds, and then the key is in the ledger. *)
Lemma tracks_fires sc k (idle : Prop) fire (sent sent' : ledger) evs :
  tracks sc k idle fire sent evs sent' -> sent !! k = None ->
  (idle -> forall us st, ~ fire us st) ->
  ((exists st, Marked sc k st ∈ evs) <-> exists us st, fire us st)
  /\ (is_Some (sent' !! k) <-> exists us st, fire us st).
Proof.
  unfold tracks. intros Ht Hk Hex. rewrite Hk in Ht.
  destruct Ht as [(Hi & Hs & He)|(us & st & Hf & Hs & text & oks & _ & He)].
  - split; split.
    + intros [st Hin]. apply mark_in_filter in Hin. rewrite He in Hin.
      now apply elem_of_nil in Hin.
    + intros (us & st & Hf). now destruct (Hex Hi us st).
    + rewrite Hs. now intros [? ?].
    + intros (us & st & Hf). now destruct (Hex Hi us st).
  - split; split; eauto.
    intros _. exists st. apply mark_in_filter. rewrite He.
    apply elem_of_app. right. left.
Qed.

Lemma hours_left_delta (dt now : Py.datetime) (us : Z) :
  Py.datetime_sub dt now = us ->
  hours_left dt now = Py.float_div (Py.total_seconds us) (Py.float_of_int 3600).
Proof. unfold hours_left. now intros ->. Qed.

(** A stored deadline that is due with its key not in the ledger is
    announced by the check: to the whole audience of the shared check, to
    one user in the personal check. *)
Lemma stored_shared_is_dispatched {Bot : Type} `{!Transport Bot}
    us now (bot : Bot) self dl h :
  dl ∈ GlobalDeadlineManager.deadlines self -> due now dl h = true ->
  GlobalDeadlineManager.sent_reminders self !! GlobalDeadlineManager.reminder_key dl h = None ->
  let r := GlobalDeadlineManager.check_deadlines (Some us) now bot self in
  dispatched Shared (GlobalDeadlineManager.reminder_key dl h) us (Py.strftime now)
    (filter (about Shared (GlobalDeadlineManager.reminder_key dl h)) r.2)
  /\ GlobalDeadlineManager.sent_reminders r.1.2 !! GlobalDeadlineManager.reminder_key dl h
     = Some (Py.strftime now).
Proof.
  intros Hdl Hdue Hk r.
  pose proof (check_deadlines_tracks (GlobalDeadlineManager.reminder_key dl h)
                (Some us) now bot self) as Ht.
  fold r in Ht. unfold tracks in Ht. rewrite Hk in Ht.
  destruct Ht as [([Hn|Hn] & _)|(us' & st & (Hus & -> & _) & Hs & Hd)].
  - discriminate.
  - destruct Hn. now exists dl, h.
  - now injection Hus as <-.
Qed.

Lemma stored_personal_is_dispatched {Bot : Type} `{!Transport Bot}
    now (bot : Bot) self uid arr dl h :
  (uid, arr) ∈ UserDeadlineManager.deadlines self -> dl ∈ arr -> due now dl h = true ->
  UserDeadlineManager.sent_reminders self !! UserDeadlineManager.r_key uid dl h = None ->
  let r := UserDeadlineManager.check_personal_deadlines now bot self in
  (exists owner,
     personal_trigger now (UserDeadlineManager.deadlines self)
       (UserDeadlineManager.r_key uid dl h) owner
     /\ dispatched Personal (UserDeadlineManager.r_key uid dl h) [owner] (Py.strftime now)
          (filter (about Personal (UserDeadlineManager.r_key uid dl h)) r.2))
  /\ UserDeadlineManager.sent_reminders r.1.2 !! UserDeadlineManager.r_key uid dl h
     = Some (Py.strftime now).
Proof.
  intros Hin Hdl Hdue Hk r.
  pose proof (check_personal_tracks (UserDeadlineManager.r_key uid dl h) now bot self) as Ht.
  fold r in Ht. unfold tracks in Ht. rewrite Hk in Ht.
  destruct Ht as [(Hidle & _)|(us' & st & (-> & owner & -> & Htr) & Hs & Hd)].
  - destruct (Hidle uid). now exists arr, dl, h.
  - split; [now exists owner|done].
Qed.






(** ** Running a tick again *)

Lemma tracks_covered sc k (idle : Prop) fire (sent sent' : ledger) evs :
  tracks sc k idle fire sent evs sent' -> ~ idle -> is_Some (sent' !! k).
Proof.
  unfold tracks. destruct (sent !! k).
  - intros [-> _] _. eauto.
  - intros [(Hi & _)|(us & st & _ & -> & _)] Hn; [done|eauto].
Qed.

(** A second pass with the same trigger finds every key either in the
    ledger or not triggered: it does nothing about [k]. *)
Lemma tracks_again sc k (idle : Prop) fire (s0 s1 s2 : ledger) e1 e2 :
  tracks sc k idle fire s0 e1 s1 -> tracks sc k idle fire s1 e2 s2 ->
  (idle -> forall us st, ~ fire us st) ->
  filter (about sc k) e2 = [] /\ s2 !! k = s1 !! k.
Proof.
  unfold tracks. intros H1 H2 Hex.
  destruct (s0 !! k) as [v|].
  - destruct H1 as [H1 _]. rewrite H1 in H2 |- *. now destruct H2.
  - destruct H1 as [(Hi & H1 & _)|(us & st & _ & H1 & _)]; rewrite H1 in H2 |- *.
    + destruct H2 as [(_ & ? & ?)|(us & st & Hf & _)]; [done|].
      now destruct (Hex Hi us st).
    + now destruct H2.
Qed.

Lemma no_events (sc : scope) (evs : list event) :
  Forall (fun e => exists k, about sc k e) evs ->
  (forall k, filter (about sc k) evs = []) -> evs = [].
Proof.
  intros Hall Hnil. destruct evs as [|e evs]; [done|].
  inversion Hall as [|? ? (k & Hk) _]; subst.
  specialize (Hnil k). now rewrite filter_cons_True in Hnil.
Qed.

(** A loop that emits no event made no call to the transport. *)
Lemma for_each_quiet {A S B : Type} (π : S -> B) (xs : list A) (body : A -> action S) :
  (forall x s, (body x s).2 = [] -> π (body x s).1 = π s) ->
  forall s, (for_each xs body s).2 = [] -> π (for_each xs body s).1 = π s.
Proof.
  intros Hb. induction xs as [|x xs IH]; intros s; [done|].
  rewrite for_each_cons. simpl. intros [H1 H2]%app_eq_nil.
  rewrite IH by done. now apply Hb.
Qed.

Section Again.
Context {Bot : Type} `{!Transport Bot}.

Lemma shared_loop_quiet us now (l : list Deadline) (s : Bot * ledger) :
  (for_each l (GlobalDeadlineManager.check_deadline us now) s).2 = [] ->
  (for_each l (GlobalDeadlineManager.check_deadline us now) s).1.1 = s.1.
Proof.
  apply (for_each_quiet fst). clear s. intros dl s.
  unfold GlobalDeadlineManager.check_deadline.
  destruct (Py.strptime (deadline dl)); [|done].
  apply (for_each_quiet fst). clear s. intros h [bot sent].
  unfold GlobalDeadlineManager.remind.
  destruct (in_window h _); [|done]. destruct (sent !! _); [done|].
  destruct (for_each us _ bot) as [b3 e3]. simpl.
  intros He. symmetry in He. now apply app_cons_not_nil in He.
Qed.

Lemma personal_loop_quiet now (d : Py.dict (list Deadline)) (s : Bot * ledger) :
  (for_each d (UserDeadlineManager.check_user now) s).2 = [] ->
  (for_each d (UserDeadlineManager.check_user now) s).1.1 = s.1.
Proof.
  apply (for_each_quiet fst). clear s. intros [uid arr] s.
  unfold UserDeadlineManager.check_user. simpl.
  apply (for_each_quiet fst). clear s. intros dl s.
  unfold UserDeadlineManager.check_deadline.
  destruct (Py.strptime (deadline dl)); [|done].
  apply (for_each_quiet fst). clear s. intros h [bot sent].
  unfold UserDeadlineManager.remind.
  destruct (in_window h _); [|done]. destruct (sent !! _); [done|].
  now destruct (send_message bot uid _).
Qed.

Lemma check_deadlines_again um now (bot bot' : Bot) self :
  let after := (GlobalDeadlineManager.check_deadlines um now bot self).1.2 in
  GlobalDeadlineManager.check_deadlines um now bot' after = (bot', after, []).
Proof.
  intros after.
  assert (Hstore : GlobalDeadlineManager.deadlines after
                   = GlobalDeadlineManager.deadlines self)
    by apply check_deadlines_store.
  assert (Hk : forall k,
    filter (about Shared k)
      (GlobalDeadlineManager.check_deadlines um now bot' after).2 = []
    /\ GlobalDeadlineManager.sent_reminders
         (GlobalDeadlineManager.check_deadlines um now bot' after).1.2 !! k
       = GlobalDeadlineManager.sent_reminders after !! k).
  { intros k.
    pose proof (check_deadlines_tracks k um now bot self) as H1.
    pose proof (check_deadlines_tracks k um now bot' after) as H2.
    rewrite Hstore in H2. fold after in H1.
    eapply tracks_again; [exact H1|exact H2|].
    intros [->|Hn] us st (Hum & _ & Htr); [discriminate|done]. }
  assert (Hev : (GlobalDeadlineManager.check_deadlines um now bot' after).2 = []).
  { apply (no_events Shared); [|apply Hk].
    eapply Forall_impl; [apply check_deadlines_events|].
    intros e (dl & h & _ & _ & Ha). eauto. }
  assert (Hs : GlobalDeadlineManager.sent_reminders
                 (GlobalDeadlineManager.check_deadlines um now bot' after).1.2
               = GlobalDeadlineManager.sent_reminders after).
  { apply map_eq. intros k. apply Hk. }
  destruct um as [us|]; [|done].
  rewrite check_deadlines_unfold in *. simpl in *.
  pose proof (shared_loop_quiet us now _ _ Hev) as Hb. simpl in Hb.
  rewrite Hev, Hs, Hb. now destruct after.
Qed.

Lemma check_personal_again now (bot bot' : Bot) self :
  let after := (UserDeadlineManager.check_personal_deadlines now bot self).1.2 in
  UserDeadlineManager.check_personal_deadlines now bot' after = (bot', after, []).
Proof.
  intros after.
  assert (Hstore : UserDeadlineManager.deadlines after
                   = UserDeadlineManager.deadlines self)
    by apply check_personal_store.
  assert (Hk : forall k,
    filter (about Personal k)
      (UserDeadlineManager.check_personal_deadlines now bot' after).2 = []
    /\ UserDeadlineManager.sent_reminders
         (UserDeadlineManager.check_personal_deadlines now bot' after).1.2 !! k
       = UserDeadlineManager.sent_reminders after !! k).
  { intros k.
    pose proof (check_personal_tracks k now bot self) as H1.
    pose proof (check_personal_tracks k now bot' after) as H2.
    rewrite Hstore in H2. fold after in H1.
    eapply tracks_again; [exact H1|exact H2|].
    intros Hidle us st (_ & uid & _ & Htr). now apply (Hidle uid). }
  assert (Hev : (UserDeadlineManager.check_personal_deadlines now bot' after).2 = []).
  { apply (no_events Personal); [|apply Hk].
    eapply Forall_impl; [apply check_personal_events|].
    intros e (uid & arr & dl & h & _ & _ & _ & Ha). eauto. }
  assert (Hs : UserDeadlineManager.sent_reminders
                 (UserDeadlineManager.check_personal_deadlines now bot' after).1.2
               = UserDeadlineManager.sent_reminders after).
  { apply map_eq. intros k. apply Hk. }
  rewrite check_personal_unfold in *. simpl in *.
  pose proof (personal_loop_quiet now _ _ Hev) as Hb. simpl in Hb.
  rewrite Hev, Hs, Hb. now destruct after.
Qed.

Lemma run_tick_unfold um now (bot : Bot) (self : StudentBot.t) :
  StudentBot.run_tick um now (bot, self) =
    let r1 := GlobalDeadlineManager.check_deadlines um now bot
                (StudentBot.global_manager self) in
    let r2 := UserDeadlineManager.check_personal_deadlines now r1.1.1
                (StudentBot.user_manager_deadline self) in
    ((r2.1.1, StudentBot.mk r1.1.2 r2.1.2), r1.2 ++ r2.2).
Proof.
  unfold StudentBot.run_tick, StudentBot.run. simpl.
  destruct (GlobalDeadlineManager.check_deadlines _ _ _ _) as [[b1 g1] e1]. simpl.
  destruct (UserDeadlineManager.check_personal_deadlines _ _ _) as [[b2 u1] e2]. simpl.
  now rewrite app_nil_r.
Qed.
End Again.

(** C5. Running the tick a second time with the same [now] and the same
    user registry, on the stores and ledgers the first run left (whatever
    the state of the transport), dispatches nothing: the second run emits
    no event and changes nothing; each check alone behaves the same way;
    and after the first run the ledger key of every stored deadline and
    threshold that was due is present. *)
Theorem tick_idempotent {Bot : Type} (T : Transport Bot)
    (um : option (list string)) (now : Py.datetime) (bot bot' : Bot)
    (self : StudentBot.t) :
  let after := (StudentBot.run_tick um now (bot, self)).1.2 in
  StudentBot.run_tick um now (bot', after) = ((bot', after), [])
  /\ (let g := (GlobalDeadlineManager.check_deadlines um now bot
                  (StudentBot.global_manager self)).1.2 in
      GlobalDeadlineManager.check_deadlines um now bot' g = (bot', g, []))
  /\ (let u := (UserDeadlineManager.check_personal_deadlines now bot
                  (StudentBot.user_manager_deadline self)).1.2 in
      UserDeadlineManager.check_personal_deadlines now bot' u = (bot', u, []))
  /\ (forall dl h,
        dl ∈ GlobalDeadlineManager.deadlines (StudentBot.global_manager self) ->
        due now dl h = true -> um <> None ->
        is_Some (StudentBot.sent_reminders Shared after
                   !! GlobalDeadlineManager.reminder_key dl h))
  /\ (forall uid arr dl h,
        (uid, arr) ∈ UserDeadlineManager.deadlines (StudentBot.user_manager_deadline self) ->
        dl ∈ arr -> due now dl h = true ->
        is_Some (StudentBot.sent_reminders Personal after
                   !! UserDeadlineManager.r_key uid dl h)).
Proof.
  intros after.
  assert (Ha : after = StudentBot.mk
            (GlobalDeadlineManager.check_deadlines um now bot
               (StudentBot.global_manager self)).1.2
            (UserDeadlineManager.check_personal_deadlines now
               (GlobalDeadlineManager.check_deadlines um now bot
                  (StudentBot.global_manager self)).1.1
               (StudentBot.user_manager_deadline self)).1.2)
    by (unfold after; now rewrite run_tick_unfold).
  clearbody after. subst after. simpl.
  split; [|split; [|split; [|split]]].
  - rewrite run_tick_unfold. simpl.
    rewrite check_deadlines_again. simpl. now rewrite check_personal_again.
  - apply check_deadlines_again.
  - apply check_personal_again.
  - intros dl h Hdl Hdue Hum.
    eapply tracks_covered; [apply check_deadlines_tracks|].
    intros [?|Hn]; [done|]. apply Hn. now exists dl, h.
  - intros uid arr dl h Hin Hdl Hdue.
    eapply tracks_covered; [apply check_personal_tracks|].
    intros Hn. apply (Hn uid). now exists arr, dl, h.
Qed.

Lemma tick_idempotent_witness :
  let first := @StudentBot.run_tick nat Demo.flaky (Some Demo.users) Demo.eve
                 (0%nat, Demo.bot0) in
  length first.2 = 12%nat
  /\ @StudentBot.run_tick nat Demo.flaky (Some Demo.users) Demo.eve first.1
     = (first.1, [])
  /\ is_Some (StudentBot.sent_reminders Personal first.1.2 !! "7_Math_01.01.2030_24").
Proof.
  intros first.
  destruct (tick_idempotent Demo.flaky (Some Demo.users) Demo.eve 0%nat first.1.1
              Demo.bot0) as (Hagain & _ & _ & _ & Hpersonal).
  split; [reflexivity|]. split.
  - fold first in Hagain. now destruct first as [[b st] evs].
  - apply (Hpersonal "7" [Demo.legacy; Demo.math] Demo.math 24).
    + right. left.
    + right. left.
    + reflexivity.
Defined.

(** ** Failing sends *)

Lemma attempts_outcomes (P : bool -> Prop) sc k text us oks :
  length oks = length us ->
  Forall (outcome_is P) (attempts sc k text us oks) -> Forall P oks.
Proof.
  unfold attempts. revert oks. induction us as [|u us IH]; intros [|ok oks] Hlen;
    simpl in *; try done.
  intros H. inversion H; subst. constructor; [done|]. apply IH; [lia|done].
Qed.

Section Outcomes.
Context {Bot : Type} `{!Transport Bot}.
Variable P : bool -> Prop.
Hypothesis send_P : forall (b : Bot) uid msg, P (send_message b uid msg).2.

Lemma send_loop_outcomes sc key msg (us : list string) (bot : Bot) :
  Forall (outcome_is P)
    (for_each us (fun uid b =>
       let '(b', ok) := send_message b uid msg in
       (b', [Attempt sc key uid msg ok])) bot).2.
Proof.
  apply for_each_events. intros uid b _.
  pose proof (send_P b uid msg). destruct (send_message b uid msg).
  now repeat constructor.
Qed.

Lemma check_deadlines_outcomes um now (bot : Bot) self :
  Forall (outcome_is P) (GlobalDeadlineManager.check_deadlines um now bot self).2.
Proof.
  destruct um as [us|]; [|constructor].
  rewrite check_deadlines_unfold. simpl.
  apply for_each_events. intros dl [b sent] _.
  unfold GlobalDeadlineManager.check_deadline.
  destruct (Py.strptime (deadline dl)); [|constructor].
  apply for_each_events. intros h [b' sent'] _.
  unfold GlobalDeadlineManager.remind.
  destruct (in_window h _); [|constructor].
  destruct (sent' !! _); [constructor|].
  pose proof (send_loop_outcomes Shared (GlobalDeadlineManager.reminder_key dl h)
                (message "Глобальный дедлайн" dl h) us b') as Hloop.
  destruct (for_each us _ b') as [b'' evs]. simpl in *.
  apply Forall_app. split; [done|now repeat constructor].
Qed.

Lemma check_personal_outcomes now (bot : Bot) self :
  Forall (outcome_is P) (UserDeadlineManager.check_personal_deadlines now bot self).2.
Proof.
  rewrite check_personal_unfold. simpl.
  apply for_each_events. intros [uid arr] [b sent] _.
  unfold UserDeadlineManager.check_user. simpl.
  apply for_each_events. intros dl [b1 sent1] _.
  unfold UserDeadlineManager.check_deadline.
  destruct (Py.strptime (deadline dl)); [|constructor].
  apply for_each_events. intros h [b' sent'] _.
  unfold UserDeadlineManager.remind.
  destruct (in_window h _); [|constructor].
  destruct (sent' !! _); [constructor|].
  pose proof (send_P b' uid (message "Личный дедлайн" dl h)).
  destruct (send_message b' uid _) as [b'' ok]. now repeat constructor.
Qed.
End Outcomes.

Lemma Forall_filter_events (P : event -> Prop) sc k (evs : list event) :
  Forall P evs -> Forall P (filter (about sc k) evs).
Proof.
  rewrite !Forall_forall. intros H e [_ He]%list_elem_of_filter. now apply H.
Qed.

Lemma replay_app {Bot : Type} `{!Transport Bot} (e1 e2 : list event) (bot : Bot) :
  replay (e1 ++ e2) bot =
    ((replay e2 (replay e1 bot).1).1,
     (replay e1 bot).2 ++ (replay e2 (replay e1 bot).1).2).
Proof.
  revert bot. induction e1 as [|[sc k uid text ok|sc k st] e1 IH]; intros bot.
  - simpl. now destruct (replay e2 bot).
  - cbn [app replay]. destruct (send_message bot uid text) as [b1 ok1].
    rewrite IH. destruct (replay e1 b1) as [b2 oks]. cbn [fst snd].
    now destruct (replay e2 b2).
  - cbn [app replay]. apply IH.
Qed.

Lemma outcomes_app (e1 e2 : list event) : outcomes (e1 ++ e2) = outcomes e1 ++ outcomes e2.
Proof. apply omap_app. Qed.

Lemma outcomes_attempts sc k text us oks :
  length oks = length us -> outcomes (attempts sc k text us oks) = oks.
Proof.
  unfold attempts, outcomes. revert oks.
  induction us as [|u us IH]; intros [|ok oks] Hlen; simpl in *; try done.
  rewrite IH by lia. done.
Qed.

Section Replay.
Context {Bot : Type} `{!Transport Bot}.

(** A loop whose iterations record their sends truthfully does so as a
    whole. *)
Lemma for_each_replay {A S : Type} (π : S -> Bot) (xs : list A) (body : A -> action S) :
  (forall x s, replay (body x s).2 (π s) = (π (body x s).1, outcomes (body x s).2)) ->
  forall s,
    replay (for_each xs body s).2 (π s)
    = (π (for_each xs body s).1, outcomes (for_each xs body s).2).
Proof.
  intros Hb. induction xs as [|x xs IH]; intros s; [done|].
  rewrite for_each_cons. cbn [fst snd].
  rewrite replay_app, Hb. cbn [fst snd]. rewrite IH. cbn [fst snd].
  now rewrite outcomes_app.
Qed.

Lemma send_loop_replay sc key msg (us : list string) (bot : Bot) :
  let r := for_each us (fun uid b =>
             let '(b', ok) := send_message b uid msg in
             (b', [Attempt sc key uid msg ok])) bot in
  replay r.2 bot = (r.1, outcomes r.2).
Proof.
  apply (for_each_replay (fun b => b)). intros uid b.
  destruct (send_message b uid msg) as [b' ok] eqn:E. cbn [fst snd replay].
  now rewrite E.
Qed.

Lemma replay_mark (evs : list event) sc k st (bot : Bot) :
  replay (evs ++ [Marked sc k st]) bot = replay evs bot.
Proof.
  rewrite replay_app. cbn [replay fst snd]. rewrite app_nil_r.
  now destruct (replay evs bot).
Qed.

Lemma outcomes_mark (evs : list event) sc k st :
  outcomes (evs ++ [Marked sc k st]) = outcomes evs.
Proof. rewrite outcomes_app. apply app_nil_r. Qed.

(** The log of the shared check is what happened on the transport. *)
Lemma check_deadlines_replay um now (bot : Bot) self :
  let r := GlobalDeadlineManager.check_deadlines um now bot self in
  replay r.2 bot = (r.1.1, outcomes r.2).
Proof.
  destruct um as [us|]; [|done].
  rewrite check_deadlines_unfold. cbn [fst snd].
  apply (for_each_replay (fun s : Bot * ledger => s.1)). intros dl s.
  unfold GlobalDeadlineManager.check_deadline.
  destruct (Py.strptime (deadline dl)); [|done].
  apply (for_each_replay (fun s : Bot * ledger => s.1)). intros h [b sent].
  unfold GlobalDeadlineManager.remind.
  destruct (in_window h _); [|done]. destruct (sent !! _); [done|].
  pose proof (send_loop_replay Shared (GlobalDeadlineManager.reminder_key dl h)
                (message "Глобальный дедлайн" dl h) us b) as Hloop.
  destruct (for_each us _ b) as [b' evs]. cbn [fst snd] in *.
  now rewrite replay_mark, outcomes_mark.
Qed.

(** The same for the personal check. *)
Lemma check_personal_replay now (bot : Bot) self :
  let r := UserDeadlineManager.check_personal_deadlines now bot self in
  replay r.2 bot = (r.1.1, outcomes r.2).
Proof.
  rewrite check_personal_unfold. cbn [fst snd].
  apply (for_each_replay (fun s : Bot * ledger => s.1)). intros [uid arr] s.
  unfold UserDeadlineManager.check_user. cbn [fst snd].
  apply (for_each_replay (fun s : Bot * ledger => s.1)). intros dl s1.
  unfold UserDeadlineManager.check_deadline.
  destruct (Py.strptime (deadline dl)); [|done].
  apply (for_each_replay (fun s : Bot * ledger => s.1)). intros h [b sent].
  unfold UserDeadlineManager.remind.
  destruct (in_window h _); [|done]. destruct (sent !! _); [done|].
  destruct (send_message b uid _) as [b' ok] eqn:E. cbn [fst snd replay].
  now rewrite E.
Qed.

(** Every send of the shared check carries the text made from a stored
    deadline and a configured threshold that is due, under their key. *)
Lemma check_deadlines_texts um now (bot : Bot) self :
  Forall (fun e => match e with
                   | Attempt sc k _ text _ =>
                       exists dl h,
                         dl ∈ GlobalDeadlineManager.deadlines self
                         /\ due now dl h = true
                         /\ k = GlobalDeadlineManager.reminder_key dl h
                         /\ text = message "Глобальный дедлайн" dl h
                   | Marked _ _ _ => True
                   end)
    (GlobalDeadlineManager.check_deadlines um now bot self).2.
Proof.
  destruct um as [us|]; [|constructor].
  rewrite check_deadlines_unfold. simpl.
  apply for_each_events. intros dl [b sent] Hdl.
  unfold GlobalDeadlineManager.check_deadline.
  destruct (Py.strptime (deadline dl)) as [dt|] eqn:Hdt; [|constructor].
  apply for_each_events. intros h [b' sent'] Hh.
  unfold GlobalDeadlineManager.remind.
  destruct (in_window h _) eqn:W; [|constructor].
  destruct (sent' !! _); [constructor|].
  assert (Hdue : due now dl h = true)
    by (unfold due; now rewrite Hdt, W, bool_decide_eq_true_2).
  destruct (send_loop_events Shared (GlobalDeadlineManager.reminder_key dl h)
              (message "Глобальный дедлайн" dl h) us b') as (oks & _ & Hev).
  destruct (for_each us _ b') as [b'' evs]. simpl in *. subst evs.
  apply Forall_app. split; [|now repeat constructor].
  unfold attempts. clear -Hdl Hdue. revert oks.
  induction us as [|u us IH]; intros [|ok oks]; simpl; try constructor;
    [now exists dl, h|apply IH].
Qed.

Lemma check_personal_texts now (bot : Bot) self :
  Forall (fun e => match e with
                   | Attempt sc k uid text _ =>
                       exists arr dl h,
                         (uid, arr) ∈ UserDeadlineManager.deadlines self /\ dl ∈ arr
                         /\ due now dl h = true
                         /\ k = UserDeadlineManager.r_key uid dl h
                         /\ text = message "Личный дедлайн" dl h
                   | Marked _ _ _ => True
                   end)
    (UserDeadlineManager.check_personal_deadlines now bot self).2.
Proof.
  rewrite check_personal_unfold. simpl.
  apply for_each_events. intros [uid arr] [b sent] Hin.
  unfold UserDeadlineManager.check_user. simpl.
  apply for_each_events. intros dl [b1 sent1] Hdl.
  unfold UserDeadlineManager.check_deadline.
  destruct (Py.strptime (deadline dl)) as [dt|] eqn:Hdt; [|constructor].
  apply for_each_events. intros h [b' sent'] Hh.
  unfold UserDeadlineManager.remind.
  destruct (in_window h _) eqn:W; [|constructor].
  destruct (sent' !! _); [constructor|].
  assert (Hdue : due now dl h = true)
    by (unfold due; now rewrite Hdt, W, bool_decide_eq_true_2).
  destruct (send_message b' uid _) as [b'' ok]. simpl.
  constructor; [|now repeat constructor]. now exists arr, dl, h.
Qed.
End Replay.

(** C7. The log of a check is what happened on the transport: the sends
    it records, made in that order from the incoming transport, leave the
    transport the check returns and have the recorded outcomes. Shared
    scope: when a stored deadline has a due threshold whose key is not in
    the ledger, the check sends the text of a stored deadline with that key
    to every registered user, in order, whatever the outcome of each send,
    and only then writes the ledger entry; the entry is written also when
    every send fails. Personal scope: one send to the owning user, then the
    ledger write, again whatever the outcome. *)
Theorem dispatch_failure_isolated {Bot : Type} (T : Transport Bot) (now : Py.datetime)
    (bot : Bot) (dl : Deadline) (h : Z) :
  due now dl h = true ->
  (forall us self,
     dl ∈ GlobalDeadlineManager.deadlines self ->
     let k := GlobalDeadlineManager.reminder_key dl h in
     GlobalDeadlineManager.sent_reminders self !! k = None ->
     let r := GlobalDeadlineManager.check_deadlines (Some us) now bot self in
     replay r.2 bot = (r.1.1, outcomes r.2)
     /\ exists dl' h' oks, length oks = length us
          /\ dl' ∈ GlobalDeadlineManager.deadlines self
          /\ GlobalDeadlineManager.reminder_key dl' h' = k
          /\ filter (about Shared k) r.2
             = attempts Shared k (message "Глобальный дедлайн" dl' h') us oks
               ++ [Marked Shared k (Py.strftime now)]
          /\ GlobalDeadlineManager.sent_reminders r.1.2 !! k = Some (Py.strftime now)
          /\ ((forall b uid msg, (send_message b uid msg).2 = false) ->
              Forall (fun ok => ok = false) oks))
  /\ (forall uid arr self,
        (uid, arr) ∈ UserDeadlineManager.deadlines self -> dl ∈ arr ->
        let k := UserDeadlineManager.r_key uid dl h in
        UserDeadlineManager.sent_reminders self !! k = None ->
        let r := UserDeadlineManager.check_personal_deadlines now bot self in
        replay r.2 bot = (r.1.1, outcomes r.2)
        /\ exists owner dl' h' ok,
             personal_trigger now (UserDeadlineManager.deadlines self) k owner
             /\ UserDeadlineManager.r_key owner dl' h' = k
             /\ filter (about Personal k) r.2
                = [Attempt Personal k owner (message "Личный дедлайн" dl' h') ok;
                   Marked Personal k (Py.strftime now)]
             /\ UserDeadlineManager.sent_reminders r.1.2 !! k = Some (Py.strftime now)
             /\ ((forall b uid msg, (send_message b uid msg).2 = false) -> ok = false)).
Proof.
  intros Hdue. split.
  - intros us self Hdl k Hk r. split; [apply check_deadlines_replay|].
    pose proof (check_deadlines_tracks k (Some us) now bot self) as Ht.
    fold r in Ht. unfold tracks in Ht. rewrite Hk in Ht.
    destruct Ht as [([?|Hn] & _)|(us' & st & (Hus & -> & _) & Hs & text & oks & Hlen & He)].
    + done.
    + destruct Hn. now exists dl, h.
    + injection Hus as <-.
      assert (Htext : exists dl' h',
                dl' ∈ GlobalDeadlineManager.deadlines self
                /\ GlobalDeadlineManager.reminder_key dl' h' = k
                /\ attempts Shared k text us oks
                   = attempts Shared k (message "Глобальный дедлайн" dl' h') us oks).
      { destruct us as [|u us]; [now exists dl, h|].
        destruct oks as [|ok oks]; [done|].
        pose proof (check_deadlines_texts (Some (u :: us)) now bot self) as Hall.
        fold r in Hall. rewrite Forall_forall in Hall.
        specialize (Hall (Attempt Shared k u text ok)).
        destruct Hall as (dl' & h' & Hdl' & _ & Hkey & ->); [|now exists dl', h'].
        assert (Hin : Attempt Shared k u text ok ∈ filter (about Shared k) r.2)
          by (rewrite He; left).
        now apply list_elem_of_filter in Hin as [_ Hin]. }
      destruct Htext as (dl' & h' & Hdl' & Hkey & Heq). rewrite Heq in He.
      exists dl', h', oks. do 5 (split; [done|]).
      intros Hfail.
      apply (attempts_outcomes _ Shared k (message "Глобальный дедлайн" dl' h') us oks Hlen).
      pose proof (Forall_filter_events _ Shared k _
                    (check_deadlines_outcomes (fun ok => ok = false) Hfail
                       (Some us) now bot self)) as Hall.
      fold r in Hall. rewrite He in Hall. now apply Forall_app in Hall as [? _].
  - intros uid arr self Hin Hdl k Hk r. split; [apply check_personal_replay|].
    pose proof (check_personal_tracks k now bot self) as Ht.
    fold r in Ht. unfold tracks in Ht. rewrite Hk in Ht.
    destruct Ht as [(Hn & _)|(us' & st & (-> & owner & -> & Htr) & Hs & text & oks & Hlen & He)].
    + destruct (Hn uid). now exists arr, dl, h.
    + destruct oks as [|ok [|? ?]]; try done. cbn in He.
      pose proof (check_personal_texts now bot self) as Hall.
      fold r in Hall. rewrite Forall_forall in Hall.
      specialize (Hall (Attempt Personal k owner text ok)).
      destruct Hall as (arr' & dl' & h' & _ & _ & _ & Hkey & ->).
      { assert (Hin' : Attempt Personal k owner text ok ∈ filter (about Personal k) r.2)
          by (rewrite He; left).
        now apply list_elem_of_filter in Hin' as [_ Hin']. }
      exists owner, dl', h', ok. do 4 (split; [done|]).
      intros Hfail.
      pose proof (Forall_filter_events _ Personal k _
                    (check_personal_outcomes (fun ok => ok = false) Hfail
                       now bot self)) as Hall.
      fold r in Hall. rewrite He in Hall. now inversion Hall.
Qed.

Lemma dispatch_failure_isolated_witness :
  let k := GlobalDeadlineManager.reminder_key Demo.math 24 in
  let r := @GlobalDeadlineManager.check_deadlines nat Demo.flaky (Some Demo.users)
             Demo.eve 0%nat Demo.shared0 in
  let r' := @GlobalDeadlineManager.check_deadlines nat Demo.down (Some Demo.users)
              Demo.eve 0%nat Demo.shared0 in
  let p := @UserDeadlineManager.check_personal_deadlines nat Demo.flaky
             Demo.eve 5%nat Demo.personal0 in
  (r.1.1 = 6%nat /\ outcomes r.2 = [true; false; true; false; true; false]
   /\ exists dl' h' oks,
        filter (about Shared k) r.2
        = attempts Shared k (message "Глобальный дедлайн" dl' h') Demo.users oks
          ++ [Marked Shared k (Py.strftime Demo.eve)])
  /\ (exists text,
        filter (about Shared k) r'.2
        = attempts Shared k text Demo.users [false; false; false]
          ++ [Marked Shared k (Py.strftime Demo.eve)]
        /\ GlobalDeadlineManager.sent_reminders r'.1.2 !! k = Some (Py.strftime Demo.eve))
  /\ (p.1.1 = 7%nat /\ outcomes p.2 = [false; true]
      /\ UserDeadlineManager.sent_reminders p.1.2 !! "42_Math_01.01.2030_24"
         = Some (Py.strftime Demo.eve)).
Proof.
  intros k r r' p.
  assert (Hdue : due Demo.eve Demo.math 24 = true) by reflexivity.
  split; [|split].
  - destruct (dispatch_failure_isolated Demo.flaky Demo.eve 0%nat Demo.math 24 Hdue)
      as [Hshared _].
    destruct (Hshared Demo.users Demo.shared0)
      as (Hreplay & dl' & h' & oks & _ & _ & _ & Hev & _); [left|apply lookup_empty|].
    fold r in Hreplay. split; [|split].
    + pose proof (f_equal fst Hreplay) as H1. cbn [fst] in H1. now rewrite <- H1.
    + pose proof (f_equal snd Hreplay) as H2. cbn [snd] in H2. now rewrite <- H2.
    + now exists dl', h', oks.
  - destruct (dispatch_failure_isolated Demo.down Demo.eve 0%nat Demo.math 24 Hdue)
      as [Hshared _].
    destruct (Hshared Demo.users Demo.shared0)
      as (_ & dl' & h' & oks & Hlen & _ & _ & Hev & Hs & Hfail); [left|apply lookup_empty|].
    eexists. split; [|exact Hs].
    fold r' k in Hev. rewrite Hev.
    assert (Hall : Forall (fun ok => ok = false) oks) by (apply Hfail; reflexivity).
    destruct oks as [|a [|b [|c [|? ?]]]]; try discriminate Hlen.
    inversion Hall as [|? ? -> Hall1]; inversion Hall1 as [|? ? -> Hall2];
      inversion Hall2 as [|? ? -> _]. reflexivity.
  - destruct (dispatch_failure_isolated Demo.flaky Demo.eve 5%nat Demo.math 24 Hdue)
      as [_ Hpersonal].
    destruct (Hpersonal "42" [Demo.math] Demo.personal0)
      as (Hreplay & owner & dl' & h' & ok & _ & _ & _ & Hs & _);
      [left|left|apply lookup_empty|].
    fold p in Hreplay. split; [|split].
    + pose proof (f_equal fst Hreplay) as H1. cbn [fst] in H1. now rewrite <- H1.
    + pose proof (f_equal snd Hreplay) as H2. cbn [snd] in H2. now rewrite <- H2.
    + exact Hs.
Defined.

(** ** Corrupted records *)

Lemma for_each_skip {A S : Type} (l1 l2 : list A) (x : A) (body : A -> action S) (s : S) :
  (forall t, body x t = (t, [])) ->
  for_each (l1 ++ x :: l2) body s = for_each (l1 ++ l2) body s.
Proof.
  intros Hx. rewrite !for_each_app, for_each_cons, Hx. done.
Qed.

Lemma for_each_replace {A S : Type} (l1 l2 : list A) (x y : A) (body : A -> action S)
    (s : S) :
  (forall t, body x t = body y t) ->
  for_each (l1 ++ x :: l2) body s = for_each (l1 ++ y :: l2) body s.
Proof.
  intros Hxy. rewrite !for_each_app, !for_each_cons, Hxy. done.
Qed.

(** C8. A stored record whose date does not parse contributes nothing to a
    scan: the transport, the events and the ledger are those of the scan of
    the store without the record; the store, with the unparseable record in
    it, is returned unchanged; and every other stored record, before or
    after it, is evaluated all the same: each one that has a due threshold
    whose key is not in the ledger is announced in this scan and its key is
    written (shared and personal). *)
Theorem corrupted_record_skipped {Bot : Type} (T : Transport Bot) (bad : Deadline) :
  Py.strptime (deadline bad) = None ->
  (forall um now (bot : Bot) l1 l2 sent,
     let r := GlobalDeadlineManager.check_deadlines um now bot
                (GlobalDeadlineManager.mk (l1 ++ bad :: l2) sent) in
     let r' := GlobalDeadlineManager.check_deadlines um now bot
                 (GlobalDeadlineManager.mk (l1 ++ l2) sent) in
     r.1.1 = r'.1.1 /\ r.2 = r'.2
     /\ GlobalDeadlineManager.sent_reminders r.1.2
        = GlobalDeadlineManager.sent_reminders r'.1.2
     /\ GlobalDeadlineManager.deadlines r.1.2 = l1 ++ bad :: l2
     /\ (forall us dl h,
           um = Some us -> dl ∈ l1 ++ l2 -> due now dl h = true ->
           let k := GlobalDeadlineManager.reminder_key dl h in
           sent !! k = None ->
           dispatched Shared k us (Py.strftime now) (filter (about Shared k) r.2)
           /\ GlobalDeadlineManager.sent_reminders r.1.2 !! k = Some (Py.strftime now)))
  /\ (forall now (bot : Bot) d1 d2 uid a1 a2 sent,
        let r := UserDeadlineManager.check_personal_deadlines now bot
                   (UserDeadlineManager.mk (d1 ++ (uid, a1 ++ bad :: a2) :: d2) sent) in
        let r' := UserDeadlineManager.check_personal_deadlines now bot
                    (UserDeadlineManager.mk (d1 ++ (uid, a1 ++ a2) :: d2) sent) in
        r.1.1 = r'.1.1 /\ r.2 = r'.2
        /\ UserDeadlineManager.sent_reminders r.1.2
           = UserDeadlineManager.sent_reminders r'.1.2
        /\ UserDeadlineManager.deadlines r.1.2 = d1 ++ (uid, a1 ++ bad :: a2) :: d2
        /\ (forall uid' arr' dl h,
              (uid', arr') ∈ d1 ++ (uid, a1 ++ bad :: a2) :: d2 -> dl ∈ arr' ->
              due now dl h = true ->
              let k := UserDeadlineManager.r_key uid' dl h in
              sent !! k = None ->
              (exists owner,
                 dispatched Personal k [owner] (Py.strftime now)
                   (filter (about Personal k) r.2))
              /\ UserDeadlineManager.sent_reminders r.1.2 !! k = Some (Py.strftime now))).
Proof.
  intros Hbad. split.
  - intros um now bot l1 l2 sent r r'.
    assert (Heq : r = (r'.1.1, GlobalDeadlineManager.mk (l1 ++ bad :: l2)
                                 (GlobalDeadlineManager.sent_reminders r'.1.2), r'.2)).
    { subst r r'. destruct um as [us|]; [|done].
      rewrite !check_deadlines_unfold. simpl.
      rewrite for_each_skip; [done|].
      intros t. unfold GlobalDeadlineManager.check_deadline. now rewrite Hbad. }
    rewrite Heq. cbn [fst snd GlobalDeadlineManager.sent_reminders
                      GlobalDeadlineManager.deadlines].
    do 4 (split; [done|]).
    intros us dl h -> Hdl Hdue Hk.
    apply (stored_shared_is_dispatched us now bot
             (GlobalDeadlineManager.mk (l1 ++ l2) sent) dl h); done.
  - intros now bot d1 d2 uid a1 a2 sent r r'.
    assert (Heq : r = (r'.1.1, UserDeadlineManager.mk (d1 ++ (uid, a1 ++ bad :: a2) :: d2)
                                 (UserDeadlineManager.sent_reminders r'.1.2), r'.2)).
    { subst r r'. rewrite !check_personal_unfold. simpl.
      rewrite (for_each_replace d1 d2 (uid, a1 ++ bad :: a2) (uid, a1 ++ a2)); [done|].
      intros t. unfold UserDeadlineManager.check_user. simpl.
      apply for_each_skip.
      intros t'. unfold UserDeadlineManager.check_deadline. now rewrite Hbad. }
    rewrite Heq. cbn [fst snd UserDeadlineManager.sent_reminders
                      UserDeadlineManager.deadlines].
    do 4 (split; [done|]).
    intros uid' arr' dl h Hin Hdl Hdue Hk.
    assert (Hne : dl <> bad).
    { intros ->. unfold due in Hdue. now rewrite Hbad in Hdue. }
    assert (Hstored : exists arr'',
              (uid', arr'') ∈ d1 ++ (uid, a1 ++ a2) :: d2 /\ dl ∈ arr'').
    { apply elem_of_app in Hin as [Hin|Hin].
      - exists arr'. split; [apply elem_of_app; now left|done].
      - apply elem_of_cons in Hin as [Hin|Hin].
        + injection Hin as -> ->. exists (a1 ++ a2).
          split; [apply elem_of_app; right; left|].
          apply elem_of_app in Hdl as [Hdl|Hdl]; [apply elem_of_app; now left|].
          apply elem_of_cons in Hdl as [->|Hdl]; [done|apply elem_of_app; now right].
        + exists arr'. split; [apply elem_of_app; right; now right|done]. }
    destruct Hstored as (arr'' & Hin'' & Hdl'').
    destruct (stored_personal_is_dispatched now bot
                (UserDeadlineManager.mk (d1 ++ (uid, a1 ++ a2) :: d2) sent)
                uid' arr'' dl h Hin'' Hdl'' Hdue Hk) as [(owner & _ & Hd) Hs].
    split; [now exists owner|done].
Qed.

Lemma corrupted_record_skipped_witness :
  let r := @GlobalDeadlineManager.check_deadlines nat Demo.flaky (Some Demo.users)
             Demo.eve 0%nat Demo.shared0 in
  let p := @UserDeadlineManager.check_personal_deadlines nat Demo.flaky
             Demo.eve 0%nat Demo.personal0 in
  (GlobalDeadlineManager.deadlines r.1.2 = [Demo.math; Demo.legacy; Demo.phys]
   /\ r.2 = (@GlobalDeadlineManager.check_deadlines nat Demo.flaky (Some Demo.users)
              Demo.eve 0%nat (GlobalDeadlineManager.mk [Demo.math; Demo.phys] ∅)).2
   /\ dispatched Shared "Phys_03.01.2030_72" Demo.users "2029-12-31 00:00:00"
        (filter (about Shared "Phys_03.01.2030_72") r.2)
   /\ GlobalDeadlineManager.sent_reminders r.1.2 !! "Phys_03.01.2030_72"
      = Some "2029-12-31 00:00:00")
  /\ (UserDeadlineManager.deadlines p.1.2
      = [("42", [Demo.math]); ("7", [Demo.legacy; Demo.math])]
      /\ (exists owner,
            dispatched Personal "7_Math_01.01.2030_24" [owner] "2029-12-31 00:00:00"
              (filter (about Personal "7_Math_01.01.2030_24") p.2))
      /\ UserDeadlineManager.sent_reminders p.1.2 !! "7_Math_01.01.2030_24"
         = Some "2029-12-31 00:00:00").
Proof.
  intros r p.
  assert (Hbad : Py.strptime (deadline Demo.legacy) = None) by reflexivity.
  destruct (corrupted_record_skipped Demo.flaky Demo.legacy Hbad) as [Hshared Hpersonal].
  split.
  - destruct (Hshared (Some Demo.users) Demo.eve 0%nat [Demo.math] [Demo.phys] ∅)
      as (_ & Hev & _ & Hstore & Hothers).
    split; [exact Hstore|]. split; [exact Hev|].
    apply (Hothers Demo.users Demo.phys 72); [reflexivity|right; left|reflexivity..].
  - destruct (Hpersonal Demo.eve 0%nat [("42", [Demo.math])] [] "7" [] [Demo.math] ∅)
      as (_ & _ & _ & Hstore & Hothers).
    split; [exact Hstore|].
    apply (Hothers "7" [Demo.legacy; Demo.math] Demo.math 24);
      [right; left|right; left|reflexivity..].
Defined.

(** ** Keys of the two scopes *)

Lemma string_length_app (s1 s2 : string) :
  String.length (s1 +:+ s2) = (String.length s1 + String.length s2)%nat.
Proof. induction s1 as [|c s1 IH]; simpl; [done|]. now rewrite IH. Qed.






(** ** The stores *)

Section Dict.
Context {V : Type}.
Implicit Types (d : Py.dict V) (k : string) (v : V).

Lemma dict_get_set_eq k v d : Py.dict_get k (Py.dict_set k v d) = Some v.
Proof.
  induction d as [|[k' v'] d IH]; simpl.
  - now rewrite String.eqb_refl.
  - destruct (String.eqb k k') eqn:E; simpl; rewrite ?String.eqb_refl, ?E; done.
Qed.

Lemma dict_get_set_ne k k' v d :
  k <> k' -> Py.dict_get k' (Py.dict_set k v d) = Py.dict_get k' d.
Proof.
  intros Hne. induction d as [|[k0 v0] d IH]; simpl.
  - destruct (String.eqb_spec k' k); [congruence|done].
  - destruct (String.eqb_spec k k0) as [->|]; simpl.
    + destruct (String.eqb_spec k' k0); [congruence|done].
    + destruct (String.eqb_spec k' k0); [done|exact IH].
Qed.

(** Assigning to a key that is present keeps the set and order of keys. *)
Lemma keys_set_present k v d :
  is_Some (Py.dict_get k d) -> Py.keys (Py.dict_set k v d) = Py.keys d.
Proof.
  unfold Py.keys. induction d as [|[k0 v0] d IH]; simpl; intros [x Hx]; [done|].
  destruct (String.eqb_spec k k0) as [->|]; simpl; [done|].
  f_equal. apply IH. eauto.
Qed.

Lemma dict_get_None_keys k d : Py.dict_get k d = None <-> k ∉ Py.keys d.
Proof.
  unfold Py.keys. induction d as [|[k0 v0] d IH]; simpl.
  - split; [intros _; apply not_elem_of_nil|done].
  - rewrite not_elem_of_cons. destruct (String.eqb_spec k k0) as [->|Hne].
    + split; [done|]. intros [? _]. done.
    + rewrite IH. tauto.
Qed.
End Dict.

(** C4. Removing at an index [i] with [0 <= i < n] succeeds, removes
    exactly the element at position [i] (the earlier elements keep their
    positions, every later one moves down by one, the length drops by one)
    and leaves everything else as it was; for every other index, negative
    ones and [i >= n] included, it fails and changes nothing (shared and
    personal). *)
Theorem remove_deadline_by_index (i : Z) :
  (forall g : GlobalDeadlineManager.t,
     let l := GlobalDeadlineManager.deadlines g in
     let r := GlobalDeadlineManager.remove_deadline i g in
     (0 <= i < Z.of_nat (length l) ->
        r.2 = true
        /\ GlobalDeadlineManager.sent_reminders r.1 = GlobalDeadlineManager.sent_reminders g
        /\ length (GlobalDeadlineManager.deadlines r.1) = (length l - 1)%nat
        /\ forall j : nat,
             ((j < Z.to_nat i)%nat -> GlobalDeadlineManager.deadlines r.1 !! j = l !! j)
             /\ ((Z.to_nat i <= j)%nat ->
                 GlobalDeadlineManager.deadlines r.1 !! j = l !! S j))
     /\ (~ (0 <= i < Z.of_nat (length l)) -> r = (g, false)))
  /\ (forall (uid : string) (u : UserDeadlineManager.t),
        let l := UserDeadlineManager.get_user_deadlines uid u in
        let r := UserDeadlineManager.remove_deadline uid i u in
        (0 <= i < Z.of_nat (length l) ->
           r.2 = true
           /\ UserDeadlineManager.sent_reminders r.1 = UserDeadlineManager.sent_reminders u
           /\ Py.keys (UserDeadlineManager.deadlines r.1)
              = Py.keys (UserDeadlineManager.deadlines u)
           /\ (forall other, other <> uid ->
                 UserDeadlineManager.get_user_deadlines other r.1
                 = UserDeadlineManager.get_user_deadlines other u)
           /\ length (UserDeadlineManager.get_user_deadlines uid r.1) = (length l - 1)%nat
           /\ forall j : nat,
                ((j < Z.to_nat i)%nat ->
                   UserDeadlineManager.get_user_deadlines uid r.1 !! j = l !! j)
                /\ ((Z.to_nat i <= j)%nat ->
                    UserDeadlineManager.get_user_deadlines uid r.1 !! j = l !! S j))
        /\ (~ (0 <= i < Z.of_nat (length l)) -> r = (u, false))).
Proof.
  split.
  - intros g l r. subst l r. unfold GlobalDeadlineManager.remove_deadline. split.
    + intros Hi.
      rewrite (proj2 (Z.leb_le 0 i)), (proj2 (Z.ltb_lt i _)) by lia. simpl.
      split; [done|]. split; [done|]. split.
      * apply length_delete, lookup_lt_is_Some. lia.
      * intros j. split; intros Hj.
        -- now apply list_lookup_delete_lt.
        -- now apply list_lookup_delete_ge.
    + intros Hi.
      destruct (Z.leb_spec 0 i); simpl; [|done].
      destruct (Z.ltb_spec i (Z.of_nat (length (GlobalDeadlineManager.deadlines g))));
        [lia|done].
  - intros uid u l r. subst l r.
    unfold UserDeadlineManager.remove_deadline, UserDeadlineManager.get_user_deadlines.
    split.
    + intros Hi.
      rewrite (proj2 (Z.leb_le 0 i)), (proj2 (Z.ltb_lt i _)) by lia. simpl.
      rewrite dict_get_set_eq. simpl.
      split; [done|]. split; [done|]. split; [|split; [|split]].
      * apply keys_set_present.
        destruct (Py.dict_get uid (UserDeadlineManager.deadlines u)); [eauto|].
        simpl in Hi. lia.
      * intros other Hne. now rewrite dict_get_set_ne.
      * apply length_delete, lookup_lt_is_Some. lia.
      * intros j. split; intros Hj.
        -- now apply list_lookup_delete_lt.
        -- now apply list_lookup_delete_ge.
    + intros Hi.
      destruct (Z.leb_spec 0 i); simpl; [|done].
      destruct (Z.ltb_spec i (Z.of_nat
                 (length (default [] (Py.dict_get uid (UserDeadlineManager.deadlines u))))));
        [lia|done].
Qed.

Lemma remove_deadline_by_index_witness :
  GlobalDeadlineManager.deadlines
    (GlobalDeadlineManager.remove_deadline 1 Demo.shared0).1 = [Demo.math; Demo.phys]
  /\ GlobalDeadlineManager.remove_deadline 5 Demo.shared0 = (Demo.shared0, false)
  /\ GlobalDeadlineManager.remove_deadline (-1) Demo.shared0 = (Demo.shared0, false)
  /\ UserDeadlineManager.remove_deadline "7" 2 Demo.personal0 = (Demo.personal0, false)
  /\ UserDeadlineManager.get_user_deadlines "7"
       (UserDeadlineManager.remove_deadline "7" 0 Demo.personal0).1 = [Demo.math].
Proof.
  destruct (remove_deadline_by_index 1) as [H1 _].
  destruct (H1 Demo.shared0) as [Hok _].
  destruct Hok as (_ & _ & _ & Hshift); [simpl; lia|].
  destruct (remove_deadline_by_index 5) as [H5 _].
  destruct (H5 Demo.shared0) as [_ Hfail5].
  destruct (remove_deadline_by_index (-1)) as [Hm _].
  destruct (Hm Demo.shared0) as [_ Hfailm].
  destruct (remove_deadline_by_index 2) as [_ H2].
  destruct (H2 "7" Demo.personal0) as [_ Hfail2].
  split; [reflexivity|].
  split; [apply Hfail5; simpl; lia|].
  split; [apply Hfailm; simpl; lia|].
  split; [apply Hfail2; simpl; lia|reflexivity].
Defined.

(** C10. A failing operation of the personal store returns the store it
    was given: in particular the user keys of the mapping are unchanged, an
    addition with a rejected date for a user without an entry creates no
    entry, and a removal for a user without a stored list fails and creates
    no entry. *)
Theorem failed_personal_operation_keeps_keys (uid : string) (u : UserDeadlineManager.t) :
  (forall now subject task date_str,
     (UserDeadlineManager.add_deadline now uid subject task date_str u).2 = false ->
     (UserDeadlineManager.add_deadline now uid subject task date_str u).1 = u)
  /\ (forall i,
        (UserDeadlineManager.remove_deadline uid i u).2 = false ->
        (UserDeadlineManager.remove_deadline uid i u).1 = u)
  /\ (forall now subject task date_str,
        Py.strptime date_str = None ->
        uid ∉ Py.keys (UserDeadlineManager.deadlines u) ->
        uid ∉ Py.keys (UserDeadlineManager.deadlines
                 (UserDeadlineManager.add_deadline now uid subject task date_str u).1))
  /\ (forall i,
        uid ∉ Py.keys (UserDeadlineManager.deadlines u) ->
        UserDeadlineManager.remove_deadline uid i u = (u, false)).
Proof.
  split; [|split; [|split]].
  - intros now sj tk ds. unfold UserDeadlineManager.add_deadline.
    now destruct (Py.strptime ds).
  - intros i. unfold UserDeadlineManager.remove_deadline.
    now destruct (_ && _).
  - intros now sj tk ds Hds Hk. unfold UserDeadlineManager.add_deadline.
    now rewrite Hds.
  - intros i Hk%dict_get_None_keys. unfold UserDeadlineManager.remove_deadline.
    rewrite Hk.
    assert (E : (0 <=? i) && (i <? Z.of_nat (length (default [] (@None (list Deadline)))))
                = false).
    { destruct (Z.leb_spec 0 i); [|done]. apply Z.ltb_ge. simpl. lia. }
    now rewrite E.
Qed.

Lemma failed_personal_operation_keeps_keys_witness :
  Py.keys (UserDeadlineManager.deadlines
     (UserDeadlineManager.add_deadline Demo.eve "1000" "Math" "HW1" "31.02.2030"
        Demo.personal0).1) = ["42"; "7"]
  /\ UserDeadlineManager.remove_deadline "1000" 0 Demo.personal0 = (Demo.personal0, false).
Proof.
  destruct (failed_personal_operation_keeps_keys "1000" Demo.personal0)
    as (Hadd & _ & _ & Hrem).
  split.
  - rewrite Hadd; reflexivity.
  - apply Hrem. apply dict_get_None_keys. reflexivity.
Defined.

(** ** Adding a deadline *)

(** C3 as the specification states it fails: [1.1.2030] is not a text of
    the strict format [DD.MM.YYYY], yet both stores accept it and grow by
    one record; so they do with a year written in fullwidth digits. *)
Lemma add_deadline_accepts_loose_date :
  Spec.valid_DD_MM_YYYY "1.1.2030" = false
  /\ GlobalDeadlineManager.add_deadline Demo.eve "Math" "HW1" "1.1.2030"
       (GlobalDeadlineManager.mk [] ∅)
     = (GlobalDeadlineManager.mk
          [mk_deadline "Math" "HW1" "1.1.2030" "2029-12-31 00:00:00"] ∅, true)
  /\ UserDeadlineManager.add_deadline Demo.eve "42" "Math" "HW1" "1.1.2030"
       (UserDeadlineManager.mk [] ∅)
     = (UserDeadlineManager.mk
          [("42", [mk_deadline "Math" "HW1" "1.1.2030" "2029-12-31 00:00:00"])] ∅, true)
  /\ Spec.valid_DD_MM_YYYY "01.01.２０３０" = false
  /\ GlobalDeadlineManager.add_deadline Demo.eve "Math" "HW1" "01.01.２０３０"
       (GlobalDeadlineManager.mk [] ∅)
     = (GlobalDeadlineManager.mk
          [mk_deadline "Math" "HW1" "01.01.２０３０" "2029-12-31 00:00:00"] ∅, true).
Proof. repeat split. Qed.

(** C3 (amended). For every text that is a valid strict [DD.MM.YYYY] date
    (years 0001 to 9999), [add_deadline] succeeds and appends exactly one
    record, made of the given fields, at the end of the sequence (the
    shared list, or the list of the user, the other users' lists staying
    as they are); the same holds of every text of the loose format
    [D.M.YYYY] that names a day of the calendar -- a day [01]..[09], [30],
    [31], [1] or [2] followed by a decimal digit of any script, or one
    digit [1]..[9] alone or after one blank; a month [01]..[12] or one
    digit [1]..[9]; a year of four decimal digits of any script; for every
    other text, [add_deadline] fails and returns the store unchanged. *)
Theorem add_deadline_validates_date (now : Py.datetime) (subject task date_str : string) :
  let item := mk_deadline subject task date_str (Py.strftime now) in
  (Spec.valid_DD_MM_YYYY date_str = true -> Spec.loose_D_M_YYYY date_str)
  /\ (Spec.loose_D_M_YYYY date_str ->
        (forall g,
           GlobalDeadlineManager.add_deadline now subject task date_str g
           = (GlobalDeadlineManager.mk (GlobalDeadlineManager.deadlines g ++ [item])
                (GlobalDeadlineManager.sent_reminders g), true))
        /\ (forall uid u,
              let r := UserDeadlineManager.add_deadline now uid subject task date_str u in
              r.2 = true
              /\ UserDeadlineManager.get_user_deadlines uid r.1
                 = UserDeadlineManager.get_user_deadlines uid u ++ [item]
              /\ (forall other, other <> uid ->
                    UserDeadlineManager.get_user_deadlines other r.1
                    = UserDeadlineManager.get_user_deadlines other u)
              /\ UserDeadlineManager.sent_reminders r.1
                 = UserDeadlineManager.sent_reminders u))
  /\ (~ Spec.loose_D_M_YYYY date_str ->
        (forall g,
           GlobalDeadlineManager.add_deadline now subject task date_str g = (g, false))
        /\ (forall uid u,
              UserDeadlineManager.add_deadline now uid subject task date_str u
              = (u, false))).
Proof.
  intros item. split; [apply strict_is_loose|]. split.
  - intros [dt Hdt]%strptime_accepts_iff. split.
    + intros g. unfold GlobalDeadlineManager.add_deadline. now rewrite Hdt.
    + intros uid u r. subst r.
      unfold UserDeadlineManager.add_deadline, UserDeadlineManager.get_user_deadlines.
      rewrite Hdt.
      destruct (Py.dict_get uid (UserDeadlineManager.deadlines u)) as [arr|] eqn:E; simpl.
      * rewrite E, dict_get_set_eq. simpl. split; [done|]. split; [done|].
        split; [|done]. intros other Hne. now rewrite dict_get_set_ne.
      * rewrite !dict_get_set_eq. simpl. split; [done|]. split; [done|].
        split; [|done]. intros other Hne. now rewrite !dict_get_set_ne.
  - intros Hloose.
    assert (Hnone : Py.strptime date_str = None).
    { destruct (Py.strptime date_str) eqn:E; [|done].
      destruct Hloose. apply strptime_accepts_iff. rewrite E. eauto. }
    split.
    + intros g. unfold GlobalDeadlineManager.add_deadline. now rewrite Hnone.
    + intros uid u. unfold UserDeadlineManager.add_deadline. now rewrite Hnone.
Qed.

Lemma add_deadline_validates_date_witness :
  GlobalDeadlineManager.deadlines
    (GlobalDeadlineManager.add_deadline Demo.eve "Chem" "HW2" "29.02.2032" Demo.shared0).1
  = [Demo.math; Demo.legacy; Demo.phys;
     mk_deadline "Chem" "HW2" "29.02.2032" "2029-12-31 00:00:00"]
  /\ GlobalDeadlineManager.add_deadline Demo.eve "Chem" "HW2" "29.02.2031" Demo.shared0
     = (Demo.shared0, false)
  /\ UserDeadlineManager.add_deadline Demo.eve "42" "Chem" "HW2" "2032-02-29" Demo.personal0
     = (Demo.personal0, false)
  /\ GlobalDeadlineManager.deadlines
       (GlobalDeadlineManager.add_deadline Demo.eve "Chem" "HW2" "1٣.01.２０３０"
          Demo.shared0).1
     = [Demo.math; Demo.legacy; Demo.phys;
        mk_deadline "Chem" "HW2" "1٣.01.２０３０" "2029-12-31 00:00:00"]
  /\ GlobalDeadlineManager.add_deadline Demo.eve "Chem" "HW2" "0٣.01.2030" Demo.shared0
     = (Demo.shared0, false).
Proof.
  destruct (add_deadline_validates_date Demo.eve "Chem" "HW2" "29.02.2032")
    as (Hstrict & Hok & _).
  destruct (Hok (Hstrict eq_refl)) as [Hshared _].
  assert (Hreject : forall s, Py.strptime s = None -> ~ Spec.loose_D_M_YYYY s).
  { intros s Hs [dt Hdt]%strptime_accepts_iff. congruence. }
  destruct (add_deadline_validates_date Demo.eve "Chem" "HW2" "29.02.2031") as (_ & _ & Hbad).
  destruct (Hbad (Hreject "29.02.2031" eq_refl)) as [Hshared_bad _].
  destruct (add_deadline_validates_date Demo.eve "Chem" "HW2" "2032-02-29") as (_ & _ & Hfmt).
  destruct (Hfmt (Hreject "2032-02-29" eq_refl)) as [_ Hpersonal_bad].
  destruct (add_deadline_validates_date Demo.eve "Chem" "HW2" "1٣.01.２０３０")
    as (_ & Hother & _).
  destruct (Hother (proj1 (strptime_accepts_iff "1٣.01.２０３０")
                      (mk_is_Some _ _ eq_refl))) as [Hshared_other _].
  destruct (add_deadline_validates_date Demo.eve "Chem" "HW2" "0٣.01.2030") as (_ & _ & Hzero).
  destruct (Hzero (Hreject "0٣.01.2030" eq_refl)) as [Hshared_zero _].
  split; [now rewrite Hshared|]. split; [apply Hshared_bad|].
  split; [apply Hpersonal_bad|]. split; [now rewrite Hshared_other|apply Hshared_zero].
Defined.

(** * Further properties of the code *)

(** ** Adding, then removing *)

Lemma delete_last {A : Type} (l : list A) (x : A) : delete (length l) (l ++ [x]) = l.
Proof. induction l as [|a l IH]; simpl; [done|]. now rewrite IH. Qed.

(** An addition that succeeded is undone by removing the position the new
    record received, the former length of the sequence. The shared manager
    is then exactly as before. In the personal store the list of the user
    is as before, and so are the other users' lists, but the user now has
    an entry in the mapping, an empty one if the user had none. *)
Theorem add_then_remove (now : Py.datetime) (subject task date_str : string) :
  (forall g,
     let r := GlobalDeadlineManager.add_deadline now subject task date_str g in
     r.2 = true ->
     GlobalDeadlineManager.remove_deadline
       (Z.of_nat (length (GlobalDeadlineManager.deadlines g))) r.1 = (g, true))
  /\ (forall uid u,
        let r := UserDeadlineManager.add_deadline now uid subject task date_str u in
        let old := UserDeadlineManager.get_user_deadlines uid u in
        let r' := UserDeadlineManager.remove_deadline uid (Z.of_nat (length old)) r.1 in
        r.2 = true ->
        r'.2 = true
        /\ (forall other,
              UserDeadlineManager.get_user_deadlines other r'.1
              = UserDeadlineManager.get_user_deadlines other u)
        /\ Py.dict_get uid (UserDeadlineManager.deadlines r'.1) = Some old
        /\ UserDeadlineManager.sent_reminders r'.1 = UserDeadlineManager.sent_reminders u).
Proof.
  split.
  - intros g r. subst r. unfold GlobalDeadlineManager.add_deadline.
    destruct (Py.strptime date_str) as [dt|]; [|discriminate]. intros _.
    unfold GlobalDeadlineManager.remove_deadline. simpl.
    rewrite length_app. simpl.
    rewrite (proj2 (Z.leb_le 0 _)), (proj2 (Z.ltb_lt _ _)) by lia.
    simpl. rewrite Nat2Z.id, delete_last. now destruct g.
  - intros uid u r old r'. subst r r' old.
    unfold UserDeadlineManager.add_deadline, UserDeadlineManager.get_user_deadlines.
    destruct (Py.strptime date_str) as [dt|]; [|discriminate]. intros _.
    unfold UserDeadlineManager.remove_deadline. simpl.
    set (d := UserDeadlineManager.deadlines u).
    assert (Harr : default [] (Py.dict_get uid
              match Py.dict_get uid d with
              | Some _ => d
              | None => Py.dict_set uid [] d
              end) = default [] (Py.dict_get uid d)).
    { destruct (Py.dict_get uid d) eqn:E; [now rewrite E|now rewrite dict_get_set_eq]. }
    rewrite Harr, dict_get_set_eq. simpl. rewrite length_app. simpl.
    rewrite (proj2 (Z.leb_le 0 _)), (proj2 (Z.ltb_lt _ _)) by lia.
    simpl. rewrite Nat2Z.id, delete_last, dict_get_set_eq.
    split; [done|]. split; [|done].
    intros other. destruct (decide (other = uid)) as [->|Hne].
    + now rewrite dict_get_set_eq.
    + rewrite !dict_get_set_ne by done.
      destruct (Py.dict_get uid d); [done|]. now rewrite dict_get_set_ne.
Qed.

Lemma add_then_remove_witness :
  GlobalDeadlineManager.remove_deadline 3
    (GlobalDeadlineManager.add_deadline Demo.eve "Chem" "HW2" "5.3.2031" Demo.shared0).1
  = (Demo.shared0, true)
  /\ Py.keys (UserDeadlineManager.deadlines
       (UserDeadlineManager.remove_deadline "1000" 0
          (UserDeadlineManager.add_deadline Demo.eve "1000" "Chem" "HW2" "5.3.2031"
             Demo.personal0).1).1) = ["42"; "7"; "1000"].
Proof.
  destruct (add_then_remove Demo.eve "Chem" "HW2" "5.3.2031") as [Hshared Hpersonal].
  split.
  - apply (Hshared Demo.shared0). reflexivity.
  - destruct (Hpersonal "1000" Demo.personal0 eq_refl) as (_ & _ & Hentry & _).
    reflexivity.
Defined.

(** ** Deadlines whose day has begun *)

(** The result of a rounding has the sign it was given, or is a NaN. *)
Lemma binary_round_aux_sign (sx : bool) (mx ex : Z) (lx : location) :
  match binary_round_aux Py.prec Py.emax sx mx ex lx with
  | S754_zero s | S754_infinity s | S754_finite s _ _ => s = sx
  | S754_nan => True
  end.
Proof.
  unfold binary_round_aux.
  destruct (shr_fexp Py.prec Py.emax mx ex lx) as [mrs' e'].
  destruct (shr_fexp Py.prec Py.emax _ e' loc_Exact) as [mrs'' e''].
  destruct (shr_m mrs''); [done| |done]. now destruct (_ <=? _).
Qed.

Lemma total_seconds_not_positive (td : Py.timedelta) :
  td <= 0 -> not_positive (Py.total_seconds td).
Proof.
  unfold Py.total_seconds, Py.int_true_div. destruct td as [|p|p]; [done|lia|].
  intros _. unfold SFdiv.
  destruct (SFdiv_core_binary _ _ _ _ _ _) as [[mz ez] lz].
  pose proof (binary_round_aux_sign (xorb true false) mz ez lz) as H.
  destruct (binary_round_aux _ _ _ _ _ _) as [s|s| |s m e]; simpl in *; subst; done.
Qed.

Lemma div_3600_not_positive (x : Py.float) :
  not_positive x -> not_positive (Py.float_div x (Py.float_of_int 3600)).
Proof.
  change (Py.float_of_int 3600) with (S754_finite false 7916483719987200 (-41)).
  unfold Py.float_div, SFdiv.
  destruct x as [s|s| |s m e]; simpl; try done.
  - now destruct s.
  - destruct s; [|done]. intros _.
    destruct (SFdiv_core_binary _ _ _ _ _ _) as [[mz ez] lz].
    pose proof (binary_round_aux_sign (xorb true false) mz ez lz) as H.
    destruct (binary_round_aux _ _ _ _ _ _) as [s|s| |s m' e']; simpl in *; subst; done.
Qed.

Lemma overdue_outside_windows (dt now : Py.datetime) (h : Z) :
  Py.datetime_sub dt now <= 0 -> h ∈ Config.REMINDER_HOURS ->
  in_window h (hours_left dt now) = false.
Proof.
  intros Hd Hh. destruct (in_window h (hours_left dt now)) eqn:W; [|done].
  apply window_bounds in W as (m & e & Hhl & _); [|done].
  pose proof (div_3600_not_positive _ (total_seconds_not_positive _ Hd)) as Hn.
  unfold hours_left in Hhl. now rewrite Hhl in Hn.
Qed.

Lemma for_each_idle {A S : Type} (xs : list A) (body : A -> action S) (s : S) :
  (forall x t, x ∈ xs -> body x t = (t, [])) -> for_each xs body s = (s, []).
Proof.
  intros Hb. induction xs as [|x xs IH]; [done|].
  rewrite for_each_cons, Hb by left. simpl. rewrite IH; [done|].
  intros y t Hy. apply Hb. now right.
Qed.

(** Once midnight of the due date is reached ([dt - now <= 0]) the loop
    iteration of a stored deadline sends nothing and writes nothing, at
    every tick from then on: no threshold window contains a value of
    [hours_left] that is zero or negative (shared and personal). *)
Theorem overdue_deadline_is_silent {Bot : Type} (T : Transport Bot) (now : Py.datetime)
    (dl : Deadline) (dt : Py.datetime) :
  Py.strptime (deadline dl) = Some dt ->
  Py.datetime_sub dt now <= 0 ->
  (forall h, due now dl h = false)
  /\ (forall us (s : Bot * ledger),
        GlobalDeadlineManager.check_deadline us now dl s = (s, []))
  /\ (forall uid (s : Bot * ledger),
        UserDeadlineManager.check_deadline now uid dl s = (s, [])).
Proof.
  intros Hdt Hd.
  assert (Hw : forall h, h ∈ Config.REMINDER_HOURS ->
                 in_window h (hours_left dt now) = false)
    by (intros h; now apply overdue_outside_windows).
  split; [|split].
  - intros h. unfold due. rewrite Hdt.
    destruct (bool_decide (h ∈ Config.REMINDER_HOURS)) eqn:E; [|done].
    apply bool_decide_eq_true in E. now rewrite Hw.
  - intros us s. unfold GlobalDeadlineManager.check_deadline. rewrite Hdt.
    apply for_each_idle. intros h [b sent] Hh.
    unfold GlobalDeadlineManager.remind. now rewrite Hw.
  - intros uid s. unfold UserDeadlineManager.check_deadline. rewrite Hdt.
    apply for_each_idle. intros h [b sent] Hh.
    unfold UserDeadlineManager.remind. now rewrite Hw.
Qed.

Lemma overdue_deadline_is_silent_witness :
  @GlobalDeadlineManager.check_deadline nat Demo.flaky Demo.users
    (Py.mk_datetime 2030 1 1 0 0 0 0) Demo.math (0%nat, ∅) = ((0%nat, ∅), [])
  /\ @UserDeadlineManager.check_deadline nat Demo.flaky
       (Py.mk_datetime 2031 6 15 12 30 0 250) "42" Demo.math (0%nat, ∅) = ((0%nat, ∅), []).
Proof.
  assert (Hdt : Py.strptime (deadline Demo.math) = Some (Py.mk_datetime 2030 1 1 0 0 0 0))
    by reflexivity.
  split.
  - destruct (overdue_deadline_is_silent Demo.flaky (Py.mk_datetime 2030 1 1 0 0 0 0)
                Demo.math _ Hdt) as (_ & H & _); [vm_compute; discriminate|].
    apply H.
  - destruct (overdue_deadline_is_silent Demo.flaky (Py.mk_datetime 2031 6 15 12 30 0 250)
                Demo.math _ Hdt) as (_ & _ & H); [vm_compute; discriminate|].
    apply H.
Defined.

(** ** Deadlines that share a key *)

Lemma string_app_inv_r (s1 s2 r : string) : s1 +:+ r = s2 +:+ r -> s1 = s2.
Proof.
  revert s2. induction s1 as [|c s1 IH]; intros [|c' s2] H.
  - done.
  - apply (f_equal String.length) in H.
    rewrite string_app_nil_l, string_app_cons in H. simpl in H.
    rewrite string_length_app in H. lia.
  - apply (f_equal String.length) in H.
    rewrite string_app_nil_l, string_app_cons in H. simpl in H.
    rewrite string_length_app in H. lia.
  - rewrite !string_app_cons in H. injection H as -> H. f_equal. now apply IH.
Qed.

(** The text of a reminder names the task: deadlines with one subject and
    one date but different tasks have different texts. *)
Lemma message_task_inj header dl dl' h :
  subject dl' = subject dl -> deadline dl' = deadline dl ->
  message header dl' h = message header dl h -> task dl' = task dl.
Proof.
  unfold message. intros -> -> H.
  repeat apply String.app_inj in H. now apply string_app_inv_r in H.
Qed.

Lemma elem_of_attempts e sc k text us oks :
  e ∈ attempts sc k text us oks -> exists u ok, e = Attempt sc k u text ok.
Proof.
  unfold attempts. revert oks.
  induction us as [|u us IH]; intros [|ok oks]; simpl;
    try (intros H; now apply elem_of_nil in H).
  intros [->|H]%elem_of_cons; [eauto|]. now apply (IH oks).
Qed.

Section FirstWins.
Context {Bot : Type} `{!Transport Bot}.
Variables (us : list string) (now : Py.datetime).

Lemma shared_remind_fires dl hl h (bot : Bot) (sent : ledger) :
  in_window h hl = true ->
  sent !! GlobalDeadlineManager.reminder_key dl h = None ->
  exists bot' oks, length oks = length us
    /\ GlobalDeadlineManager.remind us now dl hl h (bot, sent)
       = ((bot', <[GlobalDeadlineManager.reminder_key dl h := Py.strftime now]> sent),
          attempts Shared (GlobalDeadlineManager.reminder_key dl h)
            (message "Глобальный дедлайн" dl h) us oks
          ++ [Marked Shared (GlobalDeadlineManager.reminder_key dl h) (Py.strftime now)]).
Proof.
  intros W L. unfold GlobalDeadlineManager.remind. rewrite W, L.
  destruct (send_loop_events Shared (GlobalDeadlineManager.reminder_key dl h)
              (message "Глобальный дедлайн" dl h) us bot) as (oks & Hlen & Hev).
  destruct (for_each us _ bot) as [bot' evs]. simpl in Hev. subst evs.
  now exists bot', oks.
Qed.

Lemma shared_remind_idle dl hl h (s : Bot * ledger) :
  in_window h hl = false -> GlobalDeadlineManager.remind us now dl hl h s = (s, []).
Proof. intros W. destruct s. unfold GlobalDeadlineManager.remind. now rewrite W. Qed.

(** The iteration of a deadline with a due threshold whose key is absent:
    one reminder with the text of this deadline and threshold, and the key
    enters the ledger. *)
Lemma shared_check_deadline_fires dl h (bot : Bot) (sent : ledger) :
  due now dl h = true ->
  sent !! GlobalDeadlineManager.reminder_key dl h = None ->
  exists bot' oks, length oks = length us
    /\ GlobalDeadlineManager.check_deadline us now dl (bot, sent)
       = ((bot', <[GlobalDeadlineManager.reminder_key dl h := Py.strftime now]> sent),
          attempts Shared (GlobalDeadlineManager.reminder_key dl h)
            (message "Глобальный дедлайн" dl h) us oks
          ++ [Marked Shared (GlobalDeadlineManager.reminder_key dl h) (Py.strftime now)]).
Proof.
  unfold due, GlobalDeadlineManager.check_deadline.
  destruct (Py.strptime (deadline dl)) as [dt|]; [|discriminate].
  intros [Hh%bool_decide_eq_true W]%andb_true_iff L.
  assert (Hoff : forall h', h' ∈ Config.REMINDER_HOURS -> h' <> h ->
                   in_window h' (hours_left dt now) = false).
  { intros h' Hh' Hne. destruct (in_window h' (hours_left dt now)) eqn:W'; [|done].
    destruct Hne. now apply (windows_apart (hours_left dt now)). }
  assert (H24 : 24 ∈ Config.REMINDER_HOURS) by (repeat constructor).
  assert (H72 : 72 ∈ Config.REMINDER_HOURS) by (repeat constructor).
  assert (H120 : 120 ∈ Config.REMINDER_HOURS) by (repeat constructor).
  apply reminder_hours_cases in Hh.
  unfold Config.REMINDER_HOURS. rewrite !for_each_cons. cbn [for_each].
  destruct Hh as [-> | [-> | ->]].
  - destruct (shared_remind_fires dl _ 24 bot sent W L) as (bot' & oks & Hlen & ->).
    cbn [fst snd]. rewrite !shared_remind_idle by (apply Hoff; [done|lia]).
    cbn [fst snd]. exists bot', oks. now rewrite !app_nil_r.
  - rewrite (shared_remind_idle dl _ 24) by (apply Hoff; [done|lia]). cbn [fst snd].
    destruct (shared_remind_fires dl _ 72 bot sent W L) as (bot' & oks & Hlen & ->).
    cbn [fst snd]. rewrite !shared_remind_idle by (apply Hoff; [done|lia]).
    cbn [fst snd]. exists bot', oks. now rewrite !app_nil_r.
  - rewrite (shared_remind_idle dl _ 24) by (apply Hoff; [done|lia]). cbn [fst snd].
    rewrite (shared_remind_idle dl _ 72) by (apply Hoff; [done|lia]). cbn [fst snd].
    destruct (shared_remind_fires dl _ 120 bot sent W L) as (bot' & oks & Hlen & ->).
    cbn [fst snd]. exists bot', oks. now rewrite !app_nil_r.
Qed.
End FirstWins.

(** Of the stored shared deadlines that yield one key, the first one that
    is due speaks for all: the reminder sent for the key carries its text,
    and a later deadline with the same subject and date but another task
    has the same key, so its own text is never sent for this threshold. *)
Theorem shared_key_first_wins {Bot : Type} (T : Transport Bot) (us : list string)
    (now : Py.datetime) (bot : Bot) (l1 l2 : list Deadline) (dl : Deadline)
    (sent : ledger) (h : Z) :
  let k := GlobalDeadlineManager.reminder_key dl h in
  let r := GlobalDeadlineManager.check_deadlines (Some us) now bot
             (GlobalDeadlineManager.mk (l1 ++ dl :: l2) sent) in
  due now dl h = true ->
  sent !! k = None ->
  (forall d h', d ∈ l1 -> due now d h' = true ->
     GlobalDeadlineManager.reminder_key d h' <> k) ->
  (exists oks, length oks = length us
     /\ filter (about Shared k) r.2
        = attempts Shared k (message "Глобальный дедлайн" dl h) us oks
          ++ [Marked Shared k (Py.strftime now)])
  /\ (forall dl', subject dl' = subject dl -> deadline dl' = deadline dl ->
        task dl' <> task dl ->
        GlobalDeadlineManager.reminder_key dl' h = k
        /\ forall uid ok,
             Attempt Shared k uid (message "Глобальный дедлайн" dl' h) ok ∉ r.2).
Proof.
  intros k r Hdue Hk Hfirst.
  assert (Hev : exists oks, length oks = length us
     /\ filter (about Shared k) r.2
        = attempts Shared k (message "Глобальный дедлайн" dl h) us oks
          ++ [Marked Shared k (Py.strftime now)]).
  { subst r. rewrite check_deadlines_unfold. simpl.
    rewrite for_each_app, for_each_cons. simpl.
    pose proof (shared_loop_tracks us now k l1 (bot, sent)) as H1.
    destruct (for_each l1 _ (bot, sent)) as [[b1 s1] e1]. simpl in *.
    unfold tracks in H1. rewrite Hk in H1.
    destruct H1 as [(_ & Hs1 & He1)|(? & ? & (_ & _ & d & h' & Hd & Hdue' & Hkey) & _)].
    2:{ now destruct (Hfirst d h' Hd Hdue' Hkey). }
    destruct (shared_check_deadline_fires us now dl h b1 s1 Hdue Hs1)
      as (b2 & oks & Hlen & ->). simpl.
    pose proof (shared_loop_tracks us now k l2
                  (b2, <[k := Py.strftime now]> s1)) as H2.
    destruct (for_each l2 _ _) as [[b3 s3] e3]. simpl in *.
    unfold tracks in H2. rewrite lookup_insert_eq in H2. destruct H2 as [_ He3].
    exists oks. split; [done|].
    rewrite !filter_app, He1, He3, app_nil_r. simpl.
    rewrite <- filter_app. apply filter_about_same, reminder_about. }
  split; [exact Hev|].
  intros dl' Hs Hd Ht. split.
  { unfold k, GlobalDeadlineManager.reminder_key. now rewrite Hs, Hd. }
  intros uid ok Hin. destruct Hev as (oks & _ & Hf).
  assert (Hin' : Attempt Shared k uid (message "Глобальный дедлайн" dl' h) ok
                 ∈ filter (about Shared k) r.2)
    by (apply list_elem_of_filter; split; [split; reflexivity|done]).
  rewrite Hf in Hin'. apply elem_of_app in Hin' as [Hin'|Hin'].
  - apply elem_of_attempts in Hin' as (u & ok' & Heq).
    assert (Hmsg : message "Глобальный дедлайн" dl' h = message "Глобальный дедлайн" dl h)
      by congruence.
    apply Ht. now apply (message_task_inj "Глобальный дедлайн" dl dl' h).
  - apply list_elem_of_singleton in Hin'. discriminate.
Qed.

Lemma shared_key_first_wins_witness :
  GlobalDeadlineManager.reminder_key math_essay 24 = "Math_01.01.2030_24"
  /\ Attempt Shared "Math_01.01.2030_24" "42" (message "Глобальный дедлайн" math_essay 24) true
     ∉ (@GlobalDeadlineManager.check_deadlines nat Demo.flaky (Some Demo.users) Demo.eve 0%nat
          (GlobalDeadlineManager.mk [Demo.legacy; Demo.phys; Demo.math; math_essay] ∅)).2.
Proof.
  split; [reflexivity|].
  destruct (shared_key_first_wins Demo.flaky Demo.users Demo.eve 0%nat
              [Demo.legacy; Demo.phys] [math_essay] Demo.math ∅ 24) as [_ H].
  - reflexivity.
  - apply lookup_empty.
  - intros d h' Hd Hdue.
    assert (Hh : h' ∈ Config.REMINDER_HOURS).
    { unfold due in Hdue. destruct (Py.strptime (deadline d)); [|discriminate].
      apply andb_true_iff in Hdue as [Hh _]. now apply bool_decide_eq_true in Hh. }
    apply reminder_hours_cases in Hh.
    apply elem_of_cons in Hd as [->|Hd]; [discriminate|].
    apply list_elem_of_singleton in Hd as ->.
    destruct Hh as [-> | [-> | ->]]; vm_compute; discriminate.
  - apply (H math_essay); [reflexivity|reflexivity|discriminate].
Defined.

(** ** The files behind the managers *)

Lemma for_each_inv {A S : Type} (P : S -> Prop) (xs : list A) (body : A -> action S) :
  (forall x s, P s -> P (body x s).1) -> forall s, P s -> P (for_each xs body s).1.
Proof.
  intros Hb. induction xs as [|x xs IH]; intros s Hs; [done|].
  rewrite for_each_cons. cbn [fst]. apply IH, Hb, Hs.
Qed.

(** A loop that can raise follows the loop it stands for: it does the
    same while its body returns, and nothing after its body raised. *)
Lemma for_each_raising_follows {A S S' : Type} (π : S' -> S) (xs : list A)
    (body : A -> action S) (body' : A -> raising S') :
  (forall x, follows π (body x) (body' x)) ->
  follows π (for_each xs body) (for_each_raising xs body').
Proof.
  intros Hb. induction xs as [|x xs IH]; intros s.
  { cbn. split; [done|]. now exists []. }
  cbn zeta. rewrite for_each_cons. cbn [for_each_raising].
  destruct (Hb x s) as [Hret [rest Hrest]]. cbn zeta in Hret, Hrest.
  destruct (body' x s) as [[s1 e1] [|]]; cbn [fst snd] in *.
  - destruct (Hret eq_refl) as [Hs1 He1].
    destruct (IH s1) as [IHret [rest' IHrest]]. cbn zeta in IHret, IHrest.
    destruct (for_each_raising xs body' s1) as [[s2 e2] r2]. cbn [fst snd] in *.
    rewrite Hs1 in IHret, IHrest. rewrite <- He1. split.
    + intros Hr. destruct (IHret Hr) as [-> ->]. done.
    + exists rest'. rewrite IHrest. now rewrite app_assoc.
  - split; [done|]. exists (rest ++ (for_each xs body (body x (π s)).1).2).
    rewrite Hrest. now rewrite app_assoc.
Qed.

(** A loop whose body returns and keeps [P] returns and keeps [P]. *)
Lemma for_each_raising_returns {A S : Type} (P : S -> Prop) (xs : list A)
    (body : A -> raising S) :
  (forall x s, P s -> (body x s).2 = true /\ P (body x s).1.1) ->
  forall s, P s ->
    (for_each_raising xs body s).2 = true /\ P (for_each_raising xs body s).1.1.
Proof.
  intros Hb. induction xs as [|x xs IH]; intros s Hs; [done|].
  cbn [for_each_raising]. destruct (Hb x s Hs) as [Hr HP].
  destruct (body x s) as [[s1 e1] r1]. cbn [fst snd] in *. subst r1.
  specialize (IH s1 HP). now destruct (for_each_raising xs body s1) as [[s2 e2] r2].
Qed.

Section Files.
Context {Bot : Type} `{!Transport Bot}.
Import Database.
Implicit Types (faults : nat -> write_outcome) (s : Bot * ledger * file ledger * nat).

Lemma shared_remind_follows faults us now dl hl h :
  follows in_memory (GlobalDeadlineManager.remind us now dl hl h)
    (GlobalDeadlineManagerIO.remind faults us now dl hl h).
Proof.
  intros [[[bot sent] f] n].
  unfold GlobalDeadlineManagerIO.remind, GlobalDeadlineManager.remind, in_memory.
  cbn [fst snd]. destruct (in_window h hl); [|split; [done|now exists []]].
  destruct (sent !! _); [split; [done|now exists []]|].
  destruct (for_each us _ bot) as [b e].
  destruct (save_json _ _ _); (split; [done|exists []; now rewrite app_nil_r]).
Qed.

Lemma shared_check_deadline_follows faults us now dl :
  follows in_memory (GlobalDeadlineManager.check_deadline us now dl)
    (GlobalDeadlineManagerIO.check_deadline faults us now dl).
Proof.
  unfold GlobalDeadlineManagerIO.check_deadline, GlobalDeadlineManager.check_deadline.
  destruct (Py.strptime (deadline dl)).
  - apply for_each_raising_follows. intros h. apply shared_remind_follows.
  - intros s. split; [done|now exists []].
Qed.

Lemma personal_remind_follows faults now uid dl hl h :
  follows in_memory (UserDeadlineManager.remind now uid dl hl h)
    (UserDeadlineManagerIO.remind faults now uid dl hl h).
Proof.
  intros [[[bot sent] f] n].
  unfold UserDeadlineManagerIO.remind, UserDeadlineManager.remind, in_memory.
  cbn [fst snd]. destruct (in_window h hl); [|split; [done|now exists []]].
  destruct (sent !! _); [split; [done|now exists []]|].
  destruct (send_message bot uid _) as [b ok].
  destruct (save_json _ _ _); (split; [done|exists []; now rewrite app_nil_r]).
Qed.

Lemma personal_check_user_follows faults now item :
  follows in_memory (UserDeadlineManager.check_user now item)
    (UserDeadlineManagerIO.check_user faults now item).
Proof.
  unfold UserDeadlineManagerIO.check_user, UserDeadlineManager.check_user.
  apply for_each_raising_follows. intros dl.
  unfold UserDeadlineManagerIO.check_deadline, UserDeadlineManager.check_deadline.
  destruct (Py.strptime (deadline dl)).
  - apply for_each_raising_follows. intros h. apply personal_remind_follows.
  - intros s. split; [done|now exists []].
Qed.

(** What a check does in memory and to the transport is what the check
    without files does, up to the point where a [mkdir] fails: the events
    are the first events of the check without files, and all of them, with
    the same memory and transport, when the check returns. *)
Lemma check_deadlines_follows faults um now (bot : Bot) self :
  let r := GlobalDeadlineManagerIO.check_deadlines faults um now bot self in
  let p := GlobalDeadlineManager.check_deadlines um now bot
             (GlobalDeadlineManagerIO.memory self) in
  (r.2 = true -> (r.1.1.1, GlobalDeadlineManagerIO.memory r.1.1.2, r.1.2) = p)
  /\ exists rest, p.2 = r.1.2 ++ rest.
Proof.
  unfold GlobalDeadlineManagerIO.check_deadlines, GlobalDeadlineManager.check_deadlines.
  destruct um as [us|]; [|split; [done|now exists []]].
  cbn [GlobalDeadlineManagerIO.memory
    GlobalDeadlineManager.deadlines GlobalDeadlineManager.sent_reminders].
  destruct (for_each_raising_follows in_memory (GlobalDeadlineManagerIO.deadlines self)
              (GlobalDeadlineManager.check_deadline us now)
              (GlobalDeadlineManagerIO.check_deadline faults us now)
              (shared_check_deadline_follows faults us now)
              (bot, GlobalDeadlineManagerIO.sent_reminders self,
               GlobalDeadlineManagerIO.reminders_file self, 0%nat)) as [Hret Hrest].
  unfold in_memory in Hret, Hrest. cbn [fst snd] in Hret, Hrest.
  destruct (for_each_raising _ (GlobalDeadlineManagerIO.check_deadline faults us now) _)
    as [[[[[b1 s1] f1] n1] e1] r1].
  destruct (for_each _ (GlobalDeadlineManager.check_deadline us now) _) as [[b2 s2] e2].
  cbn [fst snd] in *. split; [|exact Hrest].
  intros Hr. destruct (Hret Hr) as [[= -> ->] ->]. reflexivity.
Qed.

Lemma check_personal_follows faults now (bot : Bot) self :
  let r := UserDeadlineManagerIO.check_personal_deadlines faults now bot self in
  let p := UserDeadlineManager.check_personal_deadlines now bot
             (UserDeadlineManagerIO.memory self) in
  (r.2 = true -> (r.1.1.1, UserDeadlineManagerIO.memory r.1.1.2, r.1.2) = p)
  /\ exists rest, p.2 = r.1.2 ++ rest.
Proof.
  unfold UserDeadlineManagerIO.check_personal_deadlines,
    UserDeadlineManager.check_personal_deadlines.
  cbn [UserDeadlineManagerIO.memory
    UserDeadlineManager.deadlines UserDeadlineManager.sent_reminders].
  destruct (for_each_raising_follows in_memory (UserDeadlineManagerIO.deadlines self)
              (UserDeadlineManager.check_user now)
              (UserDeadlineManagerIO.check_user faults now)
              (personal_check_user_follows faults now)
              (bot, UserDeadlineManagerIO.sent_reminders self,
               UserDeadlineManagerIO.reminders_file self, 0%nat)) as [Hret Hrest].
  unfold in_memory in Hret, Hrest. cbn [fst snd] in Hret, Hrest.
  destruct (for_each_raising _ (UserDeadlineManagerIO.check_user faults now) _)
    as [[[[[b1 s1] f1] n1] e1] r1].
  destruct (for_each _ (UserDeadlineManager.check_user now) _) as [[b2 s2] e2].
  cbn [fst snd] in *. split; [|exact Hrest].
  intros Hr. destruct (Hret Hr) as [[= -> ->] ->]. reflexivity.
Qed.
End Files.

Section Sync.
Context {Bot : Type} `{!Transport Bot}.
Import Database.
Implicit Types (s : Bot * ledger * file ledger * nat).

(** A relation between the ledger and its file that every write of a
    check keeps, without raising, is kept by the loops, which return. *)
Variable P : ledger -> file ledger -> Prop.
Variable faults : nat -> write_outcome.
Hypothesis write_keeps : forall n sent f k stamp,
  P sent f ->
  exists f', save_json (faults n) f (<[k := stamp]> sent) = Some f'
    /\ P (<[k := stamp]> sent) f'.

Lemma shared_loop_files us now (l : list Deadline) s :
  P s.1.1.2 s.1.2 ->
  let r := for_each_raising l (GlobalDeadlineManagerIO.check_deadline faults us now) s in
  r.2 = true /\ P r.1.1.1.1.2 r.1.1.1.2.
Proof.
  apply (for_each_raising_returns (fun s => P s.1.1.2 s.1.2)). clear s. intros dl s.
  unfold GlobalDeadlineManagerIO.check_deadline.
  destruct (Py.strptime (deadline dl)); [|done].
  apply (for_each_raising_returns (fun s => P s.1.1.2 s.1.2)). clear s.
  intros h [[[bot sent] f] n]. unfold GlobalDeadlineManagerIO.remind. cbn [fst snd].
  intros HP. destruct (in_window h _); [|done]. destruct (sent !! _); [done|].
  destruct (for_each us _ bot) as [b e].
  destruct (write_keeps n sent f (GlobalDeadlineManager.reminder_key dl h)
              (Py.strftime now) HP) as (f' & -> & HP').
  done.
Qed.

Lemma personal_loop_files now (d : Py.dict (list Deadline)) s :
  P s.1.1.2 s.1.2 ->
  let r := for_each_raising d (UserDeadlineManagerIO.check_user faults now) s in
  r.2 = true /\ P r.1.1.1.1.2 r.1.1.1.2.
Proof.
  apply (for_each_raising_returns (fun s => P s.1.1.2 s.1.2)). clear s. intros [uid arr] s.
  unfold UserDeadlineManagerIO.check_user. cbn [fst snd].
  apply (for_each_raising_returns (fun s => P s.1.1.2 s.1.2)). clear s. intros dl s.
  unfold UserDeadlineManagerIO.check_deadline.
  destruct (Py.strptime (deadline dl)); [|done].
  apply (for_each_raising_returns (fun s => P s.1.1.2 s.1.2)). clear s.
  intros h [[[bot sent] f] n]. unfold UserDeadlineManagerIO.remind. cbn [fst snd].
  intros HP. destruct (in_window h _); [|done]. destruct (sent !! _); [done|].
  destruct (send_message bot uid _) as [b ok].
  destruct (write_keeps n sent f (UserDeadlineManager.r_key uid dl h)
              (Py.strftime now) HP) as (f' & -> & HP').
  done.
Qed.

Lemma check_deadlines_files um now (bot : Bot) self :
  let r := GlobalDeadlineManagerIO.check_deadlines faults um now bot self in
  P (GlobalDeadlineManagerIO.sent_reminders self)
    (GlobalDeadlineManagerIO.reminders_file self) ->
  r.2 = true
  /\ P (GlobalDeadlineManagerIO.sent_reminders r.1.1.2)
       (GlobalDeadlineManagerIO.reminders_file r.1.1.2)
  /\ GlobalDeadlineManagerIO.deadlines r.1.1.2 = GlobalDeadlineManagerIO.deadlines self
  /\ GlobalDeadlineManagerIO.deadlines_file r.1.1.2
     = GlobalDeadlineManagerIO.deadlines_file self.
Proof.
  intros r. subst r. unfold GlobalDeadlineManagerIO.check_deadlines.
  destruct um as [us|]; [|done]. intros HP.
  pose proof (shared_loop_files us now (GlobalDeadlineManagerIO.deadlines self)
                (bot, GlobalDeadlineManagerIO.sent_reminders self,
                 GlobalDeadlineManagerIO.reminders_file self, 0%nat) HP) as H.
  cbn zeta in H. now destruct (for_each_raising _ _ _) as [[[[[b1 s1] f1] n1] e1] r1].
Qed.

Lemma check_personal_files now (bot : Bot) self :
  let r := UserDeadlineManagerIO.check_personal_deadlines faults now bot self in
  P (UserDeadlineManagerIO.sent_reminders self)
    (UserDeadlineManagerIO.reminders_file self) ->
  r.2 = true
  /\ P (UserDeadlineManagerIO.sent_reminders r.1.1.2)
       (UserDeadlineManagerIO.reminders_file r.1.1.2)
  /\ UserDeadlineManagerIO.deadlines r.1.1.2 = UserDeadlineManagerIO.deadlines self
  /\ UserDeadlineManagerIO.deadlines_file r.1.1.2
     = UserDeadlineManagerIO.deadlines_file self.
Proof.
  intros r. subst r. unfold UserDeadlineManagerIO.check_personal_deadlines.
  intros HP.
  pose proof (personal_loop_files now (UserDeadlineManagerIO.deadlines self)
                (bot, UserDeadlineManagerIO.sent_reminders self,
                 UserDeadlineManagerIO.reminders_file self, 0%nat) HP) as H.
  cbn zeta in H. now destruct (for_each_raising _ _ _) as [[[[[b1 s1] f1] n1] e1] r1].
Qed.
End Sync.

Section Steps.
Context {Bot : Type} `{!Transport Bot}.
Import Database.

Lemma no_mkdir_failure_keeps (faults : nat -> write_outcome) :
  (forall n, faults n <> MkdirFailed) ->
  forall (n : nat) (sent : ledger) (f : file ledger) (k stamp : string),
    True ->
    exists f', save_json (faults n) f (<[k := stamp]> sent) = Some f' /\ True.
Proof.
  intros Hf n sent f k stamp _. specialize (Hf n).
  destruct (faults n); [done|eauto..].
Qed.

(** A check whose writes meet no failing [mkdir] returns, and acts on the
    memory and the transport as the check without files. *)
Lemma check_deadlines_sim faults um now (bot : Bot) self :
  (forall n, faults n <> MkdirFailed) ->
  let r := GlobalDeadlineManagerIO.check_deadlines faults um now bot self in
  r.2 = true
  /\ (r.1.1.1, GlobalDeadlineManagerIO.memory r.1.1.2, r.1.2)
     = GlobalDeadlineManager.check_deadlines um now bot (GlobalDeadlineManagerIO.memory self).
Proof.
  intros Hf r.
  destruct (check_deadlines_files (fun _ _ => True) faults
              (no_mkdir_failure_keeps faults Hf) um now bot self I) as [Hr _].
  split; [exact Hr|]. now apply (check_deadlines_follows faults um now bot self).
Qed.

Lemma check_personal_sim faults now (bot : Bot) self :
  (forall n, faults n <> MkdirFailed) ->
  let r := UserDeadlineManagerIO.check_personal_deadlines faults now bot self in
  r.2 = true
  /\ (r.1.1.1, UserDeadlineManagerIO.memory r.1.1.2, r.1.2)
     = UserDeadlineManager.check_personal_deadlines now bot
         (UserDeadlineManagerIO.memory self).
Proof.
  intros Hf r.
  destruct (check_personal_files (fun _ _ => True) faults
              (no_mkdir_failure_keeps faults Hf) now bot self I) as [Hr _].
  split; [exact Hr|]. now apply (check_personal_follows faults now bot self).
Qed.

(** One call acts on the memory as the call of the process without
    files. For the additions and removals this holds whatever becomes of
    the write; for the checks, when no [mkdir] fails. *)
Lemma step_sim c faults (bot : Bot) w :
  (forall n, faults n <> MkdirFailed) ->
  let r := StudentBotIO.step (StudentBotIO.Call c faults) (bot, w) in
  ((r.1.1, StudentBotIO.memory r.1.2), r.2)
  = StudentBot.step c (bot, StudentBotIO.memory w).
Proof.
  intros Hf. destruct w as [g u]. destruct c; cbn [StudentBotIO.step StudentBot.step
    StudentBotIO.memory StudentBotIO.global_manager StudentBotIO.user_manager_deadline
    StudentBot.global_manager StudentBot.user_manager_deadline].
  - unfold GlobalDeadlineManagerIO.add_deadline, GlobalDeadlineManager.add_deadline,
      GlobalDeadlineManagerIO.save_deadlines.
    cbn. destruct (Py.strptime date_str); [|done]. now destruct (save_json _ _ _).
  - unfold UserDeadlineManagerIO.add_deadline, UserDeadlineManager.add_deadline,
      UserDeadlineManagerIO.save_deadlines.
    cbn. destruct (Py.strptime date_str); [|done]. now destruct (save_json _ _ _).
  - unfold GlobalDeadlineManagerIO.remove_deadline, GlobalDeadlineManager.remove_deadline,
      GlobalDeadlineManagerIO.save_deadlines.
    cbn. destruct (_ && _); [|done]. now destruct (save_json _ _ _).
  - unfold UserDeadlineManagerIO.remove_deadline, UserDeadlineManager.remove_deadline,
      UserDeadlineManagerIO.save_deadlines.
    cbn. destruct (_ && _); [|done]. now destruct (save_json _ _ _).
  - destruct (check_deadlines_sim faults user_manager now bot g Hf) as [_ H].
    destruct (GlobalDeadlineManagerIO.check_deadlines _ _ _ _ _) as [[[b1 g1] e1] r1].
    cbn [fst snd] in H. rewrite <- H. reflexivity.
  - destruct (check_personal_sim faults now bot u Hf) as [_ H].
    destruct (UserDeadlineManagerIO.check_personal_deadlines _ _ _ _) as [[[b1 u1] e1] r1].
    cbn [fst snd] in H. rewrite <- H. reflexivity.
Qed.
End Steps.

Section Restarts.
Context {Bot : Type} `{!Transport Bot}.
Import Database.

(** The memory of a process agrees with its files when a restart would
    change nothing. *)
Lemma restart_fixed (w : StudentBotIO.t) :
  StudentBotIO.restart w = w <->
  load_json (GlobalDeadlineManagerIO.deadlines_file (StudentBotIO.global_manager w)) []
    = GlobalDeadlineManagerIO.deadlines (StudentBotIO.global_manager w)
  /\ load_json (GlobalDeadlineManagerIO.reminders_file (StudentBotIO.global_manager w)) ∅
     = GlobalDeadlineManagerIO.sent_reminders (StudentBotIO.global_manager w)
  /\ load_json (UserDeadlineManagerIO.deadlines_file (StudentBotIO.user_manager_deadline w)) []
     = UserDeadlineManagerIO.deadlines (StudentBotIO.user_manager_deadline w)
  /\ load_json (UserDeadlineManagerIO.reminders_file (StudentBotIO.user_manager_deadline w)) ∅
     = UserDeadlineManagerIO.sent_reminders (StudentBotIO.user_manager_deadline w).
Proof.
  destruct w as [[gd gr g s] [ud ur u t]].
  unfold StudentBotIO.restart, StudentBotIO.init, StudentBotIO.on_disk,
    GlobalDeadlineManagerIO.init, UserDeadlineManagerIO.init.
  cbn. split.
  - intros H. injection H as H1 H2 H3 H4. auto.
  - intros (H1 & H2 & H3 & H4). now rewrite H1, H2, H3, H4.
Qed.

Lemma written_keeps (faults : nat -> write_outcome) :
  (forall n, faults n = Written) ->
  forall (n : nat) (sent : ledger) (f : file ledger) (k stamp : string),
    load_json f ∅ = sent ->
    exists f', save_json (faults n) f (<[k := stamp]> sent) = Some f'
      /\ load_json f' ∅ = <[k := stamp]> sent.
Proof. intros Hf n sent f k stamp _. rewrite Hf. eauto. Qed.

Lemma not_opened_keeps (faults : nat -> write_outcome) (f0 : file ledger) :
  (forall n, faults n = NotOpened) ->
  forall (n : nat) (sent : ledger) (f : file ledger) (k stamp : string),
    f = f0 ->
    exists f', save_json (faults n) f (<[k := stamp]> sent) = Some f' /\ f' = f0.
Proof. intros Hf n sent f k stamp ->. rewrite Hf. eauto. Qed.

Lemma step_written c faults (bot : Bot) w :
  (forall n, faults n = Written) ->
  StudentBotIO.restart w = w ->
  let w' := (StudentBotIO.step (StudentBotIO.Call c faults) (bot, w)).1.2 in
  StudentBotIO.restart w' = w'.
Proof.
  intros Hf Hw w'. subst w'. apply restart_fixed in Hw as (Hgd & Hgr & Hud & Hur).
  apply restart_fixed. destruct w as [g u].
  cbn [StudentBotIO.global_manager StudentBotIO.user_manager_deadline] in *.
  destruct c; cbn [StudentBotIO.step].
  - unfold GlobalDeadlineManagerIO.add_deadline, GlobalDeadlineManagerIO.save_deadlines.
    rewrite Hf. destruct (Py.strptime date_str); cbn; auto.
  - unfold UserDeadlineManagerIO.add_deadline, UserDeadlineManagerIO.save_deadlines.
    rewrite Hf. destruct (Py.strptime date_str); cbn; auto.
  - unfold GlobalDeadlineManagerIO.remove_deadline, GlobalDeadlineManagerIO.save_deadlines.
    rewrite Hf. destruct (_ && _); cbn; auto.
  - unfold UserDeadlineManagerIO.remove_deadline, UserDeadlineManagerIO.save_deadlines.
    rewrite Hf. destruct (_ && _); cbn; auto.
  - destruct (check_deadlines_files (fun sent f => load_json f ∅ = sent) faults
                (written_keeps faults Hf) user_manager now bot g Hgr) as (_ & H1 & H2 & H3).
    destruct (GlobalDeadlineManagerIO.check_deadlines _ _ _ _ _) as [[[b1 g1] e1] r1].
    cbn in *. rewrite H3, H2. auto.
  - destruct (check_personal_files (fun sent f => load_json f ∅ = sent) faults
                (written_keeps faults Hf) now bot u Hur) as (_ & H1 & H2 & H3).
    destruct (UserDeadlineManagerIO.check_personal_deadlines _ _ _ _) as [[[b1 u1] e1] r1].
    cbn in *. rewrite H3, H2. auto.
Qed.

Lemma step_not_opened c faults (bot : Bot) w :
  (forall n, faults n = NotOpened) ->
  StudentBotIO.on_disk (StudentBotIO.step (StudentBotIO.Call c faults) (bot, w)).1.2
  = StudentBotIO.on_disk w.
Proof.
  intros Hf. destruct w as [g u]. destruct c; cbn [StudentBotIO.step].
  - unfold GlobalDeadlineManagerIO.add_deadline, GlobalDeadlineManagerIO.save_deadlines.
    rewrite Hf. now destruct (Py.strptime date_str).
  - unfold UserDeadlineManagerIO.add_deadline, UserDeadlineManagerIO.save_deadlines.
    rewrite Hf. now destruct (Py.strptime date_str).
  - unfold GlobalDeadlineManagerIO.remove_deadline, GlobalDeadlineManagerIO.save_deadlines.
    rewrite Hf. now destruct (_ && _).
  - unfold UserDeadlineManagerIO.remove_deadline, UserDeadlineManagerIO.save_deadlines.
    rewrite Hf. now destruct (_ && _).
  - destruct (check_deadlines_files
                (fun _ f => f = GlobalDeadlineManagerIO.reminders_file g) faults
                (not_opened_keeps faults _ Hf) user_manager now bot g eq_refl)
      as (_ & H1 & _ & H3).
    destruct (GlobalDeadlineManagerIO.check_deadlines _ _ _ _ _) as [[[b1 g1] e1] r1].
    unfold StudentBotIO.on_disk. cbn in *. now rewrite H1, H3.
  - destruct (check_personal_files
                (fun _ f => f = UserDeadlineManagerIO.reminders_file u) faults
                (not_opened_keeps faults _ Hf) now bot u eq_refl) as (_ & H1 & _ & H3).
    destruct (UserDeadlineManagerIO.check_personal_deadlines _ _ _ _) as [[[b1 u1] e1] r1].
    unfold StudentBotIO.on_disk. cbn in *. now rewrite H1, H3.
Qed.
End Restarts.

Section Histories.
Context {Bot : Type} `{!Transport Bot}.

Lemma on_disk_restart (w : StudentBotIO.t) :
  StudentBotIO.on_disk (StudentBotIO.restart w) = StudentBotIO.on_disk w.
Proof. now destruct w as [[] []]. Qed.

Lemma io_run_cons c calls (s : Bot * StudentBotIO.t) :
  StudentBotIO.run (c :: calls) s =
    ((StudentBotIO.run calls (StudentBotIO.step c s).1).1,
     (StudentBotIO.step c s).2 ++ (StudentBotIO.run calls (StudentBotIO.step c s).1).2).
Proof. apply for_each_cons. Qed.

Lemma run_cons c calls (s : Bot * StudentBot.t) :
  StudentBot.run (c :: calls) s =
    ((StudentBot.run calls (StudentBot.step c s).1).1,
     (StudentBot.step c s).2 ++ (StudentBot.run calls (StudentBot.step c s).1).2).
Proof. apply for_each_cons. Qed.

Lemma written_is_no_mkdir_failure (faults : nat -> Database.write_outcome) :
  (forall n, faults n = Database.Written) -> forall n, faults n <> Database.MkdirFailed.
Proof. intros Hf n. now rewrite Hf. Qed.
End Histories.

Section FirstWrite.
Context {Bot : Type} `{!Transport Bot}.
Import Database.





End FirstWrite.

(** While the directory of the files can be made, failing writes do not
    show in the running process: whatever the files hold and however each
    write ends inside the [try] block, a history of calls sends the same
    messages with the same outcomes and leaves the same deadlines and
    ledgers in memory as the managers without files. *)
Theorem write_faults_are_invisible {Bot : Type} (T : Transport Bot)
    (calls : list (StudentBot.call * (nat -> Database.write_outcome)))
    (bot : Bot) (w : StudentBotIO.t) :
  Forall (fun cf => forall n, cf.2 n <> Database.MkdirFailed) calls ->
  let r := StudentBotIO.run (map (fun cf => StudentBotIO.Call cf.1 cf.2) calls) (bot, w) in
  ((r.1.1, StudentBotIO.memory r.1.2), r.2)
  = StudentBot.run (map fst calls) (bot, StudentBotIO.memory w).
Proof.
  intros Hall. revert bot w.
  induction Hall as [|[c faults] calls Hc Hall IH]; intros bot w; [done|].
  cbn [map fst snd] in *. rewrite io_run_cons, run_cons.
  pose proof (step_sim c faults bot w Hc) as Hs. cbn zeta in Hs.
  destruct (StudentBotIO.step _ (bot, w)) as [[b1 w1] e1]. cbn [fst snd] in *.
  rewrite <- Hs. cbn [fst snd]. specialize (IH b1 w1). cbn zeta in IH.
  now rewrite <- IH.
Qed.

Lemma write_faults_are_invisible_witness :
  let calls :=
    [(StudentBot.AddPersonalDeadline Demo.eve_minus_1s "42" "Math" "HW1" "01.01.2030",
      not_opened);
     (StudentBot.CheckDeadlines (Some Demo.users) Demo.eve, torn);
     (StudentBot.CheckPersonalDeadlines Demo.eve, torn)] in
  let r := @StudentBotIO.run nat Demo.flaky
             (map (fun cf => StudentBotIO.Call cf.1 cf.2) calls)
             (0%nat, StudentBotIO.init files0) in
  (r.1.1, StudentBotIO.memory r.1.2, r.2)
  = @StudentBot.run nat Demo.flaky (map fst calls)
      (0%nat, StudentBotIO.memory (StudentBotIO.init files0))
  /\ StudentBotIO.on_disk r.1.2
     = StudentBotIO.mk_files (Database.Document [Demo.math; Demo.legacy; Demo.phys])
         Database.Unreadable Database.Unreadable Database.Unreadable.
Proof.
  intros calls r. split; [|reflexivity].
  apply (write_faults_are_invisible Demo.flaky calls 0%nat (StudentBotIO.init files0)).
  repeat constructor; intros n; cbn; discriminate.
Defined.



(** While every write succeeds a restart changes nothing: a history with
    restarts at any places sends the same messages and ends in the same
    memory as the history without them, and the files hold what the
    memory holds. The guarantees about reminders therefore span restarts. *)
Theorem restart_is_invisible {Bot : Type} (T : Transport Bot)
    (calls : list StudentBotIO.call) (bot : Bot) (w : StudentBotIO.t) :
  StudentBotIO.all_writes Database.Written calls ->
  StudentBotIO.restart w = w ->
  let r := StudentBotIO.run calls (bot, w) in
  ((r.1.1, StudentBotIO.memory r.1.2), r.2)
  = StudentBot.run (StudentBotIO.calls_of calls) (bot, StudentBotIO.memory w)
  /\ StudentBotIO.restart r.1.2 = r.1.2.
Proof.
  intros Hall. revert bot w.
  induction Hall as [|c calls Hc Hall IH]; intros bot w Hw; [done|].
  cbn zeta. rewrite io_run_cons. destruct c as [c faults|].
  - cbn [StudentBotIO.calls_of omap list_omap]. fold (StudentBotIO.calls_of calls).
    rewrite run_cons.
    pose proof (step_sim c faults bot w (written_is_no_mkdir_failure faults Hc)) as Hs.
    cbn zeta in Hs.
    pose proof (step_written c faults bot w Hc Hw) as Hw1. cbn zeta in Hw1.
    destruct (StudentBotIO.step _ (bot, w)) as [[b1 w1] e1]. cbn [fst snd] in *.
    rewrite <- Hs. cbn [fst snd]. destruct (IH b1 w1 Hw1) as [IH1 IH2].
    split; [now rewrite <- IH1|done].
  - cbn [StudentBotIO.calls_of omap list_omap StudentBotIO.step fst snd].
    fold (StudentBotIO.calls_of calls). rewrite Hw. apply (IH bot w Hw).
Qed.

Lemma restart_is_invisible_witness :
  let r := @StudentBotIO.run nat Demo.flaky (history written)
             (0%nat, StudentBotIO.init files0) in
  r.2 = (@StudentBot.run nat Demo.flaky (StudentBotIO.calls_of (history written))
           (0%nat, StudentBotIO.memory (StudentBotIO.init files0))).2
  /\ StudentBotIO.restart r.1.2 = r.1.2.
Proof.
  intros r.
  destruct (restart_is_invisible Demo.flaky (history written) 0%nat
              (StudentBotIO.init files0)) as [H1 H2].
  - repeat constructor.
  - reflexivity.
  - split; [|exact H2]. fold r in H1. now rewrite <- H1.
Defined.

(** While no file can be opened for writing the files stay as they are,
    whatever is called: a restart then brings back the memory the files
    stood for, without the deadlines added since and without the ledger
    entries of the reminders sent since. *)
Theorem unwritable_files_forget {Bot : Type} (T : Transport Bot)
    (calls : list StudentBotIO.call) (bot : Bot) (w : StudentBotIO.t) :
  StudentBotIO.all_writes Database.NotOpened calls ->
  let r := StudentBotIO.run calls (bot, w) in
  StudentBotIO.on_disk r.1.2 = StudentBotIO.on_disk w
  /\ StudentBotIO.restart r.1.2 = StudentBotIO.restart w.
Proof.
  intros Hall r.
  assert (H : StudentBotIO.on_disk r.1.2 = StudentBotIO.on_disk w).
  { subst r. revert bot w.
    induction Hall as [|c calls Hc Hall IH]; intros bot w; [done|].
    rewrite io_run_cons. cbn [fst snd]. destruct c as [c faults|].
    - pose proof (step_not_opened c faults bot w Hc) as Hs.
      destruct (StudentBotIO.step _ (bot, w)) as [[b1 w1] e1]. cbn [fst snd] in *.
      now rewrite IH.
    - cbn [StudentBotIO.step fst snd]. now rewrite IH, on_disk_restart. }
  split; [exact H|]. unfold StudentBotIO.restart. now rewrite H.
Qed.

Lemma unwritable_files_forget_witness :
  let r := @StudentBotIO.run nat Demo.flaky (history not_opened)
             (0%nat, StudentBotIO.init files0) in
  length (filter (is_mark Shared "Math_01.01.2030_24") r.2) = 2%nat
  /\ StudentBotIO.restart r.1.2 = StudentBotIO.init files0.
Proof.
  intros r. split; [vm_compute; reflexivity|].
  destruct (unwritable_files_forget Demo.flaky (history not_opened) 0%nat
              (StudentBotIO.init files0)) as [_ H].
  - repeat constructor.
  - exact H.
Defined.

(** ** The weekly actions *)

Lemma isoformat_not_empty (t : Py.datetime) : String.eqb (isoformat t) "" = false.
Proof.
  apply String.eqb_neq. intros H. apply (f_equal String.length) in H.
  unfold isoformat in H. rewrite !string_length_app in H.
  change (String.length "-") with 1%nat in H. change (String.length "") with 0%nat in H.
  lia.
Qed.

Section Actions.
Variable fromisoformat : string -> option Py.datetime.
Implicit Types (am : ActionManager.t) (o : Database.write_outcome).

(** The entry [can_perform_action] reads. *)
Lemma can_perform_action_reads now u a am am' :
  default ∅ (ActionManager.user_actions am' !! u) !! a
  = default ∅ (ActionManager.user_actions am !! u) !! a ->
  ActionManager.can_perform_action fromisoformat now u a am'
  = ActionManager.can_perform_action fromisoformat now u a am.
Proof. unfold ActionManager.can_perform_action. now intros ->. Qed.

(** The record after [update_action_time], whatever becomes of the write. *)
Lemma update_action_time_memory o t0 u a am :
  ActionManager.user_actions (ActionManager.update_action_time o t0 u a am).1
  = let ua1 :=
      match ActionManager.user_actions am !! u with
      | None => <[u := ∅]> (ActionManager.user_actions am)
      | Some _ => ActionManager.user_actions am
      end in
    <[u := <[a := isoformat t0]> (default ∅ (ua1 !! u))]> ua1.
Proof. unfold ActionManager.update_action_time. now destruct (Database.save_json _ _ _). Qed.

Lemma update_action_time_same o t0 u a am :
  default ∅ (ActionManager.user_actions
               (ActionManager.update_action_time o t0 u a am).1 !! u) !! a
  = Some (isoformat t0).
Proof.
  rewrite update_action_time_memory. cbn zeta.
  rewrite lookup_insert_eq. cbn. apply lookup_insert_eq.
Qed.

Lemma update_action_time_other o t0 u a u' a' am :
  (u', a') <> (u, a) ->
  default ∅ (ActionManager.user_actions
               (ActionManager.update_action_time o t0 u a am).1 !! u') !! a'
  = default ∅ (ActionManager.user_actions am !! u') !! a'.
Proof.
  intros Hne. rewrite update_action_time_memory. cbn zeta.
  destruct (decide (u' = u)) as [->|Hu].
  - rewrite lookup_insert_eq. cbn.
    assert (Ha : a <> a') by (intros ->; now apply Hne).
    rewrite lookup_insert_ne by done.
    destruct (ActionManager.user_actions am !! u) eqn:E; [now rewrite E|].
    now rewrite lookup_insert_eq.
  - rewrite lookup_insert_ne by done.
    destruct (ActionManager.user_actions am !! u) eqn:E; [done|].
    now rewrite lookup_insert_ne.
Qed.

Lemma can_perform_action_after o t0 now u a am :
  fromisoformat (isoformat t0) = Some t0 ->
  ActionManager.can_perform_action fromisoformat now u a
    (ActionManager.update_action_time o t0 u a am).1
  = Some (negb (Py.datetime_sub now t0 <? ActionManager.week)).
Proof.
  intros Hiso. unfold ActionManager.can_perform_action.
  rewrite update_action_time_same, isoformat_not_empty, Hiso.
  now destruct (_ <? _).
Qed.
End Actions.

Section CallAction.
Context {Bot : Type} `{!Transport Bot}.
Variable fromisoformat : string -> option Py.datetime.

Lemma broadcast_sends (user_id text : string) (user_ids : list string) (bot : Bot) :
  exists oks, length oks = length (filter (fun uid => uid <> user_id) user_ids)
    /\ (CommandHandlers.broadcast user_id text user_ids bot).2
       = zip_with (fun uid ok => Sent uid text ok)
           (filter (fun uid => uid <> user_id) user_ids) oks.
Proof.
  revert bot. induction user_ids as [|uid rest IH]; intros bot; [now exists []|].
  cbn [CommandHandlers.broadcast]. destruct (String.eqb_spec uid user_id) as [->|Hne].
  - rewrite filter_cons_False by (intros Hn; now apply Hn). apply IH.
  - rewrite filter_cons_True by done.
    destruct (send_message bot uid text) as [bot1 ok].
    destruct (IH bot1) as (oks & Hlen & Hout).
    destruct (CommandHandlers.broadcast user_id text rest bot1) as [bot2 out].
    cbn [snd] in *. exists (ok :: oks). cbn. now rewrite Hlen, Hout.
Qed.
End CallAction.

(** A call that is allowed writes the invitation to every registered user
    but the caller, once each and whatever becomes of the sends before,
    then records the time for this user and action, and confirms. The
    time is recorded also when no send succeeded. When the [mkdir] of the
    write fails, the time is recorded in memory all the same and the
    handler raises without confirming. Nobody else's allowance, and no
    other action of the caller, is affected. *)
Theorem call_action_broadcast {Bot : Type} (T : Transport Bot)
    (fromisoformat : string -> option Py.datetime) (o : Database.write_outcome)
    (now stamp : Py.datetime) (update : Update.t) (action_type : string)
    (user_ids : list string) (bot : Bot) (am : ActionManager.t) :
  let user_id := Update.effective_user_id update in
  let text := Update.first_name update +:+ " предлагает "
              +:+ CommandHandlers.mapping_desc action_type +:+ "! Кто присоединится?" in
  let others := filter (fun uid => uid <> user_id) user_ids in
  let r := CommandHandlers._call_action fromisoformat o now stamp update action_type
             user_ids bot am in
  ActionManager.can_perform_action fromisoformat now user_id action_type am = Some true ->
  (exists oks, length oks = length others
     /\ match o with
        | Database.MkdirFailed =>
            r.1.2 = zip_with (fun uid ok => Sent uid text ok) others oks /\ r.2 = false
        | _ =>
            exists ok,
              r.1.2 = zip_with (fun uid ok => Sent uid text ok) others oks
                      ++ [Sent (Update.chat_id update) "✅ Сообщение отправлено всем!" ok]
              /\ r.2 = ok
        end)
  /\ default ∅ (ActionManager.user_actions r.1.1.2 !! user_id) !! action_type
     = Some (isoformat stamp)
  /\ (forall u' a' now', (u', a') <> (user_id, action_type) ->
        ActionManager.can_perform_action fromisoformat now' u' a' r.1.1.2
        = ActionManager.can_perform_action fromisoformat now' u' a' am).
Proof.
  intros user_id text others r Hcan.
  assert (Ham : r.1.1.2
                = (ActionManager.update_action_time o stamp user_id action_type am).1).
  { subst r. unfold CommandHandlers._call_action. fold user_id. rewrite Hcan.
    destruct (CommandHandlers.broadcast _ _ _ _) as [bot1 out1].
    destruct (ActionManager.update_action_time _ _ _ _ _) as [am' [|]]; [|done].
    unfold CommandHandlers.reply_text. now destruct (send_message bot1 _ _). }
  split; [|rewrite Ham; split; [apply update_action_time_same|]].
  - subst r. unfold CommandHandlers._call_action. fold user_id. rewrite Hcan. fold text.
    destruct (broadcast_sends user_id text user_ids bot) as (oks & Hlen & Hout).
    destruct (CommandHandlers.broadcast user_id text user_ids bot) as [bot1 out1].
    cbn [snd] in Hout. subst out1. exists oks. split; [exact Hlen|].
    unfold ActionManager.update_action_time, CommandHandlers.reply_text.
    destruct o; cbn [Database.save_json]; [done|..];
      destruct (send_message bot1 _ _) as [bot2 ok]; cbn [fst snd]; now exists ok.
  - intros u' a' now' Hne. now apply can_perform_action_reads, update_action_time_other.
Qed.

Lemma call_action_broadcast_witness :
  (@CommandHandlers._call_action nat Demo.down (reads []) Database.Interrupted
     Demo.eve Demo.eve_10s ann "beer" Demo.users 0%nat actions0).1.2
  = [Sent "7" "Ann предлагает пойти пить пиво! Кто присоединится?" false;
     Sent "99" "Ann предлагает пойти пить пиво! Кто присоединится?" false;
     Sent "42" "✅ Сообщение отправлено всем!" false]
  /\ default ∅ (ActionManager.user_actions
       (@CommandHandlers._call_action nat Demo.down (reads []) Database.Interrupted
          Demo.eve Demo.eve_10s ann "beer" Demo.users 0%nat actions0).1.1.2 !! "42")
     !! "beer" = Some "2029-12-31T00:00:10"
  /\ (@CommandHandlers._call_action nat Demo.flaky (reads []) Database.MkdirFailed
        Demo.eve Demo.eve_10s ann "beer" Demo.users 0%nat actions0).1.2
     = [Sent "7" "Ann предлагает пойти пить пиво! Кто присоединится?" true;
        Sent "99" "Ann предлагает пойти пить пиво! Кто присоединится?" false]
  /\ default ∅ (ActionManager.user_actions
       (@CommandHandlers._call_action nat Demo.flaky (reads []) Database.MkdirFailed
          Demo.eve Demo.eve_10s ann "beer" Demo.users 0%nat actions0).1.1.2 !! "42")
     !! "beer" = Some "2029-12-31T00:00:10".
Proof.
  destruct (call_action_broadcast Demo.down (reads []) Database.Interrupted
              Demo.eve Demo.eve_10s ann "beer" Demo.users 0%nat actions0 eq_refl)
    as (_ & H & _).
  destruct (call_action_broadcast Demo.flaky (reads []) Database.MkdirFailed
              Demo.eve Demo.eve_10s ann "beer" Demo.users 0%nat actions0 eq_refl)
    as (_ & H' & _).
  split; [reflexivity|]. split; [exact H|]. split; [reflexivity|exact H'].
Defined.

(** After an allowed call whose time was recorded as [t0], a call of the
    same user for the same action is refused as long as less than seven
    days have passed since [t0]: the handler writes the refusal to the
    caller, nothing to anybody else, and leaves the recorded time as it
    is. From seven days on, to the microsecond, the action is allowed
    again. [fromisoformat] has to read back what [isoformat] wrote. *)
Theorem call_action_once_a_week {Bot : Type} (T : Transport Bot)
    (fromisoformat : string -> option Py.datetime) (o : Database.write_outcome)
    (now0 t0 : Py.datetime) (update : Update.t) (action_type : string)
    (user_ids : list string) (bot : Bot) (am : ActionManager.t) :
  let user_id := Update.effective_user_id update in
  let am1 := (CommandHandlers._call_action fromisoformat o now0 t0 update action_type
                user_ids bot am).1.1.2 in
  ActionManager.can_perform_action fromisoformat now0 user_id action_type am = Some true ->
  fromisoformat (isoformat t0) = Some t0 ->
  forall (o' : Database.write_outcome) (now stamp : Py.datetime) (update' : Update.t)
         (user_ids' : list string) (bot' : Bot),
    Update.effective_user_id update' = user_id ->
    let r := CommandHandlers._call_action fromisoformat o' now stamp update' action_type
               user_ids' bot' am1 in
    (Py.datetime_sub now t0 < ActionManager.week ->
       r.1.1.2 = am1
       /\ exists ok, r.1.2 = [Sent (Update.chat_id update')
                                "❗ Нельзя так часто, подождите неделю." ok])
    /\ (ActionManager.week <= Py.datetime_sub now t0 ->
          ActionManager.can_perform_action fromisoformat now user_id action_type am1
          = Some true).
Proof.
  intros user_id am1 Hcan Hiso o' now stamp update' user_ids' bot' Hsame r.
  assert (Ham1 : am1 = (ActionManager.update_action_time o t0 user_id action_type am).1).
  { subst am1. unfold CommandHandlers._call_action. fold user_id. rewrite Hcan.
    destruct (CommandHandlers.broadcast _ _ _ _) as [bot1 out1].
    destruct (ActionManager.update_action_time _ _ _ _ _) as [am' [|]]; [|done].
    unfold CommandHandlers.reply_text. now destruct (send_message bot1 _ _). }
  assert (Hnext : ActionManager.can_perform_action fromisoformat now user_id action_type am1
                  = Some (negb (Py.datetime_sub now t0 <? ActionManager.week)))
    by (rewrite Ham1; now apply can_perform_action_after).
  split.
  - intros Hlt. subst r. unfold CommandHandlers._call_action.
    rewrite Hsame, Hnext, (proj2 (Z.ltb_lt _ _) Hlt). cbn [negb].
    unfold CommandHandlers.reply_text. destruct (send_message bot' _ _) as [b ok].
    cbn [fst snd]. eauto.
  - intros Hge. rewrite Hnext, (proj2 (Z.ltb_ge _ _) Hge). reflexivity.
Qed.

Lemma call_action_once_a_week_witness :
  let am1 := (@CommandHandlers._call_action nat Demo.flaky (reads [Demo.eve_10s])
                Database.Written Demo.eve Demo.eve_10s ann "beer" Demo.users 0%nat
                actions0).1.1.2 in
  (@CommandHandlers._call_action nat Demo.flaky (reads [Demo.eve_10s]) Database.Written
     (Py.mk_datetime 2030 1 7 0 0 9 999999) (Py.mk_datetime 2030 1 7 0 0 10 0)
     ann "beer" Demo.users 5%nat am1).1.1.2 = am1
  /\ ActionManager.can_perform_action (reads [Demo.eve_10s])
       (Py.mk_datetime 2030 1 7 0 0 10 0) "42" "beer" am1 = Some true.
Proof.
  intros am1.
  pose proof (call_action_once_a_week Demo.flaky (reads [Demo.eve_10s]) Database.Written
                Demo.eve Demo.eve_10s ann "beer" Demo.users 0%nat actions0
                eq_refl eq_refl) as H.
  split.
  - destruct (H Database.Written (Py.mk_datetime 2030 1 7 0 0 9 999999)
                (Py.mk_datetime 2030 1 7 0 0 10 0) ann Demo.users 5%nat eq_refl)
      as [[Hsame _] _]; [reflexivity|exact Hsame].
  - destruct (H Database.Written (Py.mk_datetime 2030 1 7 0 0 10 0)
                (Py.mk_datetime 2030 1 7 0 0 10 0) ann Demo.users 5%nat eq_refl)
      as [_ Hagain]. apply Hagain. vm_compute. discriminate.
Defined.

(** ** Who receives the shared reminders *)

Lemma attempts_to_user sc k text (u : string) (us : list string) (oks : list bool) :
  length oks = length us -> NoDup us -> u ∈ us ->
  length (filter (written_to u) (attempts sc k text us oks)) = 1%nat.
Proof.
  unfold attempts. revert oks. induction us as [|v us IH]; intros [|ok oks] Hlen Hnd Hin;
    try discriminate; [now apply elem_of_nil in Hin|].
  apply NoDup_cons in Hnd as [Hv Hnd]. injection Hlen as Hlen. cbn [zip_with].
  apply elem_of_cons in Hin as [->|Hin].
  - rewrite filter_cons_True by reflexivity. cbn [length]. f_equal.
    assert (Hnone : forall oks', filter (written_to v)
                      (zip_with (fun u ok => Attempt sc k u text ok) us oks') = []).
    { clear -Hv. induction us as [|w us IH]; intros [|ok' oks']; try done.
      apply not_elem_of_cons in Hv as [Hw Hv]. cbn [zip_with].
      rewrite filter_cons_False by (cbn; congruence). now apply IH. }
    now rewrite Hnone.
  - rewrite filter_cons_False; [now apply IH|].
    cbn. intros ->. now apply Hv.
Qed.

Lemma attempts_recipients sc k text (us : list string) (oks : list bool) e :
  e ∈ attempts sc k text us oks ->
  exists u ok, u ∈ us /\ e = Attempt sc k u text ok.
Proof.
  unfold attempts. revert oks.
  induction us as [|u us IH]; intros [|ok oks]; cbn [zip_with];
    try (intros H; now apply elem_of_nil in H).
  intros [->|H]%elem_of_cons.
  - exists u, ok. split; [left|done].
  - destruct (IH oks H) as (u' & ok' & Hu & ->). exists u', ok'. split; [now right|done].
Qed.

Section Recipients.
Context {Bot : Type} `{!Transport Bot}.

Lemma check_deadlines_recipients us now (bot : Bot) self :
  Forall (fun e => forall sc k uid text ok, e = Attempt sc k uid text ok -> uid ∈ us)
    (GlobalDeadlineManager.check_deadlines (Some us) now bot self).2.
Proof.
  rewrite check_deadlines_unfold. cbn [snd].
  apply for_each_events. intros dl [b sent] _.
  unfold GlobalDeadlineManager.check_deadline.
  destruct (Py.strptime (deadline dl)); [|constructor].
  apply for_each_events. intros h [b' sent'] _.
  unfold GlobalDeadlineManager.remind.
  destruct (in_window h _); [|constructor].
  destruct (sent' !! _); [constructor|].
  destruct (send_loop_events Shared (GlobalDeadlineManager.reminder_key dl h)
              (message "Глобальный дедлайн" dl h) us b') as (oks & _ & Hev).
  destruct (for_each us _ b') as [b3 e3]. cbn [snd] in *. subst e3.
  apply Forall_app. split.
  - apply Forall_forall. intros e He sc k uid text ok ->.
    apply attempts_recipients in He as (u & ok' & Hu & Heq). now injection Heq as _ _ -> _ _.
  - constructor; [discriminate|constructor].
Qed.

(** A reminder that is marked as sent was written to the whole audience. *)
Lemma marked_is_dispatched us now (bot : Bot) self k stamp :
  Marked Shared k stamp
    ∈ (GlobalDeadlineManager.check_deadlines (Some us) now bot self).2 ->
  dispatched Shared k us (Py.strftime now)
    (filter (about Shared k) (GlobalDeadlineManager.check_deadlines (Some us) now bot self).2).
Proof.
  intros Hin%mark_in_filter.
  pose proof (check_deadlines_tracks k (Some us) now bot self) as Ht.
  unfold tracks in Ht.
  destruct (GlobalDeadlineManager.sent_reminders self !! k).
  - destruct Ht as [_ He]. rewrite He in Hin. now apply elem_of_nil in Hin.
  - destruct Ht as [(_ & _ & He)|(us' & st & (Hus & -> & _) & _ & Hd)].
    + rewrite He in Hin. now apply elem_of_nil in Hin.
    + now injection Hus as <-.
Qed.
End Recipients.

(** The shared reminders go to exactly the users who have started the
    bot: after [/start] of a user, whatever becomes of the write and of
    the greeting, every shared reminder of a check is written to that
    user exactly once, and a check writes to nobody who has not started
    the bot. *)
Theorem shared_reminders_reach_the_registered {Bot : Type} (T : Transport Bot)
    (o : Database.write_outcome) (update : Update.t) (bot : Bot)
    (um : UserManager.t) (us : list string) (now : Py.datetime) (bot2 : Bot)
    (gdm : GlobalDeadlineManager.t) :
  let user_id := Update.effective_user_id update in
  let um' := (CommandHandlers.start o update bot um).1.1.2 in
  let evs := (GlobalDeadlineManager.check_deadlines (Some us) now bot2 gdm).2 in
  UserManager.iterates us um' ->
  (forall k stamp, Marked Shared k stamp ∈ evs ->
     length (filter (written_to user_id) (filter (about Shared k) evs)) = 1%nat)
  /\ (forall sc k uid text ok, Attempt sc k uid text ok ∈ evs ->
        uid = user_id \/ uid ∈ UserManager.get_users um).
Proof.
  intros user_id um' evs [Hnd Hus].
  assert (Hum : UserManager.get_users um' = UserManager.get_users um ∪ {[user_id]}).
  { subst um'. unfold CommandHandlers.start, CommandHandlers.reply_text,
      UserManager.add_user.
    destruct (Database.save_json _ _ _); [|done]. now destruct (send_message bot _ _). }
  split.
  - intros k stamp Hin. apply marked_is_dispatched in Hin as (text & oks & Hlen & He).
    fold evs in He. rewrite He, filter_app. cbn [filter list_filter].
    rewrite decide_False by (cbn; tauto). rewrite app_nil_r.
    apply attempts_to_user; [done..|]. apply Hus. rewrite Hum.
    apply elem_of_union. right. now apply elem_of_singleton.
  - intros sc k uid text ok Hin.
    pose proof (check_deadlines_recipients us now bot2 gdm) as Hall.
    rewrite Forall_forall in Hall.
    specialize (Hall _ Hin sc k uid text ok eq_refl).
    apply Hus in Hall. rewrite Hum in Hall.
    apply elem_of_union in Hall as [Hold|Hnew%elem_of_singleton]; auto.
Qed.

Lemma shared_reminders_reach_the_registered_witness :
  let evs := (@GlobalDeadlineManager.check_deadlines nat Demo.flaky
                (Some ["7"; "1000"; "42"; "99"]) Demo.eve 0%nat Demo.shared0).2 in
  length (filter (written_to "1000") (filter (about Shared "Phys_03.01.2030_72") evs))
  = 1%nat.
Proof.
  intros evs.
  destruct (shared_reminders_reach_the_registered Demo.flaky Database.NotOpened
              (Update.mk "1000" "Zed" "1000" "/start") 0%nat
              (UserManager.init (Database.Document (list_to_set Demo.users)))
              ["7"; "1000"; "42"; "99"] Demo.eve 0%nat Demo.shared0) as [H _].
  - split.
    + repeat (apply NoDup_cons_2;
                [rewrite ?elem_of_cons, elem_of_nil; intros Hin; decompose [or] Hin;
                 done|]).
      apply NoDup_nil_2.
    + intros uid. cbn. rewrite !elem_of_cons, elem_of_nil, !elem_of_union,
        !elem_of_singleton, elem_of_empty. tauto.
  - apply (H "Phys_03.01.2030_72" (Py.strftime Demo.eve)).
    apply list_elem_of_In. vm_compute. repeat (first [left; reflexivity|right]).
Defined.

(** ** From the commands to the reminders *)

Section Commands.
Context {Bot : Type} `{!Transport Bot}.

Lemma reply_text_out update text (bot : Bot) :
  exists ok, (CommandHandlers.reply_text update text bot).1.2
             = [Sent (Update.chat_id update) text ok]
    /\ (CommandHandlers.reply_text update text bot).2 = ok.
Proof.
  unfold CommandHandlers.reply_text. destruct (send_message bot _ _) as [b ok].
  now exists ok.
Qed.

End Commands.

Lemma key_owner (u u' r r' : string) :
  no_underscore u = true -> no_underscore u' = true ->
  u +:+ "_" +:+ r = u' +:+ "_" +:+ r' -> u = u'.
Proof.
  revert u'. induction u as [|c u IH]; intros [|c' u'] Hu Hu' H;
    rewrite ?string_app_cons, ?string_app_nil_l in H.
  - done.
  - injection H as <- _. cbn in Hu'. discriminate.
  - injection H as -> _. cbn in Hu. discriminate.
  - injection H as -> H. cbn in Hu, Hu'.
    apply andb_true_iff in Hu as [_ Hu]. apply andb_true_iff in Hu' as [_ Hu'].
    f_equal. now apply IH.
Qed.

Lemma elem_of_dict_set {V : Type} (k : string) (v : V) (d : Py.dict V) :
  (k, v) ∈ Py.dict_set k v d.
Proof.
  induction d as [|[k' v'] d IH]; cbn; [left|].
  destruct (String.eqb k k'); [left|now right].
Qed.

Lemma elem_of_dict_set_keys {V : Type} (k : string) (v : V) (d : Py.dict V) k' v' :
  (k', v') ∈ Py.dict_set k v d -> k' = k \/ (k', v') ∈ d.
Proof.
  induction d as [|[k0 v0] d IH]; cbn.
  - intros [H|H]%elem_of_cons; [injection H as -> _; now left|now apply elem_of_nil in H].
  - destruct (String.eqb k k0).
    + intros [H|H]%elem_of_cons; [injection H as -> _; now left|right; now right].
    + intros [H|H]%elem_of_cons; [right; rewrite H; left|].
      destruct (IH H) as [->|Hd]; [now left|right; now right].
Qed.

(** [/add_deadline subj task date] with a date [strptime] accepts: the
    deadline is stored last, the confirmation is written to the chat, and
    at every check that finds one of its thresholds due and the key not
    in the ledger the reminder for that key is written to every user and
    marked. With a date [strptime] rejects nothing is stored. Arguments
    after the third are ignored. *)
Theorem acknowledged_deadline_is_announced {Bot : Type} (T : Transport Bot)
    (now0 : Py.datetime) (args : list string) (update : Update.t) (bot : Bot)
    (gdm : GlobalDeadlineManager.t) (subj tsk dt : string) (rest : list string) :
  let r := CommandHandlers.add_deadline_cmd now0 args update bot gdm in
  let dl := mk_deadline subj tsk dt (Py.strftime now0) in
  args = subj :: tsk :: dt :: rest ->
  match Py.strptime dt with
  | Some _ =>
      (exists ok, r.1.2 = [Sent (Update.chat_id update)
                             ("Глобальный дедлайн: " +:+ subj +:+ "/" +:+ tsk +:+ "/" +:+ dt)
                             ok])
      /\ GlobalDeadlineManager.deadlines r.1.1.2 = GlobalDeadlineManager.deadlines gdm ++ [dl]
      /\ (forall us now (bot2 : Bot) h,
            due now dl h = true ->
            GlobalDeadlineManager.sent_reminders gdm
              !! GlobalDeadlineManager.reminder_key dl h = None ->
            dispatched Shared (GlobalDeadlineManager.reminder_key dl h) us (Py.strftime now)
              (filter (about Shared (GlobalDeadlineManager.reminder_key dl h))
                 (GlobalDeadlineManager.check_deadlines (Some us) now bot2 r.1.1.2).2))
  | None =>
      (exists ok, r.1.2 = [Sent (Update.chat_id update) "Ошибка даты" ok])
      /\ r.1.1.2 = gdm
  end.
Proof.
  intros r dl ->. subst r. unfold CommandHandlers.add_deadline_cmd.
  cbn [length Nat.ltb Nat.leb nth]. unfold GlobalDeadlineManager.add_deadline.
  destruct (Py.strptime dt) as [d|].
  - destruct (reply_text_out update
                ("Глобальный дедлайн: " +:+ subj +:+ "/" +:+ tsk +:+ "/" +:+ dt) bot)
      as (ok & Hout & _).
    destruct (CommandHandlers.reply_text update _ bot) as [[b out] fin].
    cbn [fst snd] in *. split; [now exists ok|]. split; [done|].
    intros us now bot2 h Hdue Hk. eapply proj1, stored_shared_is_dispatched; [|done..].
    cbn. apply elem_of_app. right. left.
  - destruct (reply_text_out update "Ошибка даты" bot) as (ok & Hout & _).
    destruct (CommandHandlers.reply_text update _ bot) as [[b out] fin].
    cbn [fst snd] in *. split; [now exists ok|done].
Qed.

Lemma acknowledged_deadline_is_announced_witness :
  let r := @CommandHandlers.add_deadline_cmd nat Demo.flaky Demo.eve_minus_1s
             ["Chem"; "Quiz"; "1.1.2030"; "room"; "12"] ann 0%nat Demo.shared0 in
  r.1.2 = [Sent "42" "Глобальный дедлайн: Chem/Quiz/1.1.2030" true]
  /\ dispatched Shared "Chem_1.1.2030_24" Demo.users "2029-12-31 00:00:00"
       (filter (about Shared "Chem_1.1.2030_24")
          (@GlobalDeadlineManager.check_deadlines nat Demo.flaky (Some Demo.users)
             Demo.eve 1%nat r.1.1.2).2).
Proof.
  intros r.
  pose proof (acknowledged_deadline_is_announced Demo.flaky Demo.eve_minus_1s
                ["Chem"; "Quiz"; "1.1.2030"; "room"; "12"] ann 0%nat Demo.shared0
                "Chem" "Quiz" "1.1.2030" ["room"; "12"] eq_refl) as H.
  change (Py.strptime "1.1.2030") with (Some (Py.mk_datetime 2030 1 1 0 0 0 0)) in H.
  destruct H as (_ & _ & H). split; [reflexivity|].
  apply (H Demo.users Demo.eve 1%nat 24); reflexivity.
Defined.

(** [/add_personal_deadline subj task date] with a date [strptime]
    accepts: the deadline is stored last in the list of the sender, and at
    every check that finds one of its thresholds due and the key not in
    the ledger exactly one message is written for that key, to the sender
    and to nobody else, and the key is marked. User ids are taken to be
    free of underscores, as decimal numbers are; a rejected date stores
    nothing. *)
Theorem personal_deadline_reaches_its_owner {Bot : Type} (T : Transport Bot)
    (now0 : Py.datetime) (args : list string) (update : Update.t) (bot : Bot)
    (udm : UserDeadlineManager.t) (subj tsk dt : string) (rest : list string) :
  let user_id := Update.effective_user_id update in
  let r := CommandHandlers.add_personal_deadline_cmd now0 args update bot udm in
  let dl := mk_deadline subj tsk dt (Py.strftime now0) in
  args = subj :: tsk :: dt :: rest ->
  no_underscore user_id = true ->
  Forall (fun item => no_underscore item.1 = true) (UserDeadlineManager.deadlines udm) ->
  match Py.strptime dt with
  | Some _ =>
      (exists ok, r.1.2 = [Sent (Update.chat_id update)
                             ("Личный дедлайн: " +:+ subj +:+ "/" +:+ tsk +:+ "/" +:+ dt)
                             ok])
      /\ UserDeadlineManager.get_user_deadlines user_id r.1.1.2
         = UserDeadlineManager.get_user_deadlines user_id udm ++ [dl]
      /\ (forall now (bot2 : Bot) h,
            due now dl h = true ->
            UserDeadlineManager.sent_reminders udm
              !! UserDeadlineManager.r_key user_id dl h = None ->
            exists text ok,
              filter (about Personal (UserDeadlineManager.r_key user_id dl h))
                (UserDeadlineManager.check_personal_deadlines now bot2 r.1.1.2).2
              = [Attempt Personal (UserDeadlineManager.r_key user_id dl h) user_id text ok;
                 Marked Personal (UserDeadlineManager.r_key user_id dl h) (Py.strftime now)])
  | None =>
      (exists ok, r.1.2 = [Sent (Update.chat_id update) "Ошибка даты?" ok])
      /\ r.1.1.2 = udm
  end.
Proof.
  intros user_id r dl -> Hme Hall. subst r.
  unfold CommandHandlers.add_personal_deadline_cmd.
  cbn [length Nat.ltb Nat.leb nth]. fold user_id.
  unfold UserDeadlineManager.add_deadline.
  destruct (Py.strptime dt) as [d|].
  - destruct (reply_text_out update
                ("Личный дедлайн: " +:+ subj +:+ "/" +:+ tsk +:+ "/" +:+ dt) bot)
      as (ok & Hout & _).
    destruct (CommandHandlers.reply_text update _ bot) as [[b out] fin].
    cbn [fst snd] in *. split; [now exists ok|].
    set (d0 := UserDeadlineManager.deadlines udm) in *.
    set (d1 := match Py.dict_get user_id d0 with
               | Some _ => d0
               | None => Py.dict_set user_id [] d0
               end).
    assert (Harr : default [] (Py.dict_get user_id d1) = default [] (Py.dict_get user_id d0)).
    { subst d1. destruct (Py.dict_get user_id d0) eqn:E; [now rewrite E|].
      now rewrite dict_get_set_eq. }
    assert (Hd1 : forall uid arr, (uid, arr) ∈ d1 -> no_underscore uid = true).
    { intros uid arr Hin. subst d1. rewrite Forall_forall in Hall.
      destruct (Py.dict_get user_id d0).
      - apply (Hall (uid, arr) Hin).
      - apply elem_of_dict_set_keys in Hin as [->|Hin]; [done|]. apply (Hall (uid, arr) Hin). }
    split.
    { unfold UserDeadlineManager.get_user_deadlines. cbn.
      now rewrite dict_get_set_eq, Harr. }
    intros now bot2 h Hdue Hk.
    set (k := UserDeadlineManager.r_key user_id dl h) in *.
    set (udm' := UserDeadlineManager.mk _ _).
    pose proof (check_personal_tracks k now bot2 udm') as Ht.
    unfold tracks in Ht. cbn [UserDeadlineManager.sent_reminders udm'] in Ht.
    rewrite Hk in Ht.
    destruct Ht as [(Hidle & _)|(us & st & (-> & uid & -> & Htr) & _ & Hd)].
    + destruct (Hidle user_id).
      exists (default [] (Py.dict_get user_id d1) ++ [dl]), dl, h.
      split; [apply elem_of_dict_set|]. split; [|done].
      apply elem_of_app. right. left.
    + destruct Htr as (arr & dl' & h' & Hin & _ & _ & Hkey).
      assert (Huid : uid = user_id).
      { cbn in Hin. apply elem_of_dict_set_keys in Hin as [->|Hin]; [done|].
        apply Hd1 in Hin. unfold k, UserDeadlineManager.r_key in Hkey.
        now apply key_owner in Hkey. }
      subst uid. destruct Hd as (text & oks & Hlen & ->).
      destruct oks as [|ok' [|? ?]]; try discriminate. now exists text, ok'.
  - destruct (reply_text_out update "Ошибка даты?" bot) as (ok & Hout & _).
    destruct (CommandHandlers.reply_text update _ bot) as [[b out] fin].
    cbn [fst snd] in *. split; [now exists ok|done].
Qed.

Lemma personal_deadline_reaches_its_owner_witness :
  let r := @CommandHandlers.add_personal_deadline_cmd nat Demo.flaky Demo.eve_minus_1s
             ["Chem"; "Quiz"; "1.1.2030"] ann 0%nat Demo.personal0 in
  exists text ok,
    filter (about Personal "42_Chem_1.1.2030_24")
      (@UserDeadlineManager.check_personal_deadlines nat Demo.flaky Demo.eve 1%nat r.1.1.2).2
    = [Attempt Personal "42_Chem_1.1.2030_24" "42" text ok;
       Marked Personal "42_Chem_1.1.2030_24" "2029-12-31 00:00:00"].
Proof.
  intros r.
  pose proof (personal_deadline_reaches_its_owner Demo.flaky Demo.eve_minus_1s
                ["Chem"; "Quiz"; "1.1.2030"] ann 0%nat Demo.personal0
                "Chem" "Quiz" "1.1.2030" [] eq_refl eq_refl) as H.
  change (Py.strptime "1.1.2030") with (Some (Py.mk_datetime 2030 1 1 0 0 0 0)) in H.
  destruct H as (_ & _ & H); [repeat constructor|].
  apply (H Demo.eve 1%nat 24); reflexivity.
Defined.

(** ** A week between two calls *)

Lemma datetime_sub_split (a b c : Py.datetime) :
  Py.datetime_sub a c = Py.datetime_sub a b + Py.datetime_sub b c.
Proof. unfold Py.datetime_sub. lia. Qed.

Section Week.
Context {Bot : Type} `{!Transport Bot}.
Variable fromisoformat : string -> option Py.datetime.

Lemma handle_press_manager p (bot : Bot) am :
  (handle_press fromisoformat p bot am).1.1.2
  = match ActionManager.can_perform_action fromisoformat (press_now p)
            (Update.effective_user_id (press_update p)) (press_action p) am with
    | Some true =>
        (ActionManager.update_action_time (press_outcome p) (press_stamp p)
           (Update.effective_user_id (press_update p)) (press_action p) am).1
    | _ => am
    end.
Proof.
  unfold handle_press, CommandHandlers._call_action, CommandHandlers.reply_text.
  destruct (ActionManager.can_perform_action _ _ _ _ _) as [[|]|]; [| |done].
  - destruct (CommandHandlers.broadcast _ _ _ _) as [b1 o1].
    destruct (ActionManager.update_action_time _ _ _ _ _) as [am' [|]]; [|done].
    now destruct (send_message b1 _ _).
  - now destruct (send_message bot _ _).
Qed.

Lemma presses_app ps qs (bot : Bot) am :
  (presses fromisoformat (ps ++ qs) bot am).1.2
  = (presses fromisoformat qs (presses fromisoformat ps bot am).1.1
       (presses fromisoformat ps bot am).1.2).1.2.
Proof.
  revert bot am. induction ps as [|p ps IH]; intros bot am; [done|].
  cbn [app presses]. destruct (handle_press fromisoformat p bot am) as [[[b1 am1] o1] f1].
  specialize (IH b1 am1).
  destruct (presses fromisoformat (ps ++ qs) b1 am1) as [[b2 am2] o2].
  destruct (presses fromisoformat ps b1 am1) as [[b3 am3] o3]. cbn [fst snd] in *.
  now destruct (presses fromisoformat qs b3 am3) as [[b4 am4] o4].
Qed.

Lemma presses_recorded_since u a t0 ps (bot : Bot) am :
  (forall p, p ∈ ps -> fromisoformat (isoformat (press_stamp p)) = Some (press_stamp p)) ->
  (forall p, p ∈ ps -> 0 <= Py.datetime_sub (press_stamp p) (press_now p)) ->
  recorded_since fromisoformat u a t0 am ->
  recorded_since fromisoformat u a t0 (presses fromisoformat ps bot am).1.2.
Proof.
  revert bot am. induction ps as [|p ps IH]; intros bot am Hiso Hclock Hrec; [done|].
  cbn [presses]. pose proof (handle_press_manager p bot am) as Hm.
  destruct (handle_press fromisoformat p bot am) as [[[b1 am1] o1] f1].
  cbn [fst snd] in Hm.
  assert (Hrec1 : recorded_since fromisoformat u a t0 am1).
  { subst am1.
    destruct (ActionManager.can_perform_action _ _ _ _ _) as [[|]|] eqn:Hcan; [|done..].
    destruct (decide ((u, a) = (Update.effective_user_id (press_update p), press_action p)))
      as [Heq|Hne].
    - injection Heq as -> ->. destruct Hrec as (t & Ht & Hread & Hge).
      exists (press_stamp p). split; [apply update_action_time_same|].
      split; [apply Hiso; left|].
      unfold ActionManager.can_perform_action in Hcan.
      rewrite Ht, isoformat_not_empty, Hread in Hcan.
      destruct (Py.datetime_sub (press_now p) t <? ActionManager.week) eqn:Hlt;
        [discriminate|]. apply Z.ltb_ge in Hlt.
      specialize (Hclock p (list_elem_of_here _ _)).
      rewrite (datetime_sub_split _ (press_now p) t0), (datetime_sub_split _ t t0).
      unfold ActionManager.week in Hlt. lia.
    - destruct Hrec as (t & Ht & Hread & Hge). exists t.
      now rewrite update_action_time_other. }
  specialize (IH b1 am1 (fun q Hq => Hiso q (list_elem_of_further _ _ _ Hq))
                (fun q Hq => Hclock q (list_elem_of_further _ _ _ Hq)) Hrec1).
  now destruct (presses fromisoformat ps b1 am1) as [[b2 am2] o2].
Qed.
End Week.

(** Over any history of presses of the "call" buttons, two allowed calls
    of one user for one action are at least seven days apart: from the
    time recorded for the earlier to the time the later was decided.
    [fromisoformat] has to read back the recorded times, and within a
    call the clock must not run backwards. Calls of other users, for other
    actions, refused calls and failed writes or sends in between change
    nothing about it. *)
Theorem calls_a_week_apart {Bot : Type} (T : Transport Bot)
    (fromisoformat : string -> option Py.datetime)
    (pre mid : list press) (first second : press) (bot : Bot) (am : ActionManager.t) :
  Update.effective_user_id (press_update second)
    = Update.effective_user_id (press_update first) ->
  press_action second = press_action first ->
  (forall p, p ∈ first :: mid ->
     fromisoformat (isoformat (press_stamp p)) = Some (press_stamp p)) ->
  (forall p, p ∈ mid -> 0 <= Py.datetime_sub (press_stamp p) (press_now p)) ->
  allowed fromisoformat pre first bot am ->
  allowed fromisoformat (pre ++ first :: mid) second bot am ->
  ActionManager.week <= Py.datetime_sub (press_now second) (press_stamp first).
Proof.
  unfold allowed. intros Hu Ha Hiso Hclock Hfirst Hsecond.
  rewrite presses_app in Hsecond. cbn [presses] in Hsecond.
  destruct (presses fromisoformat pre bot am) as [[b0 am0] o0]. cbn [fst snd] in *.
  pose proof (handle_press_manager fromisoformat first b0 am0) as Hm.
  rewrite Hfirst in Hm.
  destruct (handle_press fromisoformat first b0 am0) as [[[b1 am1] o1] f1].
  cbn [fst snd] in Hm.
  assert (Hrec : recorded_since fromisoformat
                   (Update.effective_user_id (press_update first)) (press_action first)
                   (press_stamp first) am1).
  { exists (press_stamp first). subst am1. split; [apply update_action_time_same|].
    split; [apply Hiso; left|]. unfold Py.datetime_sub. lia. }
  pose proof (presses_recorded_since fromisoformat _ _ _ mid b1 am1
                (fun q Hq => Hiso q (list_elem_of_further _ _ _ Hq)) Hclock Hrec)
    as (t & Ht & Hread & Hge).
  destruct (presses fromisoformat mid b1 am1) as [[b2 am2] o2]. cbn [fst snd] in *.
  unfold ActionManager.can_perform_action in Hsecond.
  rewrite Hu, Ha, Ht, isoformat_not_empty, Hread in Hsecond.
  destruct (Py.datetime_sub (press_now second) t <? ActionManager.week) eqn:Hlt;
    [discriminate|]. apply Z.ltb_ge in Hlt.
  rewrite (datetime_sub_split _ t (press_stamp first)). lia.
Qed.

Lemma calls_a_week_apart_witness :
  @allowed nat Demo.flaky (reads stamps) beers beer_again 0%nat actions0
  /\ ActionManager.week
     <= Py.datetime_sub (press_now beer_again) (Py.mk_datetime 2029 12 31 0 0 10 0).
Proof.
  assert (Hlast : @allowed nat Demo.flaky (reads stamps) beers beer_again
                    0%nat actions0) by reflexivity.
  split; [exact Hlast|].
  apply (calls_a_week_apart Demo.flaky (reads stamps) [] (tail beers)
           (mk_press ann "beer" Demo.eve Demo.eve_10s Demo.users Database.Written)
           beer_again 0%nat actions0).
  - reflexivity.
  - reflexivity.
  - intros p Hp. apply list_elem_of_In in Hp. cbn in Hp.
    decompose [or] Hp; subst; try done; reflexivity.
  - intros p Hp. apply list_elem_of_In in Hp. cbn in Hp.
    decompose [or] Hp; subst; try done; vm_compute; discriminate.
  - reflexivity.
  - exact Hlast.
Defined.

(** ** Ticks that are too far apart *)

Lemma window_edges_outside :
  let hl delta := Py.float_div (Py.total_seconds delta) (Py.float_of_int 3600) in
  forallb (fun h =>
    forallb (fun h' =>
      negb (in_window h' (hl (h * 3600 * 1000000 + 1)))
      && negb (in_window h' (hl ((h * 3600 - 60) * 1000000))))
      Config.REMINDER_HOURS)
    Config.REMINDER_HOURS = true.
Proof. vm_compute. reflexivity. Qed.

Lemma outside_all_windows (dt now : Py.datetime) (h h' : Z) :
  h ∈ Config.REMINDER_HOURS -> h' ∈ Config.REMINDER_HOURS ->
  Py.datetime_sub dt now = h * 3600 * 1000000 + 1
  \/ Py.datetime_sub dt now = (h * 3600 - 60) * 1000000 ->
  in_window h' (hours_left dt now) = false.
Proof.
  intros Hh Hh' Hd. pose proof window_edges_outside as H. cbn zeta in H.
  rewrite forallb_forall in H. specialize (H h (proj1 (list_elem_of_In _ _) Hh)).
  rewrite forallb_forall in H. specialize (H h' (proj1 (list_elem_of_In _ _) Hh')).
  apply andb_true_iff in H as [H1 H2].
  destruct Hd as [Hd|Hd]; rewrite (hours_left_delta _ _ _ Hd);
    [now apply negb_true_iff in H1|now apply negb_true_iff in H2].
Qed.

(** The window of a threshold is as long as the interval between two
    ticks and no longer: a tick one microsecond before the threshold is
    reached and the next one 60.000001 seconds later, sixty seconds after
    it was reached, both find no threshold of the deadline due and send
    nothing, whatever the ledger holds (shared and personal). *)
Theorem late_tick_skips_window {Bot : Type} (T : Transport Bot) (dl : Deadline)
    (dt now1 now2 : Py.datetime) (h : Z) :
  Py.strptime (deadline dl) = Some dt ->
  h ∈ Config.REMINDER_HOURS ->
  Py.datetime_sub dt now1 = h * 3600 * 1000000 + 1 ->
  Py.datetime_sub dt now2 = (h * 3600 - 60) * 1000000 ->
  Py.datetime_sub now2 now1 = 60 * 1000000 + 1
  /\ (forall h', due now1 dl h' = false /\ due now2 dl h' = false)
  /\ (forall us (s : Bot * ledger),
        GlobalDeadlineManager.check_deadline us now1 dl s = (s, [])
        /\ GlobalDeadlineManager.check_deadline us now2 dl s = (s, []))
  /\ (forall uid (s : Bot * ledger),
        UserDeadlineManager.check_deadline now1 uid dl s = (s, [])
        /\ UserDeadlineManager.check_deadline now2 uid dl s = (s, [])).
Proof.
  intros Hdt Hh H1 H2.
  assert (Hw1 : forall h', h' ∈ Config.REMINDER_HOURS ->
                  in_window h' (hours_left dt now1) = false)
    by (intros h' Hh'; apply (outside_all_windows dt now1 h h'); auto).
  assert (Hw2 : forall h', h' ∈ Config.REMINDER_HOURS ->
                  in_window h' (hours_left dt now2) = false)
    by (intros h' Hh'; apply (outside_all_windows dt now2 h h'); auto).
  split; [|split; [|split]].
  - rewrite (datetime_sub_split now2 dt now1), H1.
    assert (Hneg : Py.datetime_sub now2 dt = - Py.datetime_sub dt now2)
      by (unfold Py.datetime_sub; lia).
    rewrite Hneg, H2. lia.
  - intros h'. unfold due. rewrite Hdt.
    destruct (bool_decide (h' ∈ Config.REMINDER_HOURS)) eqn:E; [|done].
    apply bool_decide_eq_true in E. now rewrite Hw1, Hw2.
  - intros us s. unfold GlobalDeadlineManager.check_deadline. rewrite Hdt.
    split; apply for_each_idle; intros h' [b sent] Hh';
      unfold GlobalDeadlineManager.remind; now rewrite ?Hw1, ?Hw2.
  - intros uid s. unfold UserDeadlineManager.check_deadline. rewrite Hdt.
    split; apply for_each_idle; intros h' [b sent] Hh';
      unfold UserDeadlineManager.remind; now rewrite ?Hw1, ?Hw2.
Qed.

Lemma late_tick_skips_window_witness :
  @GlobalDeadlineManager.check_deadline nat Demo.flaky Demo.users
    (Py.mk_datetime 2029 12 30 23 59 59 999999) Demo.math (0%nat, ∅) = ((0%nat, ∅), [])
  /\ @GlobalDeadlineManager.check_deadline nat Demo.flaky Demo.users
       (Py.mk_datetime 2029 12 31 0 1 0 0) Demo.math (0%nat, ∅) = ((0%nat, ∅), []).
Proof.
  destruct (late_tick_skips_window Demo.flaky Demo.math (Py.mk_datetime 2030 1 1 0 0 0 0)
              (Py.mk_datetime 2029 12 30 23 59 59 999999)
              (Py.mk_datetime 2029 12 31 0 1 0 0) 24) as (_ & _ & H & _).
  - reflexivity.
  - repeat constructor.
  - reflexivity.
  - reflexivity.
  - apply (H Demo.users (0%nat, ∅)).
Defined.

(** ** The window, to the microsecond *)

Lemma digits2_pos_bounds (p : positive) :
  2 ^ (Z.pos (digits2_pos p) - 1) <= Z.pos p < 2 ^ Z.pos (digits2_pos p).
Proof.
  induction p as [p IH|p IH|]; cbn [digits2_pos].
  - rewrite Pos2Z.inj_succ.
    replace (Z.succ (Z.pos (digits2_pos p)) - 1) with (Z.pos (digits2_pos p)) by lia.
    rewrite Z.pow_succ_r by lia.
    assert (H : 2 ^ Z.pos (digits2_pos p) = 2 * 2 ^ (Z.pos (digits2_pos p) - 1)).
    { rewrite <- Z.pow_succ_r by lia. f_equal. lia. }
    lia.
  - rewrite Pos2Z.inj_succ.
    replace (Z.succ (Z.pos (digits2_pos p)) - 1) with (Z.pos (digits2_pos p)) by lia.
    rewrite Z.pow_succ_r by lia.
    assert (H : 2 ^ Z.pos (digits2_pos p) = 2 * 2 ^ (Z.pos (digits2_pos p) - 1)).
    { rewrite <- Z.pow_succ_r by lia. f_equal. lia. }
    lia.
  - cbn. lia.
Qed.

Lemma digits2_pos_unique (p : positive) (n : Z) :
  2 ^ (n - 1) <= Z.pos p < 2 ^ n -> Z.pos (digits2_pos p) = n.
Proof.
  intros [Hlo Hhi]. pose proof (digits2_pos_bounds p) as [Blo Bhi].
  assert (Hn : 0 < n).
  { destruct (Z.ltb_spec 0 n) as [|Hle]; [done|].
    assert (2 ^ n <= 1).
    { destruct (Z.eq_dec n 0) as [->|]; [cbn; lia|]. rewrite Z.pow_neg_r by lia. lia. }
    lia. }
  destruct (Z.lt_trichotomy (Z.pos (digits2_pos p)) n) as [Hlt|[Heq|Hgt]]; [|done|].
  - assert (2 ^ Z.pos (digits2_pos p) <= 2 ^ (n - 1)) by (apply Z.pow_le_mono_r; lia). lia.
  - assert (2 ^ n <= 2 ^ (Z.pos (digits2_pos p) - 1)) by (apply Z.pow_le_mono_r; lia). lia.
Qed.

Lemma loc_of_shr_record_of_loc (m : Z) (l : location) :
  loc_of_shr_record (shr_record_of_loc m l) = l.
Proof. now destruct l as [|[]]. Qed.

Lemma shr_m_of_loc (m : Z) (l : location) : shr_m (shr_record_of_loc m l) = m.
Proof. now destruct l as [|[]]. Qed.

Lemma round_nearest_even_bounds (m : Z) (l : location) :
  m <= round_nearest_even m l <= m + 1 /\ (l = loc_Exact -> round_nearest_even m l = m).
Proof.
  destruct l as [|[]]; cbn; try (split; [lia|done]).
  destruct (Z.even m); split; try lia; done.
Qed.

(** A mantissa of 53 digits is left in place by [shr_fexp]. *)
Lemma shr_fexp_53 (m : positive) (e : Z) (l : location) :
  2 ^ 52 <= Z.pos m < 2 ^ 53 -> -1074 <= e ->
  shr_fexp Py.prec Py.emax (Z.pos m) e l = (shr_record_of_loc (Z.pos m) l, e).
Proof.
  intros Hm He. unfold shr_fexp. cbn [Zdigits2].
  rewrite (digits2_pos_unique m 53) by (change (53 - 1) with 52; lia).
  unfold fexp, emin, Py.prec, Py.emax.
  replace (Z.max (53 + e - 53) (3 - 1024 - 53) - e) with 0 by lia.
  reflexivity.
Qed.

(** Rounding a quotient of 53 digits: the mantissa is kept or raised by
    one, and kept when the quotient is exact. *)
Lemma binary_round_aux_53 (m : positive) (e : Z) (l : location) :
  2 ^ 52 <= Z.pos m < 2 ^ 53 - 1 -> -1074 <= e <= 971 ->
  exists M, binary_round_aux Py.prec Py.emax false (Z.pos m) e l = S754_finite false M e
    /\ Z.pos m <= Z.pos M <= Z.pos m + 1
    /\ (l = loc_Exact -> Z.pos M = Z.pos m).
Proof.
  intros Hm He. unfold binary_round_aux.
  rewrite shr_fexp_53 by lia.
  rewrite shr_m_of_loc, loc_of_shr_record_of_loc.
  destruct (round_nearest_even_bounds (Z.pos m) l) as [Hr Hex].
  destruct (round_nearest_even (Z.pos m) l) as [|M|M] eqn:E; try lia.
  rewrite shr_fexp_53 by lia. cbn [shr_m shr_record_of_loc].
  unfold Py.emax, Py.prec. rewrite (proj2 (Z.leb_le e (1024 - 53))) by lia.
  exists M. auto.
Qed.

Lemma half_xI (p : positive) : Z.pos p~1 / 2 = Z.pos p.
Proof. symmetry. apply (Z.div_unique _ 2 _ 1); lia. Qed.

Lemma half_xO (p : positive) : Z.pos p~0 / 2 = Z.pos p.
Proof. symmetry. apply (Z.div_unique _ 2 _ 0); lia. Qed.

(** Rounding a quotient of 54 digits: one digit is shifted out. *)
Lemma binary_round_aux_54 (m : positive) (e : Z) (l : location) :
  2 ^ 53 <= Z.pos m < 2 ^ 54 - 2 -> -1075 <= e <= 970 ->
  exists M, binary_round_aux Py.prec Py.emax false (Z.pos m) e l
            = S754_finite false M (e + 1)
    /\ Z.pos m / 2 <= Z.pos M <= Z.pos m / 2 + 1
    /\ (l = loc_Exact -> Z.even (Z.pos m) = true -> Z.pos M = Z.pos m / 2).
Proof.
  intros Hm He. unfold binary_round_aux.
  assert (Hs : shr_fexp Py.prec Py.emax (Z.pos m) e l
               = (shr_1 (shr_record_of_loc (Z.pos m) l), e + 1)).
  { unfold shr_fexp. cbn [Zdigits2].
    rewrite (digits2_pos_unique m 54) by (change (54 - 1) with 53; lia).
    unfold fexp, emin, Py.prec, Py.emax.
    replace (Z.max (54 + e - 53) (3 - 1024 - 53) - e) with 1 by lia.
    reflexivity. }
  rewrite Hs. clear Hs.
  assert (Hhalf : exists p r s, shr_1 (shr_record_of_loc (Z.pos m) l)
                                = Build_shr_record (Z.pos p) r s
                    /\ Z.pos p = Z.pos m / 2
                    /\ (l = loc_Exact -> Z.even (Z.pos m) = true -> r = false /\ s = false)).
  { destruct m as [p|p|]; [| |lia].
    - exists p. rewrite half_xI.
      destruct l as [|[]]; cbn; (do 2 eexists; split; [reflexivity|]);
        (split; [done|]); intros; discriminate.
    - exists p. rewrite half_xO.
      destruct l as [|[]]; cbn; (do 2 eexists; split; [reflexivity|]);
        (split; [done|]); intros; (discriminate || auto). }
  destruct Hhalf as (p & r & s & -> & Hp & Hex). cbn [shr_m].
  assert (Hp2 : 2 ^ 52 <= Z.pos p < 2 ^ 53 - 1).
  { pose proof (Z.div_mod (Z.pos m) 2 ltac:(lia)) as Hd.
    pose proof (Z.mod_pos_bound (Z.pos m) 2 ltac:(lia)) as Hb.
    rewrite <- Hp in Hd.
    change (2 ^ 53) with 9007199254740992 in Hm.
    change (2 ^ 54) with 18014398509481984 in Hm.
    change (2 ^ 52) with 4503599627370496. change (2 ^ 53) with 9007199254740992.
    lia. }
  rewrite <- Hp. clear Hp Hm.
  set (lc := loc_of_shr_record _).
  destruct (round_nearest_even_bounds (Z.pos p) lc) as [Hr Hex'].
  destruct (round_nearest_even (Z.pos p) lc) as [|M|M] eqn:E; try lia.
  rewrite shr_fexp_53 by lia. cbn [shr_m shr_record_of_loc].
  unfold Py.emax, Py.prec. rewrite (proj2 (Z.leb_le (e + 1) (1024 - 53))) by lia.
  exists M. split; [done|]. split; [lia|].
  intros Hl Hev. destruct (Hex Hl Hev) as [-> ->]. subst lc. cbn in Hex'.
  now apply Hex'.
Qed.

Lemma new_location_exact (n : Z) : new_location n 0 = loc_Exact.
Proof. unfold new_location. now destruct (Z.even n). Qed.

(** The division of two positive finite floats, as a rounding of the
    integer quotient the specification computes. *)
Lemma SFdiv_finite (m1 m2 : positive) (e1 e2 : Z) :
  let e' := Z.min (fexp Py.prec Py.emax
                     (Z.pos (digits2_pos m1) + e1 - (Z.pos (digits2_pos m2) + e2)))
                  (e1 - e2) in
  let s := e1 - e2 - e' in
  0 < s ->
  SFdiv Py.prec Py.emax (S754_finite false m1 e1) (S754_finite false m2 e2)
  = binary_round_aux Py.prec Py.emax false
      (Z.pos m1 * 2 ^ s / Z.pos m2) e'
      (new_location (Z.pos m2) ((Z.pos m1 * 2 ^ s) mod Z.pos m2)).
Proof.
  intros e' s Hs. unfold SFdiv, SFdiv_core_binary. cbn [Zdigits2 xorb].
  fold e'. fold s. destruct s as [|ps|ps] eqn:Es; try lia.
  rewrite Z.shiftl_mul_pow2 by lia.
  unfold Z.div, Z.modulo.
  now destruct (Z.div_eucl (Z.pos m1 * 2 ^ Z.pos ps) (Z.pos m2)) as [q r].
Qed.

Section DivisionInARange.
Variables (m1 m2 : positive) (e1 e2 e' d1 d2 lo hi : Z).
Hypothesis digits1 : 2 ^ (d1 - 1) <= lo /\ hi < 2 ^ d1.
Hypothesis digits2 : 2 ^ (d2 - 1) <= Z.pos m2 < 2 ^ d2.
Hypothesis exponent : e' = Z.min (d1 + e1 - (d2 + e2) - 53) (e1 - e2).
Hypothesis normal : -1074 <= d1 + e1 - (d2 + e2) - 53.
Hypothesis shift : 0 < e1 - e2 - e'.
Hypothesis range : lo <= Z.pos m1 <= hi.
Hypothesis exact : (hi * 2 ^ (e1 - e2 - e')) mod Z.pos m2 = 0.
Hypothesis step : (hi - 1) * 2 ^ (e1 - e2 - e') / Z.pos m2
                  < hi * 2 ^ (e1 - e2 - e') / Z.pos m2.

Let s := e1 - e2 - e'.
Let q (m : Z) := m * 2 ^ s / Z.pos m2.

Lemma SFdiv_unfold_range :
  SFdiv Py.prec Py.emax (S754_finite false m1 e1) (S754_finite false m2 e2)
  = binary_round_aux Py.prec Py.emax false (q (Z.pos m1)) e'
      (new_location (Z.pos m2) ((Z.pos m1 * 2 ^ s) mod Z.pos m2)).
Proof.
  rewrite SFdiv_finite.
  - rewrite (digits2_pos_unique m1 d1), (digits2_pos_unique m2 d2) by lia.
    unfold fexp, emin, Py.prec, Py.emax.
    replace (Z.max (d1 + e1 - (d2 + e2) - 53) (3 - 1024 - 53))
      with (d1 + e1 - (d2 + e2) - 53) by lia.
    now rewrite <- exponent.
  - rewrite (digits2_pos_unique m1 d1), (digits2_pos_unique m2 d2) by lia.
    unfold fexp, emin, Py.prec, Py.emax.
    replace (Z.max (d1 + e1 - (d2 + e2) - 53) (3 - 1024 - 53))
      with (d1 + e1 - (d2 + e2) - 53) by lia.
    now rewrite <- exponent.
Qed.

Lemma quotient_range :
  q lo <= q (Z.pos m1) <= q hi
  /\ (Z.pos m1 < hi -> q (Z.pos m1) < q hi).
Proof.
  assert (Hp : 0 < 2 ^ s) by (apply Z.pow_pos_nonneg; unfold s; lia).
  unfold q. split; [split|].
  - apply Z.div_le_mono; [lia|]. apply Z.mul_le_mono_nonneg_r; lia.
  - apply Z.div_le_mono; [lia|]. apply Z.mul_le_mono_nonneg_r; lia.
  - intros Hlt. eapply Z.le_lt_trans; [|exact step].
    apply Z.div_le_mono; [lia|]. apply Z.mul_le_mono_nonneg_r; lia.
Qed.

(** The quotient has 53 digits over the whole range. *)
Lemma SFdiv_range_53 :
  2 ^ 52 <= q lo -> q hi < 2 ^ 53 - 1 -> e' <= 971 ->
  exists M, SFdiv Py.prec Py.emax (S754_finite false m1 e1) (S754_finite false m2 e2)
            = S754_finite false M e'
    /\ q lo <= Z.pos M <= q hi.
Proof.
  intros Hlo Hhi He. rewrite SFdiv_unfold_range.
  destruct quotient_range as [[Q1 Q2] Q3].
  destruct (q (Z.pos m1)) as [|Q|Q] eqn:EQ; try lia.
  destruct (binary_round_aux_53 Q e'
              (new_location (Z.pos m2) ((Z.pos m1 * 2 ^ s) mod Z.pos m2)))
    as (M & -> & HM & Hex); [lia|lia|].
  exists M. split; [done|]. split; [lia|].
  destruct (Z.eq_dec (Z.pos m1) hi) as [Heq|Hne].
  - rewrite Hex; [lia|]. rewrite Heq. unfold s. rewrite exact.
    apply new_location_exact.
  - assert (Z.pos Q < q hi) by (apply Q3; lia). lia.
Qed.

(** The quotient has 54 digits over the whole range. *)
Lemma SFdiv_range_54 :
  2 ^ 53 <= q lo -> q hi < 2 ^ 54 - 2 -> e' <= 970 -> Z.even (q hi) = true ->
  exists M, SFdiv Py.prec Py.emax (S754_finite false m1 e1) (S754_finite false m2 e2)
            = S754_finite false M (e' + 1)
    /\ q lo / 2 <= Z.pos M <= q hi / 2.
Proof.
  intros Hlo Hhi He Hev. rewrite SFdiv_unfold_range.
  destruct quotient_range as [[Q1 Q2] Q3].
  destruct (q (Z.pos m1)) as [|Q|Q] eqn:EQ; try lia.
  destruct (binary_round_aux_54 Q e'
              (new_location (Z.pos m2) ((Z.pos m1 * 2 ^ s) mod Z.pos m2)))
    as (M & -> & HM & Hex); [lia|lia|].
  exists M. split; [done|].
  assert (H1 : q lo / 2 <= Z.pos Q / 2) by (apply Z.div_le_mono; lia).
  split; [lia|].
  destruct (Z.eq_dec (Z.pos m1) hi) as [Heq|Hne].
  - rewrite Hex.
    + rewrite <- EQ, Heq. lia.
    + rewrite Heq. unfold s. rewrite exact. apply new_location_exact.
    + rewrite <- EQ, Heq. exact Hev.
  - assert (HQ : Z.pos Q < q hi) by (apply Q3; lia).
    assert (H2 : Z.pos Q / 2 + 1 <= q hi / 2).
    { apply Z.even_spec in Hev. destruct Hev as [c Hc]. rewrite Hc in *.
      replace (2 * c / 2) with c by (apply (Z.div_unique _ 2 _ 0); lia).
      pose proof (Z.div_mod (Z.pos Q) 2 ltac:(lia)) as Hd.
      pose proof (Z.mod_pos_bound (Z.pos Q) 2 ltac:(lia)) as Hb. lia. }
    lia.
Qed.
End DivisionInARange.

Lemma in_window_mantissa (h e : Z) (mh ml M : positive) :
  Py.float_of_int h = S754_finite false mh e ->
  lb h = S754_finite false ml e ->
  Z.pos ml < Z.pos M <= Z.pos mh ->
  in_window h (S754_finite false M e) = true.
Proof.
  intros Hh Hl HM. unfold in_window, Py.float_le, Py.float_lt, SFleb, SFltb.
  rewrite Hh, Hl. cbn [SFcompare]. rewrite Z.compare_refl.
  change (Pos.compare_cont Eq M mh) with (M ?= mh)%positive.
  change (Pos.compare_cont Eq ml M) with (ml ?= M)%positive.
  destruct (Pos.compare_spec M mh), (Pos.compare_spec ml M); try reflexivity; lia.
Qed.

Ltac bounds_in H :=
  match type of H with
  | ?a <= ?m <= ?b =>
      let a' := eval vm_compute in a in
      let b' := eval vm_compute in b in
      change (a' <= m <= b') in H
  end.



Ltac closed := vm_compute; repeat split; first [reflexivity | discriminate].

Lemma window_24 (td : Z) :
  (24 * 3600 - 60) * 1000000 < td <= 24 * 3600 * 1000000 ->
  in_window 24 (Py.float_div (Py.total_seconds td) (Py.float_of_int 3600)) = true.
Proof.
  intros Htd. destruct td as [|p|p]; try lia.
  unfold Py.total_seconds, Py.int_true_div, Py.float_div.
  change (Py.float_of_int 3600) with (S754_finite false 7916483719987200 (-41)).
  destruct (SFdiv_range_53 p 1000000 0 0 (-36) 37 20 86340000001 86400000000)
    as (M1 & -> & H1);
    [closed|closed|closed|closed|closed|lia|closed|closed|closed|closed|closed|].
  bounds_in H1.
  destruct (SFdiv_range_53 M1 7916483719987200 (-36) (-41) (-48) 53 53
              5933239621454959 5937362789990400)
    as (M2 & -> & H2);
    [closed|closed|closed|closed|closed|lia|closed|closed|closed|closed|closed|].
  bounds_in H2.
  destruct window_constants as (F & L & _).
  apply (in_window_mantissa 24 (-48) _ _ M2 F L). lia.
Qed.

Lemma window_72 (td : Z) :
  (72 * 3600 - 60) * 1000000 < td <= 72 * 3600 * 1000000 ->
  in_window 72 (Py.float_div (Py.total_seconds td) (Py.float_of_int 3600)) = true.
Proof.
  intros Htd. destruct td as [|p|p]; try lia.
  unfold Py.total_seconds, Py.int_true_div, Py.float_div.
  change (Py.float_of_int 3600) with (S754_finite false 7916483719987200 (-41)).
  destruct (SFdiv_range_53 p 1000000 0 0 (-35) 38 20 259140000001 259200000000)
    as (M1 & -> & H1);
    [closed|closed|closed|closed|closed|lia|closed|closed|closed|closed|closed|].
  bounds_in H1.
  destruct (SFdiv_range_54 M1 7916483719987200 (-35) (-41) (-47) 53 53
              8903982600717879 8906044184985600)
    as (M2 & -> & H2);
    [closed|closed|closed|closed|closed|lia|closed|closed|closed|closed|closed|closed|].
  bounds_in H2.
  destruct window_constants as (_ & _ & F & L & _).
  apply (in_window_mantissa 72 (-46) _ _ M2 F L). lia.
Qed.

Lemma window_120 (td : Z) :
  (120 * 3600 - 60) * 1000000 < td <= 120 * 3600 * 1000000 ->
  in_window 120 (Py.float_div (Py.total_seconds td) (Py.float_of_int 3600)) = true.
Proof.
  intros Htd. destruct td as [|p|p]; try lia.
  unfold Py.total_seconds, Py.int_true_div, Py.float_div.
  change (Py.float_of_int 3600) with (S754_finite false 7916483719987200 (-41)).
  destruct (SFdiv_range_53 p 1000000 0 0 (-34) 39 20 431940000001 432000000000)
    as (M1 & -> & H1);
    [closed|closed|closed|closed|closed|lia|closed|closed|closed|closed|closed|].
  bounds_in H1.
  destruct (SFdiv_range_53 M1 7916483719987200 (-34) (-41) (-46) 53 53
              7420672695354139 7421703487488000)
    as (M2 & -> & H2);
    [closed|closed|closed|closed|closed|lia|closed|closed|closed|closed|closed|].
  bounds_in H2.
  destruct window_constants as (_ & _ & _ & _ & F & L).
  apply (in_window_mantissa 120 (-46) _ _ M2 F L). lia.
Qed.

(** A tick from the instant a threshold is reached until just under sixty
    seconds later finds the threshold due. *)
Lemma tick_in_window_is_due (now : Py.datetime) (dl : Deadline) (dt : Py.datetime) (h : Z) :
  Py.strptime (deadline dl) = Some dt -> h ∈ Config.REMINDER_HOURS ->
  (h * 3600 - 60) * 1000000 < Py.datetime_sub dt now <= h * 3600 * 1000000 ->
  due now dl h = true.
Proof.
  intros Hdt Hh Htd. unfold due. rewrite Hdt, bool_decide_eq_true_2 by done.
  unfold hours_left. apply reminder_hours_cases in Hh as [-> | [-> | ->]];
    [now apply window_24|now apply window_72|now apply window_120].
Qed.

(** The window to the microsecond: a check whose clock lies between the
    instant a threshold of a deadline is reached (included) and sixty
    seconds later (excluded) finds that threshold due, and sends the
    reminder if the deadline is stored and its key is not in the ledger:
    to every user in the shared check, to one user in the personal check. *)
Theorem tick_in_window_fires {Bot : Type} (T : Transport Bot) (us : list string)
    (now : Py.datetime) (bot : Bot) (dl : Deadline) (dt : Py.datetime) (h : Z) :
  Py.strptime (deadline dl) = Some dt ->
  h ∈ Config.REMINDER_HOURS ->
  (h * 3600 - 60) * 1000000 < Py.datetime_sub dt now <= h * 3600 * 1000000 ->
  due now dl h = true
  /\ (forall gdm,
        dl ∈ GlobalDeadlineManager.deadlines gdm ->
        GlobalDeadlineManager.sent_reminders gdm
          !! GlobalDeadlineManager.reminder_key dl h = None ->
        dispatched Shared (GlobalDeadlineManager.reminder_key dl h) us (Py.strftime now)
          (filter (about Shared (GlobalDeadlineManager.reminder_key dl h))
             (GlobalDeadlineManager.check_deadlines (Some us) now bot gdm).2))
  /\ (forall udm uid arr,
        (uid, arr) ∈ UserDeadlineManager.deadlines udm -> dl ∈ arr ->
        UserDeadlineManager.sent_reminders udm
          !! UserDeadlineManager.r_key uid dl h = None ->
        exists uid',
          dispatched Personal (UserDeadlineManager.r_key uid dl h) [uid'] (Py.strftime now)
            (filter (about Personal (UserDeadlineManager.r_key uid dl h))
               (UserDeadlineManager.check_personal_deadlines now bot udm).2)).
Proof.
  intros Hdt Hh Htd.
  assert (Hdue : due now dl h = true) by now apply (tick_in_window_is_due now dl dt h).
  split; [done|]. split.
  - intros gdm Hdl Hk. now eapply proj1, stored_shared_is_dispatched.
  - intros udm uid arr Hin Hdl Hk.
    pose proof (check_personal_tracks (UserDeadlineManager.r_key uid dl h) now bot udm) as Ht.
    unfold tracks in Ht. rewrite Hk in Ht.
    destruct Ht as [(Hidle & _)|(us' & st & (-> & uid' & -> & _) & _ & Hd)].
    + destruct (Hidle uid). now exists arr, dl, h.
    + now exists uid'.
Qed.

Lemma tick_in_window_fires_witness :
  due (Py.mk_datetime 2029 12 31 0 0 59 999999) Demo.math 24 = true
  /\ dispatched Shared "Math_01.01.2030_24" Demo.users "2029-12-31 00:00:59"
       (filter (about Shared "Math_01.01.2030_24")
          (@GlobalDeadlineManager.check_deadlines nat Demo.flaky (Some Demo.users)
             (Py.mk_datetime 2029 12 31 0 0 59 999999) 0%nat Demo.shared0).2).
Proof.
  destruct (tick_in_window_fires Demo.flaky Demo.users
              (Py.mk_datetime 2029 12 31 0 0 59 999999) 0%nat Demo.math
              (Py.mk_datetime 2030 1 1 0 0 0 0) 24) as (H1 & H2 & _).
  - reflexivity.
  - repeat constructor.
  - split; [reflexivity|vm_compute; discriminate].
  - split; [exact H1|]. apply (H2 Demo.shared0); [left|reflexivity].
Defined.

Lemma spaced_hits (dt : Py.datetime) (lo : Z) (ticks : list Py.datetime)
    (t_first t_last : Py.datetime) :
  spaced ticks -> head ticks = Some t_first -> last ticks = Some t_last ->
  lo < Py.datetime_sub dt t_first ->
  Py.datetime_sub dt t_last <= lo + Config.CHECK_INTERVAL * 1000000 ->
  exists t, t ∈ ticks
    /\ lo < Py.datetime_sub dt t <= lo + Config.CHECK_INTERVAL * 1000000.
Proof.
  revert t_first. induction ticks as [|a rest IH]; intros t_first Hsp Hhd Hlast Hlo Hhi;
    [discriminate|].
  injection Hhd as ->.
  destruct (Z_le_gt_dec (Py.datetime_sub dt t_first)
              (lo + Config.CHECK_INTERVAL * 1000000)) as [Hin|Hout].
  - exists t_first. split; [left|lia].
  - destruct rest as [|b rest'].
    + injection Hlast as ->. lia.
    + destruct Hsp as [Hgap Hsp].
      destruct (IH b Hsp eq_refl Hlast) as (t & Ht & Hw); [|done|].
      * rewrite (datetime_sub_split dt t_first b).
        assert (Hneg : Py.datetime_sub t_first b = - Py.datetime_sub b t_first)
          by (unfold Py.datetime_sub; lia).
        lia.
      * exists t. split; [now right|done].
Qed.

Section Timer.
Context {Bot : Type} `{!Transport Bot}.

Lemma check_step_store c (s : Bot * StudentBot.t) :
  is_check c ->
  GlobalDeadlineManager.deadlines (StudentBot.global_manager (StudentBot.step c s).1.2)
  = GlobalDeadlineManager.deadlines (StudentBot.global_manager s.2)
  /\ UserDeadlineManager.deadlines
       (StudentBot.user_manager_deadline (StudentBot.step c s).1.2)
     = UserDeadlineManager.deadlines (StudentBot.user_manager_deadline s.2).
Proof.
  destruct s as [bot [g u]]. destruct c as [| | | |um now|now]; try done; intros _;
    simpl.
  - pose proof (check_deadlines_store um now bot g) as H.
    destruct (GlobalDeadlineManager.check_deadlines um now bot g) as [[b g'] e].
    now cbn in *.
  - pose proof (check_personal_store now bot u) as H.
    destruct (UserDeadlineManager.check_personal_deadlines now bot u) as [[b u'] e].
    now cbn in *.
Qed.

Lemma run_keeps_key sc k calls (s : Bot * StudentBot.t) :
  is_Some (StudentBot.sent_reminders sc s.2 !! k) ->
  is_Some (StudentBot.sent_reminders sc (StudentBot.run calls s).1.2 !! k).
Proof.
  intros [v Hv]. pose proof (run_tracks sc k calls s) as Ht.
  unfold tracks in Ht. rewrite Hv in Ht. destruct Ht as [-> _]. eauto.
Qed.

Lemma shared_check_covers us t (s : Bot * StudentBot.t) dl h :
  due t dl h = true ->
  dl ∈ GlobalDeadlineManager.deadlines (StudentBot.global_manager s.2) ->
  is_Some (StudentBot.sent_reminders Shared
             (StudentBot.step (StudentBot.CheckDeadlines (Some us) t) s).1.2
             !! GlobalDeadlineManager.reminder_key dl h).
Proof.
  intros Hdue Hdl. destruct s as [bot [g u]].
  cbn [StudentBot.step StudentBot.global_manager StudentBot.user_manager_deadline snd] in *.
  pose proof (tracks_covered _ _ _ _ _ _ _
                (check_deadlines_tracks (GlobalDeadlineManager.reminder_key dl h)
                   (Some us) t bot g)) as H.
  destruct (GlobalDeadlineManager.check_deadlines (Some us) t bot g) as [[b g'] e].
  cbn in *. apply H. intros [Hn|Hn]; [discriminate|]. apply Hn. now exists dl, h.
Qed.

Lemma personal_check_covers t (s : Bot * StudentBot.t) uid arr dl h :
  due t dl h = true ->
  (uid, arr) ∈ UserDeadlineManager.deadlines (StudentBot.user_manager_deadline s.2) ->
  dl ∈ arr ->
  is_Some (StudentBot.sent_reminders Personal
             (StudentBot.step (StudentBot.CheckPersonalDeadlines t) s).1.2
             !! UserDeadlineManager.r_key uid dl h).
Proof.
  intros Hdue Hin Hdl. destruct s as [bot [g u]].
  cbn [StudentBot.step StudentBot.global_manager StudentBot.user_manager_deadline snd] in *.
  pose proof (tracks_covered _ _ _ _ _ _ _
                (check_personal_tracks (UserDeadlineManager.r_key uid dl h) t bot u)) as H.
  destruct (UserDeadlineManager.check_personal_deadlines t bot u) as [[b u'] e].
  cbn in *. apply H. intros Hn. apply (Hn uid). now exists arr, dl, h.
Qed.

Lemma checks_cover calls (s : Bot * StudentBot.t) dl h t :
  Forall is_check calls -> due t dl h = true ->
  (t ∈ shared_ticks calls ->
   dl ∈ GlobalDeadlineManager.deadlines (StudentBot.global_manager s.2) ->
   is_Some (StudentBot.sent_reminders Shared (StudentBot.run calls s).1.2
              !! GlobalDeadlineManager.reminder_key dl h))
  /\ (t ∈ personal_ticks calls ->
      forall uid arr,
        (uid, arr) ∈ UserDeadlineManager.deadlines (StudentBot.user_manager_deadline s.2) ->
        dl ∈ arr ->
        is_Some (StudentBot.sent_reminders Personal (StudentBot.run calls s).1.2
                   !! UserDeadlineManager.r_key uid dl h)).
Proof.
  intros Hall Hdue. revert s. induction Hall as [|c calls Hc Hall IH]; intros s.
  { split; intros Ht; now apply elem_of_nil in Ht. }
  rewrite run_cons. cbn [fst].
  destruct (check_step_store c s Hc) as [Hg Hu].
  destruct (IH (StudentBot.step c s).1) as [IH1 IH2]. rewrite Hg in IH1. rewrite Hu in IH2.
  split.
  - intros Ht Hdl. destruct c as [| | | |[us|] now|now]; try done;
      cbn [shared_ticks omap list_omap] in Ht; fold (shared_ticks calls) in Ht; auto.
    apply elem_of_cons in Ht as [->|Ht]; [|auto].
    apply run_keeps_key. now apply shared_check_covers.
  - intros Ht uid arr Hin Hdl. destruct c as [| | | |um now|now]; try done;
      cbn [personal_ticks omap list_omap] in Ht; fold (personal_ticks calls) in Ht;
      [eauto|].
    apply elem_of_cons in Ht as [->|Ht]; [|eauto].
    apply run_keeps_key. now apply (personal_check_covers now s uid arr).
Qed.
End Timer.

(** No threshold is missed while the checks come at most sixty seconds
    apart. In a history of checks, if the shared checks start before the
    window of a threshold of a stored deadline has closed, follow each
    other at most sixty seconds apart and go on until the threshold is
    reached or passed, the reminder for that deadline and threshold is in
    the ledger afterwards, and if it was not in the ledger before, it was
    sent in one of these checks, completely and once. The same holds of the
    personal checks for every user who stores the deadline. *)
Theorem no_threshold_is_missed {Bot : Type} (T : Transport Bot)
    (calls : list StudentBot.call) (bot : Bot) (self : StudentBot.t)
    (dl : Deadline) (dt : Py.datetime) (h : Z) :
  Forall is_check calls ->
  Py.strptime (deadline dl) = Some dt ->
  h ∈ Config.REMINDER_HOURS ->
  let r := StudentBot.run calls (bot, self) in
  let in_time (ticks : list Py.datetime) :=
    spaced ticks
    /\ exists t_first t_last, head ticks = Some t_first /\ last ticks = Some t_last
         /\ (h * 3600 - 60) * 1000000 < Py.datetime_sub dt t_first
         /\ Py.datetime_sub dt t_last <= h * 3600 * 1000000 in
  (in_time (shared_ticks calls) ->
   dl ∈ GlobalDeadlineManager.deadlines (StudentBot.global_manager self) ->
   let k := GlobalDeadlineManager.reminder_key dl h in
   is_Some (StudentBot.sent_reminders Shared r.1.2 !! k)
   /\ (StudentBot.sent_reminders Shared self !! k = None ->
       exists us stamp, dispatched Shared k us stamp (filter (about Shared k) r.2)))
  /\ (in_time (personal_ticks calls) ->
      forall uid arr,
        (uid, arr) ∈ UserDeadlineManager.deadlines (StudentBot.user_manager_deadline self) ->
        dl ∈ arr ->
        let k := UserDeadlineManager.r_key uid dl h in
        is_Some (StudentBot.sent_reminders Personal r.1.2 !! k)
        /\ (StudentBot.sent_reminders Personal self !! k = None ->
            exists us stamp, dispatched Personal k us stamp
                               (filter (about Personal k) r.2))).
Proof.
  intros Hall Hdt Hh r in_time.
  assert (Hhit : forall ticks, in_time ticks -> exists t, t ∈ ticks /\ due t dl h = true).
  { intros ticks (Hsp & t_first & t_last & Hhd & Hlast & Hlo & Hhi).
    destruct (spaced_hits dt ((h * 3600 - 60) * 1000000) ticks t_first t_last)
      as (t & Ht & Hw); [done..|unfold Config.CHECK_INTERVAL; lia|].
    exists t. split; [done|]. apply (tick_in_window_is_due t dl dt h Hdt Hh).
    unfold Config.CHECK_INTERVAL in Hw. lia. }
  assert (Hsent : forall sc k,
            is_Some (StudentBot.sent_reminders sc r.1.2 !! k) ->
            StudentBot.sent_reminders sc self !! k = None ->
            exists us stamp, dispatched sc k us stamp (filter (about sc k) r.2)).
  { intros sc k [v Hv] Hk.
    pose proof (run_tracks sc k calls (bot, self)) as Htr.
    fold r in Htr. unfold tracks in Htr. cbn [snd] in Htr. rewrite Hk in Htr.
    destruct Htr as [(_ & Hnone & _)|(us & st & _ & _ & Hd)]; [congruence|eauto]. }
  split.
  - intros (t & Ht & Hdue)%Hhit Hdl k.
    destruct (checks_cover calls (bot, self) dl h t Hall Hdue) as [H1 _].
    split; [now apply H1|]. apply Hsent. now apply H1.
  - intros (t & Ht & Hdue)%Hhit uid arr Hin Hdl k.
    destruct (checks_cover calls (bot, self) dl h t Hall Hdue) as [_ H2].
    split; [now apply (H2 Ht uid arr)|]. apply Hsent. now apply (H2 Ht uid arr).
Qed.

Lemma no_threshold_is_missed_witness :
  let r := @StudentBot.run nat Demo.flaky minute_calls (0%nat, Demo.bot0) in
  is_Some (StudentBot.sent_reminders Shared r.1.2 !! "Math_01.01.2030_24")
  /\ is_Some (StudentBot.sent_reminders Personal r.1.2 !! "7_Math_01.01.2030_24").
Proof.
  intros r.
  destruct (no_threshold_is_missed Demo.flaky minute_calls 0%nat Demo.bot0 Demo.math
              (Py.mk_datetime 2030 1 1 0 0 0 0) 24) as [H1 H2].
  - repeat constructor.
  - reflexivity.
  - repeat constructor.
  - split.
    + refine (proj1 (H1 _ _)); [|left].
      split; [repeat split; vm_compute; discriminate|].
      exists (Py.mk_datetime 2029 12 30 23 58 59 500000),
             (Py.mk_datetime 2029 12 31 0 1 59 500000).
      repeat split; try reflexivity. vm_compute. discriminate.
    + refine (proj1 (H2 _ "7" [Demo.legacy; Demo.math] _ _)); [|right; left|right; left].
      split; [repeat split; vm_compute; discriminate|].
      exists (Py.mk_datetime 2029 12 30 23 58 59 750000),
             (Py.mk_datetime 2029 12 31 0 1 59 750000).
      repeat split; try reflexivity. vm_compute. discriminate.
Defined.

(** ** The window, read backwards *)

(** Division in binary64 is within half a unit in the last place of the
    quotient; with it a value that passes the window test is traced back
    to the microseconds it came from. *)

(** The last shift of [binary_round_aux]: a mantissa of 53 digits stays,
    the mantissa [2^53] becomes [2^52] one exponent higher. *)
Lemma round_aux_finish (m : Z) (e : Z) :
  2 ^ 52 <= m <= 2 ^ 53 -> -1074 <= e <= 970 ->
  exists M E,
    (let '(mrs, e'') := shr_fexp Py.prec Py.emax m e loc_Exact in
     match shr_m mrs with
     | 0 => S754_zero false
     | Z.pos m0 => if e'' <=? Py.emax - Py.prec then S754_finite false m0 e''
                   else S754_infinity false
     | Z.neg _ => S754_nan
     end) = S754_finite false M E
    /\ 2 ^ 52 <= Z.pos M < 2 ^ 53 /\ e <= E <= e + 1 /\ Z.pos M * 2 ^ (E - e) = m.
Proof.
  change (2 ^ 52) with 4503599627370496. change (2 ^ 53) with 9007199254740992.
  intros Hm He. destruct m as [|p|p]; try lia.
  destruct (Pos.eq_dec p 9007199254740992%positive) as [->|Hne].
  - exists (4503599627370496%positive), (e + 1).
    split; [|split; [|split]]; [|lia|lia|].
    + unfold shr_fexp. cbn [Zdigits2].
      change (Z.pos (digits2_pos 9007199254740992%positive)) with 54.
      unfold fexp, emin, Py.prec, Py.emax.
      replace (Z.max (54 + e - 53) (3 - 1024 - 53) - e) with 1 by lia.
      cbn [shr shr_record_of_loc iter_pos shr_1 shr_m orb].
      rewrite (proj2 (Z.leb_le (e + 1) (1024 - 53))) by lia. reflexivity.
    + replace (e + 1 - e) with 1 by lia. reflexivity.
  - rewrite shr_fexp_53
      by (change (2 ^ 52) with 4503599627370496; change (2 ^ 53) with 9007199254740992; lia).
    cbn [shr_m shr_record_of_loc].
    unfold Py.emax, Py.prec. rewrite (proj2 (Z.leb_le e (1024 - 53))) by lia.
    exists p, e. split; [done|]. split; [lia|]. split; [lia|].
    replace (e - e) with 0 by lia. lia.
Qed.

Lemma new_location_spec (D r : Z) :
  0 < D -> 0 <= r < D ->
  match new_location D r with
  | loc_Exact => r = 0
  | loc_Inexact Lt => 0 < 2 * r < D
  | loc_Inexact Eq => 2 * r = D
  | loc_Inexact Gt => D < 2 * r
  end.
Proof.
  intros HD Hr. unfold new_location, new_location_even, new_location_odd.
  destruct (Z.even D) eqn:Ev.
  - destruct (Z.eqb_spec r 0) as [->|Hne]; [done|].
    destruct (Z.compare_spec (2 * r) D); lia.
  - destruct (Z.eqb_spec r 0) as [->|Hne]; [done|].
    assert (Hodd : D <> 2 * r).
    { intros ->. rewrite Z.even_mul in Ev. discriminate. }
    destruct (Z.compare_spec (2 * r + 1) D); lia.
Qed.

(** Rounding a quotient [q] with remainder [r] of 53 digits. *)
Lemma round_quotient_53 (q : positive) (e D r : Z) :
  2 ^ 52 <= Z.pos q < 2 ^ 53 -> -1074 <= e <= 970 -> 0 < D -> 0 <= r < D ->
  exists M E,
    binary_round_aux Py.prec Py.emax false (Z.pos q) e (new_location D r)
    = S754_finite false M E
    /\ 2 ^ 52 <= Z.pos M < 2 ^ 53 /\ e <= E <= e + 1
    /\ 2 * Z.abs (Z.pos M * 2 ^ (E - e) * D - (Z.pos q * D + r)) <= D.
Proof.
  intros Hq He HD Hr. unfold binary_round_aux.
  rewrite shr_fexp_53 by lia. rewrite shr_m_of_loc, loc_of_shr_record_of_loc.
  pose proof (new_location_spec D r HD Hr) as Hloc.
  destruct (round_nearest_even_bounds (Z.pos q) (new_location D r)) as [Hb _].
  destruct (round_aux_finish (round_nearest_even (Z.pos q) (new_location D r)) e)
    as (M & E & -> & HM & HE & HV); [lia|lia|].
  exists M, E. split; [done|]. split; [done|]. split; [done|].
  rewrite HV. destruct (new_location D r) as [|[]]; cbn [round_nearest_even] in *.
  - nia.
  - destruct (Z.even (Z.pos q)); nia.
  - nia.
  - nia.
Qed.

(** Rounding a quotient of 54 digits: the last digit is rounded away. *)
Lemma round_quotient_54 (q : positive) (e D r : Z) :
  2 ^ 53 <= Z.pos q < 2 ^ 54 -> -1075 <= e <= 969 -> 0 < D -> 0 <= r < D ->
  exists M E,
    binary_round_aux Py.prec Py.emax false (Z.pos q) e (new_location D r)
    = S754_finite false M E
    /\ 2 ^ 52 <= Z.pos M < 2 ^ 53 /\ e + 1 <= E <= e + 2
    /\ 2 * Z.abs (Z.pos M * 2 ^ (E - e) * D - (Z.pos q * D + r)) <= 2 * D.
Proof.
  intros Hq He HD Hr. unfold binary_round_aux.
  assert (Hs : shr_fexp Py.prec Py.emax (Z.pos q) e (new_location D r)
               = (shr_1 (shr_record_of_loc (Z.pos q) (new_location D r)), e + 1)).
  { unfold shr_fexp. cbn [Zdigits2].
    rewrite (digits2_pos_unique q 54) by (change (54 - 1) with 53; lia).
    unfold fexp, emin, Py.prec, Py.emax.
    replace (Z.max (54 + e - 53) (3 - 1024 - 53) - e) with 1 by lia.
    reflexivity. }
  rewrite Hs. clear Hs.
  pose proof (new_location_spec D r HD Hr) as Hloc.
  (* the halved quotient, its round bit and the location it is rounded with *)
  assert (Hhalf : exists p lc,
    shr_m (shr_1 (shr_record_of_loc (Z.pos q) (new_location D r))) = Z.pos p
    /\ loc_of_shr_record (shr_1 (shr_record_of_loc (Z.pos q) (new_location D r))) = lc
    /\ 2 ^ 52 <= Z.pos p < 2 ^ 53
    /\ 2 * Z.abs (2 * round_nearest_even (Z.pos p) lc * D - (Z.pos q * D + r)) <= 2 * D).
  { change (2 ^ 53) with 9007199254740992 in Hq.
    change (2 ^ 54) with 18014398509481984 in Hq.
    change (2 ^ 52) with 4503599627370496. change (2 ^ 53) with 9007199254740992.
    destruct q as [p|p|]; [| |lia].
    - exists p. destruct (new_location D r) as [|[]]; cbn;
        eexists; (split; [reflexivity|]); (split; [reflexivity|]); (split; [lia|]);
        cbn [round_nearest_even]; try (destruct (Z.even (Z.pos p))); nia.
    - exists p. destruct (new_location D r) as [|[]]; cbn;
        eexists; (split; [reflexivity|]); (split; [reflexivity|]); (split; [lia|]);
        cbn [round_nearest_even]; try (destruct (Z.even (Z.pos p))); nia. }
  destruct Hhalf as (p & lc & -> & -> & Hp & Hsand).
  destruct (round_nearest_even_bounds (Z.pos p) lc) as [Hb _].
  destruct (round_aux_finish (round_nearest_even (Z.pos p) lc) (e + 1))
    as (M & E & -> & HM & HE & HV); [lia|lia|].
  exists M, E. split; [done|]. split; [done|]. split; [lia|].
  replace (E - e) with (E - (e + 1) + 1) by lia.
  rewrite Z.pow_add_r by lia. change (2 ^ 1) with 2.
  replace (Z.pos M * (2 ^ (E - (e + 1)) * 2)) with (2 * (Z.pos M * 2 ^ (E - (e + 1)))) by lia.
  now rewrite HV.
Qed.

(** The quotient of two positive finite floats is a normal float within
    half a unit in the last place of the exact quotient. [d1] and [d2] are
    the numbers of digits of the two mantissas. *)
Lemma SFdiv_sandwich (m1 m2 : positive) (e1 e2 d1 d2 : Z) :
  2 ^ (d1 - 1) <= Z.pos m1 < 2 ^ d1 -> 2 ^ (d2 - 1) <= Z.pos m2 < 2 ^ d2 ->
  0 < d2 - d1 + 53 ->
  -1074 <= d1 + e1 - (d2 + e2) - 53 <= 969 ->
  exists M E,
    SFdiv Py.prec Py.emax (S754_finite false m1 e1) (S754_finite false m2 e2)
    = S754_finite false M E
    /\ 2 ^ 52 <= Z.pos M < 2 ^ 53
    /\ 0 <= E - (d1 + e1 - (d2 + e2) - 53) <= 2
    /\ 2 * Z.abs (Z.pos M * 2 ^ (E - (d1 + e1 - (d2 + e2) - 53)) * Z.pos m2
                  - Z.pos m1 * 2 ^ (d2 - d1 + 53))
       <= Z.pos m2 * 2 ^ (E - (d1 + e1 - (d2 + e2) - 53)).
Proof.
  intros H1 H2 Hs He.
  set (e' := d1 + e1 - (d2 + e2) - 53) in *. set (s := d2 - d1 + 53) in *.
  assert (Hd1 : 0 < d1).
  { destruct (Z.ltb_spec 0 d1) as [|Hle]; [done|].
    assert (2 ^ d1 <= 1).
    { destruct (Z.eq_dec d1 0) as [->|]; [cbn; lia|]. rewrite Z.pow_neg_r by lia. lia. }
    lia. }
  assert (Hd2 : 0 < d2).
  { destruct (Z.ltb_spec 0 d2) as [|Hle]; [done|].
    assert (2 ^ d2 <= 1).
    { destruct (Z.eq_dec d2 0) as [->|]; [cbn; lia|]. rewrite Z.pow_neg_r by lia. lia. }
    lia. }
  rewrite SFdiv_finite;
    rewrite (digits2_pos_unique m1 d1), (digits2_pos_unique m2 d2) by lia;
    unfold fexp, emin, Py.prec, Py.emax;
    replace (Z.min (Z.max (d1 + e1 - (d2 + e2) - 53) (3 - 1024 - 53)) (e1 - e2))
      with e' by (unfold e'; lia);
    replace (e1 - e2 - e') with s by (unfold e', s; lia); [|lia].
  set (N := Z.pos m1 * 2 ^ s).
  pose proof (Z.div_mod N (Z.pos m2) ltac:(lia)) as Hdm.
  pose proof (Z.mod_pos_bound N (Z.pos m2) ltac:(lia)) as Hr.
  set (q := N / Z.pos m2) in *. set (r := N mod Z.pos m2) in *.
  assert (Hp2 : 2 ^ (d2 - 1 + 1) = 2 ^ (d2 - 1) * 2) by (rewrite Z.pow_add_r by lia; reflexivity).
  replace (d2 - 1 + 1) with d2 in Hp2 by lia.
  assert (HNlo : 2 ^ 52 * 2 ^ d2 <= N).
  { unfold N. replace (2 ^ 52 * 2 ^ d2) with (2 ^ (d1 - 1) * 2 ^ s).
    - apply Z.mul_le_mono_nonneg_r; [apply Z.pow_nonneg|]; lia.
    - rewrite <- !Z.pow_add_r by lia. f_equal. unfold s. lia. }
  assert (HNhi : N < 2 ^ 54 * 2 ^ (d2 - 1)).
  { unfold N. replace (2 ^ 54 * 2 ^ (d2 - 1)) with (2 ^ d1 * 2 ^ s).
    - apply Z.mul_lt_mono_pos_r; [apply Z.pow_pos_nonneg|]; lia.
    - rewrite <- !Z.pow_add_r by lia. f_equal. unfold s. lia. }
  assert (Hq : 2 ^ 52 <= q < 2 ^ 54).
  { change (2 ^ 52) with 4503599627370496 in *. change (2 ^ 54) with 18014398509481984 in *.
    nia. }
  destruct q as [|Q|Q] eqn:EQ; try (change (2 ^ 52) with 4503599627370496 in Hq; lia).
  destruct (Z_lt_ge_dec (Z.pos Q) (2 ^ 53)) as [H53|H54].
  - destruct (round_quotient_53 Q e' (Z.pos m2) r) as (M & E & HR & HM & HE & Hsand);
      [lia|lia|lia|lia|].
    exists M, E. split; [exact HR|]. split; [done|]. split; [lia|].
    replace (Z.pos Q * Z.pos m2 + r) with N in Hsand by lia.
    assert (1 <= 2 ^ (E - e')) by (apply (Z.pow_le_mono_r 2 0); lia).
    nia.
  - destruct (round_quotient_54 Q e' (Z.pos m2) r) as (M & E & HR & HM & HE & Hsand);
      [lia|lia|lia|lia|].
    exists M, E. split; [exact HR|]. split; [done|]. split; [lia|].
    replace (Z.pos Q * Z.pos m2 + r) with N in Hsand by lia.
    assert (2 <= 2 ^ (E - e')) by (apply (Z.pow_le_mono_r 2 1); lia).
    nia.
Qed.

Ltac powers_in H :=
  repeat match type of H with
         | context [2 ^ ?x] =>
             let v := eval vm_compute in (2 ^ x) in
             lazymatch v with
             | context [Z.pow] => fail
             | context [Z.pow_pos] => fail
             | _ => change (2 ^ x) with v in H
             end
         end.

(** Only inside its sixty seconds does a threshold pass the window test. *)
Lemma window_only (h td : Z) :
  h ∈ Config.REMINDER_HOURS -> 0 < td < 2 ^ 72 ->
  in_window h (Py.float_div (Py.total_seconds td) (Py.float_of_int 3600)) = true ->
  (h * 3600 - 60) * 1000000 < td <= h * 3600 * 1000000.
Proof.
  intros Hh Htd W. destruct td as [|p|p]; try lia.
  unfold Py.total_seconds, Py.int_true_div, Py.float_div in W.
  change (Py.float_of_int 3600) with (S754_finite false 7916483719987200 (-41)) in W.
  pose proof (digits2_pos_bounds p) as Hd.
  remember (Z.pos (digits2_pos p)) as d1 eqn:Ed1.
  assert (Hd1 : 1 <= d1 <= 72).
  { split; [lia|]. destruct (Z_le_gt_dec d1 72) as [|Hgt]; [done|].
    assert (2 ^ 72 <= 2 ^ (d1 - 1)) by (apply Z.pow_le_mono_r; lia). lia. }
  destruct (SFdiv_sandwich p 1000000 0 0 d1 20) as (M1 & E1 & HR1 & HM1 & HE1 & S1);
    [lia|vm_compute; split; [discriminate|reflexivity]|lia|lia|].
  rewrite HR1 in W.
  destruct (SFdiv_sandwich M1 7916483719987200 E1 (-41) 53 53)
    as (M2 & E2 & HR2 & HM2 & HE2 & S2);
    [change (53 - 1) with 52; lia|vm_compute; split; [discriminate|reflexivity]|lia|lia|].
  rewrite HR2 in W.
  destruct (window_bounds h _ Hh W) as (m & e & Heq & B). injection Heq as <- <-.
  clear W HR1 HR2 Ed1 Hh.
  assert (Hc1 : exists c1, E1 = d1 + 0 - (20 + 0) - 53 + c1 /\ 0 <= c1 <= 2)
    by (exists (E1 - (d1 + 0 - (20 + 0) - 53)); lia).
  destruct Hc1 as (c1 & -> & Hc1).
  replace (d1 + 0 - (20 + 0) - 53 + c1 - (d1 + 0 - (20 + 0) - 53)) with c1 in * by lia.
  assert (Hc2 : exists c2, E2 = 53 + (d1 + 0 - (20 + 0) - 53 + c1) - (53 + -41) - 53 + c2
                           /\ 0 <= c2 <= 2)
    by (exists (E2 - (53 + (d1 + 0 - (20 + 0) - 53 + c1) - (53 + -41) - 53)); lia).
  destruct Hc2 as (c2 & -> & Hc2).
  replace (53 + (d1 + 0 - (20 + 0) - 53 + c1) - (53 + -41) - 53 + c2
           - (53 + (d1 + 0 - (20 + 0) - 53 + c1) - (53 + -41) - 53)) with c2 in * by lia.
  change (53 - 53 + 53) with 53 in S2.
  change (2 ^ 52) with 4503599627370496 in *. change (2 ^ 53) with 9007199254740992 in *.
  assert (Hd1' : d1 = 37 \/ d1 = 36 \/ d1 = 35 \/ d1 = 34 \/ d1 = 33 \/ d1 = 38 \/ d1 = 39)
    by lia.
  assert (Hc1' : c1 = 0 \/ c1 = 1 \/ c1 = 2) by lia.
  assert (Hc2' : c2 = 0 \/ c2 = 1 \/ c2 = 2) by lia.
  destruct Hc1' as [-> | [-> | ->]]; destruct Hc2' as [-> | [-> | ->]];
    decompose [or] Hd1'; subst d1; try lia;
    powers_in S1; powers_in S2; powers_in Hd; lia.
Qed.

Lemma due_only_in_window (now : Py.datetime) (dl : Deadline) (dt : Py.datetime) (h : Z) :
  Py.strptime (deadline dl) = Some dt -> Py.datetime_sub dt now < 2 ^ 72 ->
  due now dl h = true ->
  h ∈ Config.REMINDER_HOURS
  /\ (h * 3600 - 60) * 1000000 < Py.datetime_sub dt now <= h * 3600 * 1000000.
Proof.
  intros Hdt Htd. unfold due. rewrite Hdt.
  intros [Hh%bool_decide_eq_true W]%andb_true_iff. split; [done|].
  destruct (Z_le_gt_dec (Py.datetime_sub dt now) 0) as [Hle|Hgt].
  - now rewrite (overdue_outside_windows dt now h Hle Hh) in W.
  - apply window_only; [done|lia|exact W].
Qed.

(** The window test is exact to the microsecond. The rounding of the two
    float divisions never moves an instant across an end of the window:
    a threshold of a stored deadline is due at [now] exactly when it is
    one of the configured ones and the time left is at most the threshold
    and more than the threshold less sixty seconds. *)
Theorem window_is_exact (now : Py.datetime) (dl : Deadline) (dt : Py.datetime) (h : Z) :
  Py.strptime (deadline dl) = Some dt ->
  Py.datetime_sub dt now < 2 ^ 72 ->
  due now dl h = true <->
  h ∈ Config.REMINDER_HOURS
  /\ (h * 3600 - 60) * 1000000 < Py.datetime_sub dt now <= h * 3600 * 1000000.
Proof.
  intros Hdt Htd. split.
  - now apply due_only_in_window.
  - intros [Hh Hw]. now apply (tick_in_window_is_due now dl dt h).
Qed.

Lemma window_is_exact_witness :
  due (Py.mk_datetime 2029 12 31 0 0 59 999999) Demo.math 24 = true
  /\ due (Py.mk_datetime 2029 12 31 0 1 0 0) Demo.math 24 <> true
  /\ due (Py.mk_datetime 2029 12 30 23 59 59 999999) Demo.math 24 <> true.
Proof.
  assert (Hdt : Py.strptime (deadline Demo.math) = Some (Py.mk_datetime 2030 1 1 0 0 0 0))
    by reflexivity.
  split; [|split].
  - apply (window_is_exact _ Demo.math _ 24 Hdt); [reflexivity|].
    split; [repeat constructor|]. split; [reflexivity|vm_compute; discriminate].
  - intros Hdue.
    apply (window_is_exact _ Demo.math _ 24 Hdt) in Hdue as [_ [Hlo _]]; [|reflexivity].
    vm_compute in Hlo. discriminate.
  - intros Hdue.
    apply (window_is_exact _ Demo.math _ 24 Hdt) in Hdue as [_ [_ Hhi]]; [|reflexivity].
    vm_compute in Hhi. now apply Hhi.
Defined.

Lemma misses_not_due (ticks : list Py.datetime) (dl : Deadline) (h : Z) (t : Py.datetime) :
  misses ticks dl h -> t ∈ ticks -> due t dl h = false.
Proof.
  intros Hm Ht. destruct (due t dl h) eqn:Hdue; [|done].
  assert (Hp : exists dt, Py.strptime (deadline dl) = Some dt).
  { unfold due in Hdue. destruct (Py.strptime (deadline dl)); [eauto|done]. }
  destruct Hp as [dt Hdt]. specialize (Hm dt t Hdt Ht).
  assert (Hh : h ∈ Config.REMINDER_HOURS).
  { unfold due in Hdue. rewrite Hdt in Hdue.
    now apply andb_true_iff in Hdue as [Hh%bool_decide_eq_true _]. }
  assert (Hb : h <= 120) by (apply reminder_hours_cases in Hh; lia).
  apply (due_only_in_window t dl dt h Hdt) in Hdue; lia.
Qed.

Lemma misses_cons (t : Py.datetime) (ticks : list Py.datetime) (dl : Deadline) (h : Z) :
  misses (t :: ticks) dl h -> misses [t] dl h /\ misses ticks dl h.
Proof.
  intros Hm. split; intros dt t' Hdt Ht; apply (Hm dt t' Hdt).
  - apply list_elem_of_singleton in Ht as ->. left.
  - now right.
Qed.

Section Missed.
Context {Bot : Type} `{!Transport Bot}.

Lemma shared_check_misses um t (bot : Bot) g k :
  GlobalDeadlineManager.sent_reminders g !! k = None ->
  (forall dl h, dl ∈ GlobalDeadlineManager.deadlines g -> h ∈ Config.REMINDER_HOURS ->
     GlobalDeadlineManager.reminder_key dl h = k -> is_Some um -> misses [t] dl h) ->
  GlobalDeadlineManager.sent_reminders
    (GlobalDeadlineManager.check_deadlines um t bot g).1.2 !! k = None
  /\ filter (about Shared k) (GlobalDeadlineManager.check_deadlines um t bot g).2 = [].
Proof.
  intros Hk Hm. pose proof (check_deadlines_tracks k um t bot g) as Ht.
  unfold tracks in Ht. rewrite Hk in Ht.
  destruct Ht as [(_ & Hs & He)|(us & st & (-> & _ & dl & h & Hdl & Hdue & Hkey) & _)];
    [done|].
  assert (Hh : h ∈ Config.REMINDER_HOURS).
  { unfold due in Hdue. destruct (Py.strptime (deadline dl)); [|done].
    now apply andb_true_iff in Hdue as [Hh%bool_decide_eq_true _]. }
  rewrite (misses_not_due [t] dl h t) in Hdue; [done| |left]. apply Hm; eauto.
Qed.

Lemma personal_check_misses t (bot : Bot) u k :
  UserDeadlineManager.sent_reminders u !! k = None ->
  (forall uid arr dl h, (uid, arr) ∈ UserDeadlineManager.deadlines u -> dl ∈ arr ->
     h ∈ Config.REMINDER_HOURS -> UserDeadlineManager.r_key uid dl h = k ->
     misses [t] dl h) ->
  UserDeadlineManager.sent_reminders
    (UserDeadlineManager.check_personal_deadlines t bot u).1.2 !! k = None
  /\ filter (about Personal k) (UserDeadlineManager.check_personal_deadlines t bot u).2 = [].
Proof.
  intros Hk Hm. pose proof (check_personal_tracks k t bot u) as Ht.
  unfold tracks in Ht. rewrite Hk in Ht.
  destruct Ht as [(_ & Hs & He)
                 |(us & st & (_ & uid & _ & arr & dl & h & Hin & Hdl & Hdue & Hkey) & _)];
    [done|].
  assert (Hh : h ∈ Config.REMINDER_HOURS).
  { unfold due in Hdue. destruct (Py.strptime (deadline dl)); [|done].
    now apply andb_true_iff in Hdue as [Hh%bool_decide_eq_true _]. }
  rewrite (misses_not_due [t] dl h t) in Hdue; [done| |left]. now apply (Hm uid arr).
Qed.

Lemma checks_miss calls (s : Bot * StudentBot.t) :
  Forall is_check calls ->
  (forall k,
     StudentBot.sent_reminders Shared s.2 !! k = None ->
     (forall dl h,
        dl ∈ GlobalDeadlineManager.deadlines (StudentBot.global_manager s.2) ->
        h ∈ Config.REMINDER_HOURS -> GlobalDeadlineManager.reminder_key dl h = k ->
        misses (shared_ticks calls) dl h) ->
     StudentBot.sent_reminders Shared (StudentBot.run calls s).1.2 !! k = None
     /\ filter (about Shared k) (StudentBot.run calls s).2 = [])
  /\ (forall k,
        StudentBot.sent_reminders Personal s.2 !! k = None ->
        (forall uid arr dl h,
           (uid, arr) ∈ UserDeadlineManager.deadlines (StudentBot.user_manager_deadline s.2) ->
           dl ∈ arr -> h ∈ Config.REMINDER_HOURS ->
           UserDeadlineManager.r_key uid dl h = k ->
           misses (personal_ticks calls) dl h) ->
        StudentBot.sent_reminders Personal (StudentBot.run calls s).1.2 !! k = None
        /\ filter (about Personal k) (StudentBot.run calls s).2 = []).
Proof.
  intros Hall. revert s. induction Hall as [|c calls Hc Hall IH]; intros s; [done|].
  rewrite run_cons. cbn [fst snd].
  destruct (check_step_store c s Hc) as [Hg Hu].
  destruct (IH (StudentBot.step c s).1) as [IH1 IH2]. rewrite Hg in IH1. rewrite Hu in IH2.
  clear IH Hg Hu. destruct s as [bot [g u]].
  destruct c as [| | | |um now|now]; try done; clear Hc;
    cbn [StudentBot.step StudentBot.global_manager StudentBot.user_manager_deadline
         StudentBot.sent_reminders snd] in *.
  - pose proof (check_deadlines_events um now bot g) as Hev.
    pose proof (fun k => shared_check_misses um now bot g k) as Hstep.
    destruct (GlobalDeadlineManager.check_deadlines um now bot g) as [[b g'] e].
    cbn [fst snd StudentBot.global_manager StudentBot.user_manager_deadline
         StudentBot.sent_reminders] in *.
    split.
    + intros k Hk Hm. rewrite filter_app.
      destruct (Hstep k Hk) as [Hk' ->].
      { intros dl h Hdl Hh Hkey [us ->]. cbn [shared_ticks omap list_omap] in Hm.
        fold (shared_ticks calls) in Hm. now apply (misses_cons _ _ _ _ (Hm dl h Hdl Hh Hkey)). }
      apply (IH1 k Hk'). intros dl h Hdl Hh Hkey. specialize (Hm dl h Hdl Hh Hkey).
      destruct um as [us|]; cbn [shared_ticks omap list_omap] in Hm;
        fold (shared_ticks calls) in Hm; [now apply misses_cons in Hm|done].
    + intros k Hk Hm. rewrite filter_app.
      rewrite (scope_filter_nil Personal Shared k (fun _ => True) e); [|done|].
      2:{ eapply Forall_impl; [exact Hev|]. intros ev (dl & h & _ & _ & Ha). eauto. }
      now apply IH2.
  - pose proof (check_personal_events now bot u) as Hev.
    pose proof (fun k => personal_check_misses now bot u k) as Hstep.
    destruct (UserDeadlineManager.check_personal_deadlines now bot u) as [[b u'] e].
    cbn [fst snd StudentBot.global_manager StudentBot.user_manager_deadline
         StudentBot.sent_reminders] in *.
    split.
    + intros k Hk Hm. rewrite filter_app.
      rewrite (scope_filter_nil Shared Personal k (fun _ => True) e); [|done|].
      2:{ eapply Forall_impl; [exact Hev|].
          intros ev (uid & arr & dl & h & _ & _ & _ & Ha). eauto. }
      now apply IH1.
    + intros k Hk Hm. rewrite filter_app.
      cbn [personal_ticks omap list_omap] in Hm. fold (personal_ticks calls) in Hm.
      destruct (Hstep k Hk) as [Hk' ->].
      { intros uid arr dl h Hin Hdl Hh Hkey.
        now apply (misses_cons _ _ _ _ (Hm uid arr dl h Hin Hdl Hh Hkey)). }
      apply (IH2 k Hk'). intros uid arr dl h Hin Hdl Hh Hkey.
      now apply (misses_cons _ _ _ _ (Hm uid arr dl h Hin Hdl Hh Hkey)).
Qed.
End Missed.

(** A window that no check falls into is lost. In a history of checks, a
    reminder that is not in the ledger, and whose sixty seconds are missed
    by every check for every stored deadline and threshold that yield its
    key, is sent to nobody and is not in the ledger afterwards: a check
    that comes after the window does not catch up (shared and personal). *)
Theorem missed_window_is_lost {Bot : Type} (T : Transport Bot)
    (calls : list StudentBot.call) (bot : Bot) (self : StudentBot.t) :
  Forall is_check calls ->
  let r := StudentBot.run calls (bot, self) in
  (forall k,
     StudentBot.sent_reminders Shared self !! k = None ->
     (forall dl h,
        dl ∈ GlobalDeadlineManager.deadlines (StudentBot.global_manager self) ->
        h ∈ Config.REMINDER_HOURS -> GlobalDeadlineManager.reminder_key dl h = k ->
        misses (shared_ticks calls) dl h) ->
     StudentBot.sent_reminders Shared r.1.2 !! k = None
     /\ filter (about Shared k) r.2 = [])
  /\ (forall k,
        StudentBot.sent_reminders Personal self !! k = None ->
        (forall uid arr dl h,
           (uid, arr) ∈ UserDeadlineManager.deadlines (StudentBot.user_manager_deadline self) ->
           dl ∈ arr -> h ∈ Config.REMINDER_HOURS ->
           UserDeadlineManager.r_key uid dl h = k ->
           misses (personal_ticks calls) dl h) ->
        StudentBot.sent_reminders Personal r.1.2 !! k = None
        /\ filter (about Personal k) r.2 = []).
Proof. intros Hall r. apply (checks_miss calls (bot, self) Hall). Qed.

Lemma missed_window_is_lost_witness :
  let r := @StudentBot.run nat Demo.flaky late_calls (0%nat, Demo.bot0) in
  (StudentBot.sent_reminders Shared r.1.2 !! "Math_01.01.2030_24" = None
   /\ filter (about Shared "Math_01.01.2030_24") r.2 = [])
  /\ (StudentBot.sent_reminders Personal r.1.2 !! "7_Math_01.01.2030_24" = None
      /\ filter (about Personal "7_Math_01.01.2030_24") r.2 = []).
Proof.
  intros r.
  assert (Hmiss : forall ticks dl h,
            ticks = [Py.mk_datetime 2029 12 30 23 59 59 999999;
                     Py.mk_datetime 2029 12 31 0 1 0 0] ->
            dl = Demo.math -> h = 24 -> misses ticks dl h).
  { intros ticks dl h -> -> -> dt t Hdt Ht. injection Hdt as <-.
    apply elem_of_cons in Ht as [->|Ht];
      [|apply list_elem_of_singleton in Ht as ->].
    - right. split; reflexivity.
    - left. vm_compute. discriminate. }
  destruct (missed_window_is_lost Demo.flaky late_calls 0%nat Demo.bot0) as [H1 H2];
    [repeat constructor|].
  split.
  - apply H1; [reflexivity|]. intros dl h Hdl Hh Hkey.
    apply Hmiss; [reflexivity| |].
    + apply elem_of_cons in Hdl as [->|Hdl]; [done|].
      apply elem_of_cons in Hdl as [->|Hdl];
        [|apply list_elem_of_singleton in Hdl as ->];
        apply reminder_hours_cases in Hh as [-> | [-> | ->]]; vm_compute in Hkey;
        discriminate.
    + apply elem_of_cons in Hdl as [->|Hdl];
        [|apply elem_of_cons in Hdl as [->|Hdl];
          [|apply list_elem_of_singleton in Hdl as ->]];
        apply reminder_hours_cases in Hh as [-> | [-> | ->]]; vm_compute in Hkey;
        first [reflexivity|discriminate].
  - apply H2; [reflexivity|]. intros uid arr dl h Hin Hdl Hh Hkey.
    assert (Hcase : (uid = "42" /\ dl = Demo.math)
                    \/ (uid = "7" /\ (dl = Demo.legacy \/ dl = Demo.math))).
    { apply elem_of_cons in Hin as [Hin|Hin];
        [|apply list_elem_of_singleton in Hin]; injection Hin as -> ->.
      - left. now apply list_elem_of_singleton in Hdl.
      - right. split; [done|]. apply elem_of_cons in Hdl as [->|Hdl]; [now left|].
        right. now apply list_elem_of_singleton in Hdl. }
    apply Hmiss; [reflexivity| |].
    + destruct Hcase as [[-> ->]|[-> [->| ->]]];
        apply reminder_hours_cases in Hh as [-> | [-> | ->]]; vm_compute in Hkey;
        first [reflexivity|discriminate].
    + destruct Hcase as [[-> ->]|[-> [->| ->]]];
        apply reminder_hours_cases in Hh as [-> | [-> | ->]]; vm_compute in Hkey;
        first [reflexivity|discriminate].
Defined.
